(** * Kosh Profile Tracker: the analysis pipeline of [utils/reportGenerator.js]
      and the number formatter of [utils/pdfGenerator.js]

    A shallow embedding of the JavaScript functions that turn a scraped
    profile into the behaviour, content, engagement, suspicious-activity and
    health views of the report, followed by the properties the specification
    states about them.

    Conventions of the embedding.
    - A JavaScript number that the code keeps integral (counts, [parseInt]
      results, [Math.round] results, [length]s) is a [Z]; [NaN] is [None] in
      [option Z].  Where the report generator divides, the quotient is a [Q],
      computed exactly: IEEE-754 rounding of the division is not modelled
      there.  [formatNumber] prints its quotient, so there the number is a
      [JsNum] and the quotient is rounded to binary64 ([toDouble]).
    - Strings are [string]s of bytes; [length] counts bytes where JavaScript
      counts UTF-16 code units, which agrees on ASCII text.
    - Object literals whose keys are the same on every path are records;
      objects whose keys differ from one path to another are [JsVal] objects
      (association lists in insertion order).
    - A function in which an expression can throw on the input types used
      here returns an [option], [None] standing for the TypeError; the other
      functions are total. *)

From Stdlib Require Import ZArith QArith Qround Qabs Lia Lqa List Bool.
From Stdlib Require Import Sorting.Sorted Sorting.Permutation.
From Stdlib Require Import Strings.String Strings.Ascii.
From Stdlib Require Import Numbers.DecimalString Numbers.DecimalN.
From Stdlib Require Import Numbers.HexadecimalString Numbers.HexadecimalN.
Import ListNotations.

Local Open Scope string_scope.
Local Open Scope Z_scope.
Local Set Warnings "-register-all".

(** ** JavaScript values *)

Inductive JsVal : Type :=
| VUndef
| VNull
| VBool (b : bool)
| VNum (z : Z)          (* an integer-valued number *)
| VNaN
| VStr (s : string)
| VArr (elems : list JsVal)
| VObj (fields : list (string * JsVal)).

(** Truthiness, as used by [!x], [x || y], [x && y] and [if (x)]. *)
Definition truthy (v : JsVal) : bool :=
  match v with
  | VUndef | VNull | VNaN => false
  | VBool b => b
  | VNum z => negb (z =? 0)
  | VStr s => negb (String.eqb s "")
  | VArr _ | VObj _ => true
  end.

(** [a || b] *)
Definition jsOr (a b : JsVal) : JsVal := if truthy a then a else b.

(** Property read [o.k] on an object value; a primitive has no own fields. *)
Fixpoint assoc (k : string) (fields : list (string * JsVal)) : option JsVal :=
  match fields with
  | [] => None
  | (k', v) :: rest => if String.eqb k k' then Some v else assoc k rest
  end.

Definition getProp (o : JsVal) (k : string) : JsVal :=
  match o with
  | VObj fields => match assoc k fields with Some v => v | None => VUndef end
  | _ => VUndef
  end.

Definition hasKey (o : JsVal) (k : string) : bool :=
  match o with
  | VObj fields => match assoc k fields with Some _ => true | None => false end
  | _ => false
  end.

Definition keysOf (o : JsVal) : list string :=
  match o with
  | VObj fields => map fst fields
  | _ => []
  end.

(** ** Strings: decimal rendering, [ToString], [parseInt] *)

(** [String(n)] for a non-negative integer below 10^21. *)
Definition N_to_string (n : N) : string :=
  DecimalString.NilEmpty.string_of_uint (N.to_uint n).

(** [String(z)] for an integer of magnitude below 10^21 (above that JavaScript
    switches to exponent notation, which no count of this program reaches). *)
Definition Z_to_string (z : Z) : string :=
  match z with
  | Z0 => "0"
  | Zpos p => N_to_string (Npos p)
  | Zneg p => "-" ++ N_to_string (Npos p)
  end.

Definition nat_to_string (n : nat) : string := N_to_string (N.of_nat n).

Fixpoint join (sep : string) (parts : list string) : string :=
  match parts with
  | [] => ""
  | [p] => p
  | p :: rest => p ++ sep ++ join sep rest
  end.

(** [String(v)]: arrays join their elements with commas, rendering
    [undefined] and [null] elements as empty; a plain object renders as
    [[object Object]]. *)
Fixpoint ToString (v : JsVal) : string :=
  match v with
  | VUndef => "undefined"
  | VNull => "null"
  | VBool true => "true"
  | VBool false => "false"
  | VNum z => Z_to_string z
  | VNaN => "NaN"
  | VStr s => s
  | VArr l =>
      join "," (map (fun e => match e with
                              | VUndef | VNull => ""
                              | _ => ToString e
                              end) l)
  | VObj _ => "[object Object]"
  end.

(** The ASCII members of WhiteSpace and LineTerminator: TAB, LF, VT, FF, CR
    and SP. *)
Definition isWhite (c : ascii) : bool :=
  let n := nat_of_ascii c in
  ((9 <=? n)%nat && (n <=? 13)%nat) || (n =? 32)%nat.

Fixpoint trimStart (s : string) : string :=
  match s with
  | String c rest => if isWhite c then trimStart rest else s
  | EmptyString => s
  end.

Definition decDigit (c : ascii) : option (Decimal.uint -> Decimal.uint) :=
  match c with
  | "0" => Some Decimal.D0 | "1" => Some Decimal.D1 | "2" => Some Decimal.D2
  | "3" => Some Decimal.D3 | "4" => Some Decimal.D4 | "5" => Some Decimal.D5
  | "6" => Some Decimal.D6 | "7" => Some Decimal.D7 | "8" => Some Decimal.D8
  | "9" => Some Decimal.D9
  | _ => None
  end%char.

Definition hexDigit (c : ascii) : option (Hexadecimal.uint -> Hexadecimal.uint) :=
  match c with
  | "0" => Some Hexadecimal.D0 | "1" => Some Hexadecimal.D1
  | "2" => Some Hexadecimal.D2 | "3" => Some Hexadecimal.D3
  | "4" => Some Hexadecimal.D4 | "5" => Some Hexadecimal.D5
  | "6" => Some Hexadecimal.D6 | "7" => Some Hexadecimal.D7
  | "8" => Some Hexadecimal.D8 | "9" => Some Hexadecimal.D9
  | "a" | "A" => Some Hexadecimal.Da | "b" | "B" => Some Hexadecimal.Db
  | "c" | "C" => Some Hexadecimal.Dc | "d" | "D" => Some Hexadecimal.Dd
  | "e" | "E" => Some Hexadecimal.De | "f" | "F" => Some Hexadecimal.Df
  | _ => None
  end%char.

(** The longest prefix of decimal digits, most significant digit first. *)
Fixpoint leadingDigits (s : string) : Decimal.uint :=
  match s with
  | String c rest =>
      match decDigit c with
      | Some d => d (leadingDigits rest)
      | None => Decimal.Nil
      end
  | EmptyString => Decimal.Nil
  end.

(** The longest prefix of hexadecimal digits (either case). *)
Fixpoint leadingHexDigits (s : string) : Hexadecimal.uint :=
  match s with
  | String c rest =>
      match hexDigit c with
      | Some d => d (leadingHexDigits rest)
      | None => Hexadecimal.Nil
      end
  | EmptyString => Hexadecimal.Nil
  end.

Definition signed (neg : bool) (n : N) : Z :=
  if neg then - Z.of_N n else Z.of_N n.

(** An optional sign: [(negative, rest)]. *)
Definition stripSign (s : string) : bool * string :=
  match s with
  | String c r =>
      if Ascii.eqb c "-" then (true, r)
      else if Ascii.eqb c "+" then (false, r)
      else (false, s)
  | EmptyString => (false, s)
  end.

(** What follows a [0x] or [0X] prefix, when there is one. *)
Definition hexPrefix (s : string) : option string :=
  match s with
  | String c0 (String c1 r) =>
      if Ascii.eqb c0 "0" && (Ascii.eqb c1 "x" || Ascii.eqb c1 "X")
      then Some r else None
  | _ => None
  end.

(** [parseInt(s)] with no radix: leading white space is skipped, one sign is
    accepted, a [0x]/[0X] prefix selects radix 16, and the longest run of
    digits is converted; no digit at all gives [NaN]. *)
Definition parseIntString (s : string) : option Z :=
  let '(neg, s2) := stripSign (trimStart s) in
  match hexPrefix s2 with
  | Some r =>
      match leadingHexDigits r with
      | Hexadecimal.Nil => None
      | d => Some (signed neg (N.of_hex_uint d))
      end
  | None =>
      match leadingDigits s2 with
      | Decimal.Nil => None
      | d => Some (signed neg (N.of_uint d))
      end
  end.

(** [parseInt(v)]: the argument is converted with [ToString] first. *)
Definition parseInt (v : JsVal) : option Z := parseIntString (ToString v).

(** [n || d] for a number [n]: [NaN] and [0] are falsy. *)
Definition orElse (n : option Z) (d : Z) : Z :=
  match n with
  | Some 0 | None => d
  | Some z => z
  end.

(** ** String methods *)

(** [s.toLowerCase()] on the ASCII letters. *)
Definition lowerChar (c : ascii) : ascii :=
  let n := nat_of_ascii c in
  if (65 <=? n)%nat && (n <=? 90)%nat then ascii_of_nat (n + 32) else c.

Fixpoint toLowerCase (s : string) : string :=
  match s with
  | EmptyString => EmptyString
  | String c rest => String (lowerChar c) (toLowerCase rest)
  end.

(** [s.includes(w)] *)
Fixpoint includes (s w : string) : bool :=
  String.prefix w s ||
  match s with
  | EmptyString => false
  | String _ rest => includes rest w
  end.

(** [s.substring(0, n)] *)
Definition substring0 (n : nat) (s : string) : string := String.substring 0 n s.

Fixpoint repeatChar (c : ascii) (n : nat) : string :=
  match n with
  | O => EmptyString
  | S k => String c (repeatChar c k)
  end.

(** ** Numbers *)

Definition Qltb (x y : Q) : bool :=
  match Qcompare x y with Lt => true | _ => false end.

Definition ZtoQ (z : Z) : Q := inject_Z z.

Definition natQ (n : nat) : Q := inject_Z (Z.of_nat n).

(** [Math.round]: the nearest integer, a tie going towards +infinity. *)
Definition Math_round (x : Q) : Z := Qfloor (x + (1 # 2))%Q.

Definition Math_ceil (x : Q) : Z := Qceiling x.

Definition Math_floor (x : Q) : Z := Qfloor x.

(** [x.toFixed(f)] for a finite [x] of magnitude below 10^21: the integer
    nearest to [x * 10^f] (the larger one on a tie), written with [f] digits
    after the point; a negative [x] keeps its sign even when it rounds to
    zero. *)
Definition toFixed (f : nat) (x : Q) : string :=
  let n := Qfloor (Qabs x * inject_Z (10 ^ Z.of_nat f) + (1 # 2))%Q in
  let m := N_to_string (Z.to_N n) in
  let m := repeatChar "0" (S f - String.length m) ++ m in
  let k := (String.length m - f)%nat in
  (if Qltb x 0 then "-" else "") ++
  String.substring 0 k m ++
  (if (f =? 0)%nat then "" else "." ++ String.substring k f m).

(** [toFixed] on a number that may be [NaN]. *)
Definition toFixedNum (f : nat) (x : option Q) : string :=
  match x with
  | Some q => toFixed f q
  | None => "NaN"
  end.

(** Addition of two numbers, either of which may be [NaN]. *)
Definition addNum (a b : option Z) : option Z :=
  match a, b with
  | Some x, Some y => Some (x + y)
  | _, _ => None
  end.

(** [arr.sort(cmp)] for a comparator returning a number: the sort is stable,
    an element moves in front of another only when the comparator is
    negative, and a [NaN] comparison counts as 0.  Insertion from the right
    gives the one order a stable sort can give under a consistent
    comparator. *)
Section Sort.
Context {A : Type} (cmp : A -> A -> option Z).

Definition before (x y : A) : bool :=
  match cmp x y with
  | Some c => c <=? 0
  | None => true
  end.

Fixpoint insertSorted (x : A) (l : list A) : list A :=
  match l with
  | [] => [x]
  | y :: rest => if before x y then x :: l else y :: insertSorted x rest
  end.

Definition sortBy (l : list A) : list A := fold_right insertSorted [] l.
End Sort.

(** [arr.slice(0, n)] *)
Definition slice0 {A : Type} (n : nat) (l : list A) : list A := firstn n l.

(** ** The scraped data *)

(** One scraped tweet.  The counts arrive as the scraper read them (numbers or
    strings) and go through [parseInt] at every use; the flags are read for
    truthiness only; [hashtags] and [mentions] may be absent. *)
Record Tweet : Type := {
  text : string;
  time : JsVal;
  likes : JsVal;
  retweets : JsVal;
  replies : JsVal;
  views : JsVal;
  hasImage : bool;
  hasVideo : bool;
  hasLink : bool;
  isReply : bool;
  isRetweet : bool;
  hashtags : option (list string);
  mentions : option (list string)
}.

(** The fields of the scraped Twitter profile that the analysis reads; the
    remaining ones (name, handle, bio, location, website) are only copied
    into the report. *)
Record TwitterData : Type := {
  followers : JsVal;
  following : JsVal;
  verified : bool;
  joinDate : JsVal;
  tweets : list Tweet
}.

(** [parseInt(data.followers) || 0] and [parseInt(data.following) || 0] *)
Definition followerCount (data : TwitterData) : Z :=
  orElse (parseInt (followers data)) 0.

Definition followingCount (data : TwitterData) : Z :=
  orElse (parseInt (following data)) 0.

(** [following > 0 ? followers / following : followers] *)
Definition followRatio (nFollowers nFollowing : Z) : Q :=
  if 0 <? nFollowing then (ZtoQ nFollowers / ZtoQ nFollowing)%Q
  else ZtoQ nFollowers.

(** [a === b] against a string literal *)
Definition isString (v : JsVal) (lit : string) : bool :=
  match v with
  | VStr s => String.eqb s lit
  | _ => false
  end.

Section Report.

(** The clock and the date parser of the host: [Date_parse s] is the time
    value (milliseconds since the epoch) of [new Date(s)], [None] for an
    Invalid Date; [now] is the time value of [new Date()]. *)
Variable Date_parse : string -> option Z.
Variable now : Z.

(** The non-empty branch of [analyzeTweetsInDepth] (word mining with
    regular expressions, local-time hours): the object it returns.  No
    property below depends on what it holds. *)
Variable depthOfTweets : list Tweet -> JsVal.

(** [new Date(v)]: a string is parsed, any other primitive is converted to
    a number and clipped to the range of time values, an array or object
    is parsed through its string form. *)
Definition newDate (v : JsVal) : option Z :=
  match v with
  | VStr s => Date_parse s
  | VNum z => if Z.abs z <=? 8640000000000000 then Some z else None
  | VBool b => Some (if b then 1 else 0)
  | VNull => Some 0
  | VUndef | VNaN => None
  | VArr _ | VObj _ => Date_parse (ToString v)
  end.

(** *** calculateAccountAge *)

Definition calculateAccountAge (joinDate : JsVal) : string :=
  if negb (truthy joinDate) || isString joinDate "Not specified"
  then "Unknown"
  else
    let joined := newDate joinDate in
    let diffTime := option_map (fun j => Z.abs (now - j)) joined in
    let diffDays :=
      option_map
        (fun d => Math_ceil (ZtoQ d / ZtoQ (1000 * 60 * 60 * 24))%Q)
        diffTime in
    match diffDays with
    | Some d =>
        if d <? 30 then Z_to_string d ++ " days"
        else if d <? 365
             then Z_to_string (Math_floor (ZtoQ d / 30)%Q) ++ " months"
             else Z_to_string (Math_floor (ZtoQ d / 365)%Q) ++ " years"
    | None => "NaN years"
    end.

(** *** calculateConsistency *)

(** [timestamps[i - 1] - timestamps[i]] for [i] from 1 *)
Fixpoint gapsOf (timestamps : list Z) : list Z :=
  match timestamps with
  | a :: (b :: _) as rest => (a - b) :: gapsOf rest
  | _ => []
  end.

Definition sumQ (l : list Q) : Q := fold_left Qplus l 0%Q.

(** [Math.sqrt(variance) / avgGap < c] for a non-negative [variance] and a
    positive [c], decided without the square root: a negative mean gives a
    quotient that is not positive, a zero mean gives [NaN] or [Infinity],
    and for a positive mean both sides are squared. *)
Definition ratioBelow (variance avgGap c : Q) : bool :=
  match Qcompare avgGap 0 with
  | Lt => true
  | Eq => false
  | Gt => Qltb variance (c * c * avgGap * avgGap)%Q
  end.

Definition calculateConsistency (tweets : list Tweet) : string :=
  if (List.length tweets <? 2)%nat then "Insufficient data"
  else
    let dated :=
      flat_map (fun t => match newDate (time t) with
                         | Some d => [d]
                         | None => []
                         end) tweets in
    let timestamps := sortBy (fun a b => Some (b - a)) dated in
    if (List.length timestamps <? 2)%nat then "Insufficient data"
    else
      let gaps := map ZtoQ (gapsOf timestamps) in
      let n := natQ (List.length gaps) in
      let avgGap := (sumQ gaps / n)%Q in
      let variance :=
        (sumQ (map (fun g => (g - avgGap) * (g - avgGap)) gaps) / n)%Q in
      if ratioBelow variance avgGap (1 # 2) then "Very Consistent"
      else if ratioBelow variance avgGap 1 then "Consistent"
      else if ratioBelow variance avgGap 2 then "Moderate"
      else "Irregular".

(** *** analyzeTweetsInDepth *)

Definition analyzeTweetsInDepth (tweets : list Tweet) : JsVal :=
  match tweets with
  | [] =>
      VObj [ ("summary", VStr "No recent tweets available for analysis");
             ("topics", VArr []);
             ("avgLength", VNum 0);
             ("mediaUsage", VNum 0);
             ("interactionRate", VNum 0) ]
  | _ => depthOfTweets tweets
  end.

(** *** analyzeBehavior *)

Record Behavior : Type := {
  accountType : string;
  activityPattern : string;
  postingFrequency : string;
  peakTimes : JsVal;
  consistencyScore : string
}.

Definition analyzeBehavior (data : TwitterData) (tweetAnalysis : JsVal)
  : Behavior :=
  let nFollowers := followerCount data in
  let nFollowing := followingCount data in
  let ratio := followRatio nFollowers nFollowing in
  let accountType :=
    if verified data then "Verified Account"
    else if 1000000 <? nFollowers then "Mega Influencer"
    else if 100000 <? nFollowers then "Major Influencer"
    else if 10000 <? nFollowers then "Micro Influencer"
    else if 1000 <? nFollowers then "Active Community Member"
    else if Qltb 10 ratio then "Growing Influencer"
    else "Personal Account" in
  let tweetCount := List.length (tweets data) in
  let activityPattern :=
    if (8 <=? tweetCount)%nat then "Very Active"
    else if (5 <=? tweetCount)%nat then "Active"
    else if (2 <=? tweetCount)%nat then "Moderate"
    else if (1 <=? tweetCount)%nat then "Low Activity"
    else "Inactive" in
  {| accountType := accountType;
     activityPattern := activityPattern;
     postingFrequency := nat_to_string tweetCount ++ " tweets in recent timeline";
     peakTimes := getProp tweetAnalysis "peakHour";
     consistencyScore := calculateConsistency (tweets data) |}.

(** *** analyzeEngagement *)

Record TopTweet : Type := {
  topText : string;
  topLikes : JsVal;
  topRetweets : JsVal;
  topReplies : JsVal
}.

(** The numeric fields hold a number that may be [NaN] ([None]);
    [viralityScore] is the number 0 on the empty path and a label
    otherwise. *)
Record Engagement : Type := {
  avgEngagement : option Z;
  totalEngagement : option Z;
  avgLikes : option Z;
  avgRetweets : option Z;
  avgReplies : option Z;
  avgViews : option Z;
  engagementRate : string;
  viralityScore : JsVal;
  topTweets : list TopTweet
}.

(** [parseInt(c || 0)] *)
Definition countOf (c : JsVal) : option Z := parseInt (jsOr c (VNum 0)).

(** [tweets.reduce((sum, t) => sum + parseInt(t.f || 0), 0)] *)
Definition totalOf (f : Tweet -> JsVal) (tweets : list Tweet) : option Z :=
  fold_left (fun sum t => addNum sum (countOf (f t))) tweets (Some 0).

(** [Math.round(total / tweets.length)] *)
Definition roundedMean (total : option Z) (n : nat) : option Z :=
  option_map (fun s => Math_round (ZtoQ s / natQ n)%Q) total.

(** [likes + retweets * 2 + replies * 3], the score of the ranking *)
Definition weightedScore (t : Tweet) : option Z :=
  addNum (addNum (countOf (likes t))
                 (option_map (fun r => r * 2) (countOf (retweets t))))
         (option_map (fun r => r * 3) (countOf (replies t))).

(** The comparator [(a, b) => scoreB - scoreA] *)
Definition byScoreDesc (a b : Tweet) : option Z :=
  match weightedScore b, weightedScore a with
  | Some sb, Some sa => Some (sb - sa)
  | _, _ => None
  end.

Definition gtNum (a : option Z) (bound : Z) : bool :=
  match a with
  | Some z => bound <? z
  | None => false
  end.

(** [t => ({ text: t.text.substring(0, 100) + '...', likes: t.likes,
    retweets: t.retweets, replies: t.replies })] *)
Definition topTweetOf (t : Tweet) : TopTweet :=
  {| topText := substring0 100 (text t) ++ "...";
     topLikes := likes t;
     topRetweets := retweets t;
     topReplies := replies t |}.

Definition analyzeEngagement (tweets : list Tweet) (followers : JsVal)
  : Engagement :=
  match tweets with
  | [] =>
      {| avgEngagement := Some 0;
         totalEngagement := Some 0;
         avgLikes := Some 0;
         avgRetweets := Some 0;
         avgReplies := Some 0;
         avgViews := Some 0;
         engagementRate := "0%";
         viralityScore := VNum 0;
         topTweets := [] |}
  | _ =>
      let n := List.length tweets in
      let totalLikes := totalOf likes tweets in
      let totalRetweets := totalOf retweets tweets in
      let totalReplies := totalOf replies tweets in
      let totalViews := totalOf views tweets in
      let avgLikes := roundedMean totalLikes n in
      let avgRetweets := roundedMean totalRetweets n in
      let avgReplies := roundedMean totalReplies n in
      let avgViews := roundedMean totalViews n in
      let totalEngagement :=
        addNum (addNum totalLikes totalRetweets) totalReplies in
      let avgEngagement := roundedMean totalEngagement n in
      let followerCount := orElse (parseInt followers) 1 in
      let engagementRate :=
        toFixedNum 3
          (option_map (fun a => (ZtoQ a / ZtoQ followerCount * 100)%Q)
                      avgEngagement) in
      let sortedTweets := slice0 3 (sortBy byScoreDesc tweets) in
      let viralityScore :=
        if gtNum avgRetweets 100 then "High"
        else if gtNum avgRetweets 10 then "Medium"
        else "Low" in
      {| avgEngagement := avgEngagement;
         totalEngagement := totalEngagement;
         avgLikes := avgLikes;
         avgRetweets := avgRetweets;
         avgReplies := avgReplies;
         avgViews := avgViews;
         engagementRate := engagementRate ++ "%";
         viralityScore := VStr viralityScore;
         topTweets := map topTweetOf sortedTweets |}
  end.

(** *** detectSuspiciousActivity *)

Record SuspiciousActivity : Type := {
  hasSuspicious : bool;
  riskLevel : string;
  flags : list string;
  details : list string
}.

(** The two arrays the rules push to, [flags] first. *)
Definition Findings : Type := (list string * list string)%type.

(** [if (cond) { flags.push(flag); details.push(detail); }] *)
Definition fire (cond : bool) (flag detail : string) (st : Findings)
  : Findings :=
  if cond then ((fst st ++ [flag])%list, (snd st ++ [detail])%list) else st.

(** [arr.findIndex(p)], [None] standing for -1 *)
Fixpoint findIndex {A : Type} (p : A -> bool) (l : list A) : option nat :=
  match l with
  | [] => None
  | x :: rest =>
      if p x then Some O else option_map S (findIndex p rest)
  end.

(** [tweets.filter((t, i, arr) => arr.findIndex(x => x.text === t.text) !== i).length] *)
Definition duplicateCount (tweets : list Tweet) : nat :=
  List.length
    (filter
       (fun it : nat * Tweet =>
          match findIndex (fun x => String.eqb (text x) (text (snd it))) tweets with
          | Some j => negb (j =? fst it)%nat
          | None => true
          end)
       (combine (seq 0 (List.length tweets)) tweets)).

(** [tweets.reduce((sum, t) => sum + (t.hashtags?.length || 0), 0)] *)
Definition hashtagTotal (tweets : list Tweet) : nat :=
  fold_left
    (fun sum t => (sum + match hashtags t with
                         | Some l => List.length l
                         | None => 0
                         end)%nat)
    tweets O.

Definition spamRules (tweets : list Tweet) (st : Findings) : Findings :=
  if (5 <=? List.length tweets)%nat then
    let n := natQ (List.length tweets) in
    let duplicateContent := duplicateCount tweets in
    let st :=
      fire (Qltb (n * (3 # 10)) (natQ duplicateContent))
        "Repetitive content"
        "⚠️ High percentage of duplicate tweets detected - possible spam or automation"
        st in
    let linkHeavy := List.length (filter hasLink tweets) in
    let st :=
      fire (Qltb (n * (8 # 10)) (natQ linkHeavy))
        "Link spam pattern"
        "⚠️ Over 80% of tweets contain links - typical of spam or promotional accounts"
        st in
    let allHashtags := hashtagTotal tweets in
    fire (List.length tweets * 5 <? allHashtags)%nat
      "Hashtag spam"
      "⚠️ Excessive hashtag usage - averaging 5+ hashtags per tweet indicates spam behavior"
      st
  else st.

(** The account-age rule: the condition under which it pushes its flag. *)
Definition rapidGrowth (data : TwitterData) : bool :=
  let nFollowers := followerCount data in
  let accountAge := calculateAccountAge (joinDate data) in
  if negb (String.eqb accountAge "Unknown") && (10000 <? nFollowers) then
    let ageInDays := parseIntString accountAge in
    match ageInDays with
    | Some a => (a <? 30) && (10000 <? nFollowers)
    | None => false
    end
  else false.

Definition suspiciousFindings (data : TwitterData) : Findings :=
  let nFollowers := followerCount data in
  let nFollowing := followingCount data in
  let ratio := followRatio nFollowers nFollowing in
  let st : Findings := ([], []) in
  let st :=
    fire ((5000 <? nFollowing) && Qltb ratio (1 # 10))
      "Unusual following pattern"
      "⚠️ Following significantly more accounts than followers - potential bot behavior or spam account"
      st in
  let st :=
    fire ((10000 <? nFollowers) && Qltb 1000 ratio)
      "Suspicious follower ratio"
      "⚠️ Extremely high follower-to-following ratio - possible bought followers or inactive account"
      st in
  let st := spamRules (tweets data) st in
  fire (rapidGrowth data)
    "Rapid follower growth"
    "⚠️ Very new account with large follower base - potential bought followers"
    st.

Definition detectSuspiciousActivity (data : TwitterData) (tweetAnalysis : JsVal)
  : SuspiciousActivity :=
  let '(flags, details) := suspiciousFindings data in
  let riskLevel :=
    if (List.length flags =? 0)%nat then "Low"
    else if (List.length flags <=? 2)%nat then "Medium"
    else "High" in
  {| hasSuspicious := (0 <? List.length flags)%nat;
     riskLevel := riskLevel;
     flags := flags;
     details :=
       if (0 <? List.length details)%nat then details
       else ["✅ No suspicious activity detected"] |}.

End Report.

(** *** analyzeContent *)

(** The six keys are the same on both paths; the four nested objects and the
    sentiment values are not, so they stay [JsVal]s. *)
Record Content : Type := {
  topics : list JsVal;
  sentiment : JsVal;
  types : JsVal;
  hashtagStats : JsVal;
  mentionStats : JsVal;
  linkStats : JsVal
}.

(** [freq[k] = (freq[k] || 0) + 1] on an object used as a counter, its keys
    kept in insertion order. *)
Fixpoint bump (k : string) (freq : list (string * Z)) : list (string * Z) :=
  match freq with
  | [] => [(k, 1)]
  | (k', c) :: rest =>
      if String.eqb k k' then (k', orElse (Some c) 0 + 1) :: rest
      else (k', c) :: bump k rest
  end.

Definition countAll (keys : list string) : list (string * Z) :=
  fold_left (fun freq k => bump k freq) keys [].

(** A key is an array index when it is the canonical decimal form of an
    integer below 2^32 - 1. *)
Definition arrayIndex (k : string) : option N :=
  let n := N.of_uint (leadingDigits k) in
  if String.eqb (N_to_string n) k && (n <? 4294967295)%N then Some n else None.

(** [Object.entries(freq)]: array-index keys first, in ascending numeric
    order, then the other keys in insertion order. *)
Definition Object_entries (freq : list (string * Z)) : list (string * Z) :=
  let isIndex (e : string * Z) :=
    match arrayIndex (fst e) with Some _ => true | None => false end in
  let indexOf (e : string * Z) :=
    match arrayIndex (fst e) with Some n => Z.of_N n | None => 0 end in
  (sortBy (fun a b => Some (indexOf a - indexOf b)) (filter isIndex freq)
   ++ filter (fun e => negb (isIndex e)) freq)%list.

(** [Object.entries(freq).sort((a, b) => b[1] - a[1]).slice(0, 5)] rendered
    as [`${key} (${count})`] *)
Definition topFive (freq : list (string * Z)) : list JsVal :=
  map (fun e : string * Z =>
         VStr (fst e ++ " (" ++ Z_to_string (snd e) ++ ")"))
      (slice0 5 (sortBy (fun a b : string * Z => Some (snd b - snd a))
                        (Object_entries freq))).

Definition positiveWords : list string :=
  ["good"; "great"; "awesome"; "love"; "excellent"; "amazing"; "best"; "happy"].

Definition negativeWords : list string :=
  ["bad"; "hate"; "worst"; "terrible"; "awful"; "sad"; "angry"; "disappointed"].

Inductive Mood : Type := Positive | Negative | Neutral.

Definition moodOf (t : Tweet) : Mood :=
  let lowered := toLowerCase (text t) in
  let hasPositive := existsb (fun w => includes lowered w) positiveWords in
  let hasNegative := existsb (fun w => includes lowered w) negativeWords in
  if hasPositive && negb hasNegative then Positive
  else if hasNegative && negb hasPositive then Negative
  else Neutral.

Definition isMood (m : Mood) (t : Tweet) : bool :=
  match m, moodOf t with
  | Positive, Positive | Negative, Negative | Neutral, Neutral => true
  | _, _ => false
  end.

(** [((count / tweets.length) * 100).toFixed(1) + '%'] *)
Definition percentOf (count total : nat) : string :=
  toFixed 1 (natQ count / natQ total * 100)%Q ++ "%".

Definition countIf {A : Type} (p : A -> bool) (l : list A) : Z :=
  Z.of_nat (List.length (filter p l)).

(** [tweets.flatMap(t => t.f || [])] *)
Definition flatTags (f : Tweet -> option (list string)) (tweets : list Tweet)
  : list string :=
  flat_map (fun t => match f t with Some l => l | None => [] end) tweets.

Definition analyzeContent (tweets : list Tweet) : Content :=
  match tweets with
  | [] =>
      {| topics := [];
         sentiment := VObj [ ("positive", VNum 0); ("neutral", VNum 0);
                             ("negative", VNum 0) ];
         types := VObj [];
         hashtagStats := VObj [];
         mentionStats := VObj [];
         linkStats := VObj [] |}
  | _ =>
      let n := List.length tweets in
      let withLinks := countIf hasLink tweets in
      let types :=
        VObj [ ("original",
                VNum (countIf (fun t => negb (isReply t) && negb (isRetweet t)) tweets));
               ("replies", VNum (countIf isReply tweets));
               ("retweets", VNum (countIf isRetweet tweets));
               ("withMedia", VNum (countIf (fun t => hasImage t || hasVideo t) tweets));
               ("withLinks", VNum withLinks) ] in
      let allHashtags := flatTags hashtags tweets in
      let hashtagFreq := countAll allHashtags in
      let allMentions := flatTags mentions tweets in
      let mentionFreq := countAll allMentions in
      let positive := List.length (filter (isMood Positive) tweets) in
      let negative := List.length (filter (isMood Negative) tweets) in
      let neutral := List.length (filter (isMood Neutral) tweets) in
      {| topics := [];
         sentiment := VObj [ ("positive", VStr (percentOf positive n));
                             ("neutral", VStr (percentOf neutral n));
                             ("negative", VStr (percentOf negative n)) ];
         types := types;
         hashtagStats :=
           VObj [ ("total", VNum (Z.of_nat (List.length allHashtags)));
                  ("unique", VNum (Z.of_nat (List.length hashtagFreq)));
                  ("topHashtags", VArr (topFive hashtagFreq)) ];
         mentionStats :=
           VObj [ ("total", VNum (Z.of_nat (List.length allMentions)));
                  ("unique", VNum (Z.of_nat (List.length mentionFreq)));
                  ("topMentions", VArr (topFive mentionFreq)) ];
         linkStats :=
           VObj [ ("tweetsWithLinks", VNum withLinks);
                  ("percentage",
                   VStr (percentOf (Z.to_nat withLinks) n)) ] |}
  end.

(** *** calculateAccountHealth *)

Record Health : Type := {
  score : Z;
  rating : string;
  factors : list string
}.

(** The running [score] and the [factors] array. *)
Definition Tally : Type := (Z * list string)%type.

(** [score += delta; factors.push(note)] *)
Definition adjust (delta : Z) (note : string) (st : Tally) : Tally :=
  (fst st + delta, (snd st ++ [note])%list).

Definition calculateAccountHealth (data : TwitterData) (tweetAnalysis : JsVal)
  (suspiciousActivity : SuspiciousActivity) : Health :=
  let nFollowers := followerCount data in
  let nFollowing := followingCount data in
  let penalty := Z.of_nat (List.length (flags suspiciousActivity)) * 15 in
  let st : Tally := (100 - penalty, []) in
  let st :=
    if hasSuspicious suspiciousActivity
    then (fst st,
          (snd st ++ [("-" ++ Z_to_string penalty ++
                       " points: Suspicious activity detected")%string])%list)
    else st in
  let st :=
    if verified data then adjust 10 "+10 points: Verified account" st else st in
  let st :=
    if (5 <=? List.length (tweets data))%nat
    then adjust 10 "+10 points: Active posting" st
    else if (List.length (tweets data) <? 2)%nat
         then adjust (-10) "-10 points: Low activity" st
         else st in
  let avgEngagement :=
    parseInt (jsOr (getProp (getProp tweetAnalysis "interactionRate") "original")
                   (VNum 0)) in
  let st :=
    if gtNum avgEngagement 70
    then adjust 15 "+15 points: High original content ratio" st
    else st in
  let ratio := followRatio nFollowers nFollowing in
  let st :=
    if Qltb 2 ratio && (100 <? nFollowers)
    then adjust 10 "+10 points: Healthy follower ratio" st
    else if Qltb ratio (1 # 2) && (1000 <? nFollowing)
         then adjust (-10) "-10 points: Poor follower ratio" st
         else st in
  let score := Z.max 0 (Z.min 100 (fst st)) in
  let rating :=
    if 80 <=? score then "Excellent"
    else if 60 <=? score then "Good"
    else if 40 <=? score then "Fair"
    else "Poor" in
  {| score := score;
     rating := rating;
     factors :=
       if (0 <? List.length (snd st))%nat then snd st
       else ["Standard account metrics"] |}.

(** *** calculateLinkedInHealth *)

(** The fields of the scraped LinkedIn profile that the score reads, typed as
    [services/linkedinScraper.js] fills them: three strings and two arrays,
    each of which the score also accepts missing ([None]). *)
Record LinkedInData : Type := {
  name : option string;
  headline : option string;
  about : option string;
  experiences : option (list JsVal);
  skills : option (list JsVal)
}.

(** [s && s.length > k] on a string: the empty string is falsy. *)
Definition longerThan (s : option string) (k : nat) : bool :=
  match s with
  | Some str => negb (String.eqb str "") && (k <? String.length str)%nat
  | None => false
  end.

(** [a && a.length > k] and [a && a.length >= k] on an array: every array is
    truthy. *)
Definition moreThan (a : option (list JsVal)) (k : nat) : bool :=
  match a with
  | Some l => (k <? List.length l)%nat
  | None => false
  end.

Definition atLeast (a : option (list JsVal)) (k : nat) : bool :=
  match a with
  | Some l => (k <=? List.length l)%nat
  | None => false
  end.

(** [data.name && data.name !== 'N/A'] *)
Definition hasName (s : option string) : bool :=
  match s with
  | Some str => negb (String.eqb str "") && negb (String.eqb str "N/A")
  | None => false
  end.

Definition calculateLinkedInHealth (data : LinkedInData) : Z :=
  let score := 50 in
  let score := if hasName (name data) then score + 10 else score in
  let score := if longerThan (headline data) 10 then score + 10 else score in
  let score := if longerThan (about data) 100 then score + 10 else score in
  let score := if moreThan (experiences data) 0 then score + 10 else score in
  let score := if atLeast (experiences data) 3 then score + 5 else score in
  let score := if atLeast (skills data) 5 then score + 5 else score in
  Z.min score 100.

(** ** formatNumber of the PDF generator *)

(** A JavaScript number: [NaN], an infinity, the negative zero, or a finite
    binary64 value, held as the rational it denotes. *)
Inductive JsNum : Type :=
| NumNaN
| NumInf (negative : bool)
| NumNegZero
| NumFin (q : Q).

(** What [formatNumber] may be handed: a value of the report, a number of any
    kind, or a Symbol. *)
Inductive Input : Type :=
| Plain (v : JsVal)
| Numeric (x : JsNum)
| ASymbol.

(** *** Rounding to binary64 *)

(** [floor (log2 (a / b))] *)
Definition floorLog2 (a b : positive) : Z :=
  let k := Z.log2 (Zpos a) - Z.log2 (Zpos b) in
  if Zpos a * 2 ^ Z.max 0 (- k) <? Zpos b * 2 ^ Z.max 0 k then k - 1 else k.

(** The integer nearest to [n / d], the even one on a tie. *)
Definition roundHalfEven (n d : Z) : Z :=
  let q := n / d in
  match 2 * (n mod d) ?= d with
  | Lt => q
  | Gt => q + 1
  | Eq => if Z.even q then q else q + 1
  end.

(** The binary64 number nearest to [a / b], as significand and exponent: 53
    significant bits, the exponent of the last bit not below -1074. *)
Definition nearestBinary64 (a b : positive) : Z * Z :=
  let e := Z.max (floorLog2 a b - 52) (-1074) in
  (roundHalfEven (Zpos a * 2 ^ Z.max 0 (- e)) (Zpos b * 2 ^ Z.max 0 e), e).

(** [m * 2^e] *)
Definition scaled (m e : Z) : Q :=
  Qred (Qmake (m * 2 ^ Z.max 0 e) (Z.to_pos (2 ^ Z.max 0 (- e)))).

(** The result of an arithmetic operation whose exact value is [y]: the
    nearest binary64 number, an infinity from 2^1024 on. *)
Definition toDouble (y : Q) : JsNum :=
  match Qnum y with
  | Z0 => NumFin 0
  | Zpos a =>
      let '(m, e) := nearestBinary64 a (Qden y) in
      if 2 ^ 1024 <=? m * 2 ^ Z.max 0 e then NumInf false
      else NumFin (scaled m e)
  | Zneg a =>
      let '(m, e) := nearestBinary64 a (Qden y) in
      if 2 ^ 1024 <=? m * 2 ^ Z.max 0 e then NumInf true
      else if m =? 0 then NumNegZero
      else NumFin (scaled (- m) e)
  end.

Section PdfFormat.

(** The host functions whose result depends on the numeric-literal grammar,
    on the locale and on the shortest-digits algorithm: [Number(s)] on a
    string, [num.toLocaleString()], and [String(num)]. *)
Variable StringToNumber : string -> JsNum.
Variable toLocaleString : JsNum -> string.
Variable NumberToString : JsNum -> string.

(** The conversion of an array or object to a string.  No entry of a report
    value is callable, so an object with an own [toString] entry has no
    usable conversion method and the conversion throws a TypeError ([None]);
    any other object inherits [Object.prototype.toString].  An array joins
    the conversions of its elements, [undefined] and [null] counting as
    empty. *)
Fixpoint ToPrimitive (v : JsVal) : option string :=
  match v with
  | VArr l =>
      option_map (join ",")
        (fold_right
           (fun e acc =>
              match (match e with
                     | VUndef | VNull => Some ""
                     | _ => ToPrimitive e
                     end), acc with
              | Some s, Some rest => Some (s :: rest)
              | _, _ => None
              end)
           (Some []) l)
  | VObj _ => if hasKey v "toString" then None else Some "[object Object]"
  | _ => Some (ToString v)
  end.

(** [Number(n)]; [None] is the TypeError of a Symbol or of an object that
    cannot be converted. *)
Definition Number (n : Input) : option JsNum :=
  match n with
  | ASymbol => None
  | Numeric x => Some x
  | Plain v =>
      match v with
      | VUndef | VNaN => Some NumNaN
      | VNull => Some (NumFin 0)
      | VBool b => Some (NumFin (if b then 1 else 0))
      | VNum z => Some (toDouble (ZtoQ z))
      | VStr s => Some (StringToNumber s)
      | VArr _ | VObj _ => option_map StringToNumber (ToPrimitive v)
      end
  end.

Definition isNaN (x : JsNum) : bool :=
  match x with
  | NumNaN => true
  | _ => false
  end.

(** [Math.abs(num) >= bound] *)
Definition absAtLeast (x : JsNum) (bound : Q) : bool :=
  match x with
  | NumNaN => false
  | NumInf _ => true
  | NumNegZero => Qle_bool bound 0
  | NumFin q => Qle_bool bound (Qabs q)
  end.

(** [num / d] for a positive constant [d] *)
Definition divideBy (x : JsNum) (d : Q) : JsNum :=
  match x with
  | NumFin q => toDouble (q / d)
  | other => other
  end.

(** [x.toFixed(f)] on any number: a number that is not finite is converted
    by [String], and so is the magnitude of a finite number from 10^21
    on. *)
Definition toFixedJs (f : nat) (x : JsNum) : string :=
  match x with
  | NumNaN => "NaN"
  | NumInf false => "Infinity"
  | NumInf true => "-Infinity"
  | NumNegZero => toFixed f 0
  | NumFin q =>
      if Qle_bool (inject_Z (10 ^ 21)) (Qabs q)
      then (if Qltb q 0 then "-" else "") ++ NumberToString (NumFin (Qabs q))
      else toFixed f q
  end.

Definition isNullish (v : JsVal) : bool :=
  match v with
  | VNull | VUndef => true
  | _ => false
  end.

(** [n === null || n === undefined] *)
Definition isNullOrUndefined (n : Input) : bool :=
  match n with
  | Plain v => isNullish v
  | _ => false
  end.

Definition formatNumber (n : Input) : option string :=
  if isNullOrUndefined n then Some "0"
  else
    match Number n with
    | None => None
    | Some num =>
        if isNaN num then Some "0"
        else if absAtLeast num 1000000000
        then Some (toFixedJs 2 (divideBy num 1000000000) ++ "B")
        else if absAtLeast num 1000000
        then Some (toFixedJs 2 (divideBy num 1000000) ++ "M")
        else if absAtLeast num 1000
        then Some (toFixedJs 1 (divideBy num 1000) ++ "K")
        else Some (toLocaleString num)
    end.

End PdfFormat.

(** ** The statements of the specification, as definitions *)

(** The risk level the specification assigns to a number of flags. *)
Definition riskOfCount (nFlags : nat) : string :=
  match nFlags with
  | O => "Low"
  | 1%nat | 2%nat => "Medium"
  | _ => "High"
  end.

(** The account type by follower tiers alone, with the verified override, as
    the specification words it. *)
Definition followerTier (nFollowers : Z) : string :=
  if 1000000 <? nFollowers then "Mega Influencer"
  else if 100000 <? nFollowers then "Major Influencer"
  else if 10000 <? nFollowers then "Micro Influencer"
  else if 1000 <? nFollowers then "Active Community Member"
  else "Personal Account".

Definition tierWithOverride (isVerified : bool) (nFollowers : Z) : string :=
  if isVerified then "Verified Account" else followerTier nFollowers.

(** Followers outnumber the followed accounts more than tenfold; with nobody
    followed the follower count itself is compared with 10. *)
Definition outnumbersTenfold (nFollowers nFollowing : Z) : bool :=
  if 0 <? nFollowing then 10 * nFollowing <? nFollowers else 10 <? nFollowers.

(** The account type with the sixth tier the code has below 1,000
    followers. *)
Definition accountTypeOf (isVerified : bool) (nFollowers nFollowing : Z)
  : string :=
  if isVerified then "Verified Account"
  else if 1000 <? nFollowers then followerTier nFollowers
  else if outnumbersTenfold nFollowers nFollowing then "Growing Influencer"
  else "Personal Account".


(** The integer nearest to [s / n], the upper one at a tie. *)
Definition nearestQuotient (s n : Z) : Z := (2 * s + n) / (2 * n).



(** One post may stand before another in the ranking: its weighted score is
    not below the other's (a score that is not a number orders nothing). *)
Definition ranksBefore (a b : Tweet) : Prop :=
  match weightedScore a, weightedScore b with
  | Some sa, Some sb => sb <= sa
  | _, _ => True
  end.

(** The values that [Number] cannot convert: a Symbol, an object with an own
    [toString] entry, and an array that holds such an object, however
    deep. *)
Fixpoint unprintable (v : JsVal) : bool :=
  match v with
  | VObj fields =>
      existsb (fun entry => String.eqb "toString" (fst entry)) fields
  | VArr l => existsb unprintable l
  | _ => false
  end.

Definition unconvertible (n : Input) : bool :=
  match n with
  | ASymbol => true
  | Plain v => unprintable v
  | Numeric _ => false
  end.

(** A string of digits, filled with zeros on the left up to [width]. *)
Definition zeroPad (width : nat) (s : string) : string :=
  repeatChar "0" (width - String.length s) ++ s.

(** [digits] writes [x] in fixed notation with [f] digits after the point: a
    minus sign when [x] is negative, a whole part of at least one digit, the
    point and [f] digits, which together are the decimal numeral of the
    number of 10^-f units nearest to the magnitude of [x], the larger one on
    a tie. *)
Definition fixedNotation (f : nat) (x : Q) (digits : string) : Prop :=
  exists (units : Z) (whole fraction : string),
    (Qabs x * inject_Z (10 ^ Z.of_nat f) - (1 # 2) < inject_Z units)%Q /\
    (inject_Z units <= Qabs x * inject_Z (10 ^ Z.of_nat f) + (1 # 2))%Q /\
    digits = (if Qltb x 0 then "-" else "") ++ whole ++ "." ++ fraction /\
    whole <> "" /\
    String.length fraction = f /\
    whole ++ fraction = zeroPad (S f) (N_to_string (Z.to_N units)).

(** [x] is the binary64 number nearest to [y], for a [y] in the range of the
    normal numbers: [x] has the sign of [y]; its magnitude is [m * 2^e] for a
    significand [m] of 53 bits and the exponent [e] of the binade of [y]; it
    is within half a unit of the last place of [y], with an even significand
    on a tie; so it differs from [y] by a relative 2^-53 at most. *)
Definition roundedQuotient (y x : Q) : Prop :=
  Qltb x 0 = Qltb y 0 /\
  (Qabs (x - y) <= Qabs y * (1 # 2 ^ 53))%Q /\
  exists m e : Z,
    2 ^ 52 <= m <= 2 ^ 53 /\ -1074 <= e <= 971 /\
    (Qabs x == scaled m e)%Q /\
    (scaled (2 ^ 52) e <= Qabs y)%Q /\ (Qabs y < scaled (2 ^ 53) e)%Q /\
    (Qabs (Qabs x - Qabs y) * 2 <= scaled 1 e)%Q /\
    ((Qabs (Qabs x - Qabs y) * 2 == scaled 1 e)%Q -> Z.even m = true).

(** The join date passes the guard of [calculateAccountAge]. *)
Definition usableJoinDate (v : JsVal) : bool :=
  truthy v && negb (isString v "Not specified").

(** The age in whole days that [calculateAccountAge] computes ([diffDays]);
    [None] when the join date does not parse. *)
Definition ageInDays (Date_parse : string -> option Z) (now : Z) (v : JsVal)
  : option Z :=
  option_map
    (fun j => Math_ceil (ZtoQ (Z.abs (now - j)) / ZtoQ (1000 * 60 * 60 * 24))%Q)
    (newDate Date_parse v).

(** The figure at the head of the rendered age: days below 30 days, months
    below 365 days, years from there on. *)
Definition ageFigure (days : Z) : Z :=
  if days <? 30 then days
  else if days <? 365 then days / 30
  else days / 365.

(** The rule as the specification states it: a parseable join date, an age
    under 30 days and more than 10000 followers. *)
Definition newAccountRule (Date_parse : string -> option Z) (now : Z)
  (data : TwitterData) : bool :=
  usableJoinDate (joinDate data) &&
  match ageInDays Date_parse now (joinDate data) with
  | Some days => (days <? 30) && (10000 <? followerCount data)
  | None => false
  end.

(** ** More of the LinkedIn report *)

(** The further fields of the scraped LinkedIn profile that the report
    reads. *)
Record LinkedInMore : Type := {
  location : option string;
  profileImage : JsVal;
  connections : option string
}.

(** [data.location && data.location !== 'Not specified'] *)
Definition specified (s : option string) : bool :=
  match s with
  | Some str => negb (String.eqb str "") && negb (String.eqb str "Not specified")
  | None => false
  end.

Definition calculateProfileCompleteness (data : LinkedInData)
  (more : LinkedInMore) : Z :=
  let completeness := 0 in
  let totalFields := 7 in
  let completeness :=
    if hasName (name data) then completeness + 1 else completeness in
  let completeness :=
    if longerThan (headline data) 10 then completeness + 1 else completeness in
  let completeness :=
    if longerThan (about data) 50 then completeness + 1 else completeness in
  let completeness :=
    if specified (location more) then completeness + 1 else completeness in
  let completeness :=
    if moreThan (experiences data) 0 then completeness + 1 else completeness in
  let completeness :=
    if atLeast (skills data) 3 then completeness + 1 else completeness in
  let completeness :=
    if truthy (profileImage more) then completeness + 1 else completeness in
  Math_round (ZtoQ completeness / ZtoQ totalFields * 100)%Q.

(** The ladders on the number of positions.  Reading [length] of a missing
    [experiences] throws a TypeError: [None]. *)
Definition determineProfessionalLevel (data : LinkedInData) : option string :=
  match experiences data with
  | None => None
  | Some l =>
      let expCount := List.length l in
      Some (if (5 <=? expCount)%nat then "Senior Professional"
            else if (3 <=? expCount)%nat then "Mid-Level Professional"
            else if (1 <=? expCount)%nat then "Early Career Professional"
            else "Entry Level / Student")
  end.

Definition determineCareerStage (experiences : option (list JsVal))
  : option string :=
  match experiences with
  | None => None
  | Some l =>
      let totalExperiences := List.length l in
      Some (if (5 <=? totalExperiences)%nat then "Experienced (5+ positions)"
            else if (3 <=? totalExperiences)%nat then "Mid-Career (3-4 positions)"
            else if (1 <=? totalExperiences)%nat then "Early Career (1-2 positions)"
            else "Starting Career")
  end.

Definition industries : list string :=
  ["Technology"; "Finance"; "Marketing"; "Healthcare"; "Education"; "Engineering"].

(** The first industry whose lower-cased name occurs in the lower-cased
    headline; a missing headline throws on [toLowerCase]. *)
Definition extractIndustry (headline : option string) : option string :=
  match headline with
  | None => None
  | Some h =>
      let headlineLower := toLowerCase h in
      Some (match find (fun industry => includes headlineLower (toLowerCase industry))
                       industries with
            | Some industry => industry
            | None => "Various Industries"
            end)
  end.

(** [data.experiences?.length >= 3 ? 'Good' : data.experiences?.length >= 1 ?
    'Fair' : 'Limited'] *)
Definition linkedInRating (data : LinkedInData) : string :=
  if atLeast (experiences data) 3 then "Good"
  else if atLeast (experiences data) 1 then "Fair"
  else "Limited".

(** [!s || s.length < k] on a string *)
Definition shorterThan (s : option string) (k : nat) : bool :=
  match s with
  | Some str => String.eqb str "" || (String.length str <? k)%nat
  | None => true
  end.

(** [!a || a.length < k] on an array *)
Definition fewerThan (a : option (list JsVal)) (k : nat) : bool :=
  match a with
  | Some l => (List.length l <? k)%nat
  | None => true
  end.

Definition quoteMark : string := String (ascii_of_nat 34) "".

(** The [recommendations] of [generateLinkedInReport]. *)
Definition linkedInRecommendations (data : LinkedInData) : list string :=
  if fewerThan (experiences data) 1 then
    [ "⚠️ Limited data available - LinkedIn restricts automated access to profiles";
      "💡 To get full analysis, consider: (1) Make profile public, (2) Provide manual data" ]
  else
    ((if fewerThan (experiences data) 3
      then ["Add more detailed work experience to strengthen profile"] else []) ++
     (if fewerThan (skills data) 10
      then ["Add more skills to increase profile visibility (aim for 10+)"] else []) ++
     (if shorterThan (about data) 50
      then [("Enhance " ++ quoteMark ++ "About" ++ quoteMark ++
             " section with detailed professional summary")%string] else []) ++
     [ "Request recommendations from colleagues and supervisors";
       "Share industry-relevant content regularly to increase visibility";
       "Engage with your network through comments and posts" ])%list.

(** The analysis part of [generateLinkedInReport]: the three ladders are
    computed first, without guard; [data.connections.includes('+')] and the
    [title] of every entry of [experiences] are read without guard as well.
    [None] stands for the TypeError any of them throws. *)
Record LinkedInReport : Type := {
  professionalLevel : string;
  industryFocus : string;
  careerStage : string;
  networkStrength : string;
  overallScore : Z;
  linkedInRatingOf : string;
  profileCompleteness : Z;
  experienceCount : nat;
  recommendationsOf : list string
}.

Definition generateLinkedInReport (data : LinkedInData) (more : LinkedInMore)
  : option LinkedInReport :=
  match determineProfessionalLevel data,
        extractIndustry (headline data),
        determineCareerStage (experiences data),
        connections more with
  | Some level, Some industry, Some stage, Some network =>
      if forallb (fun e => negb (isNullish e))
                 (match experiences data with Some l => l | None => [] end)
      then
        Some {| professionalLevel := level;
                industryFocus := industry;
                careerStage := stage;
                networkStrength :=
                  if includes network "+" then "Strong" else "Growing";
                overallScore := calculateLinkedInHealth data;
                linkedInRatingOf := linkedInRating data;
                profileCompleteness := calculateProfileCompleteness data more;
                experienceCount :=
                  match experiences data with
                  | Some l => List.length l
                  | None => O
                  end;
                recommendationsOf := linkedInRecommendations data |}
      else None
  | _, _, _, _ => None
  end.

(** The report of the complete profile. *)
Definition completeReport : LinkedInReport :=
  {| professionalLevel := "Mid-Level Professional";
     industryFocus := "Technology";
     careerStage := "Mid-Career (3-4 positions)";
     networkStrength := "Strong";
     overallScore := 100;
     linkedInRatingOf := "Good";
     profileCompleteness := 100;
     experienceCount := 3;
     recommendationsOf :=
       [ "Add more skills to increase profile visibility (aim for 10+)";
         "Request recommendations from colleagues and supervisors";
         "Share industry-relevant content regularly to increase visibility";
         "Engage with your network through comments and posts" ] |}.

(** The seven criteria of [calculateProfileCompleteness], in its order. *)
Definition completenessCriteria (data : LinkedInData) (more : LinkedInMore)
  : list bool :=
  [ hasName (name data); longerThan (headline data) 10;
    longerThan (about data) 50; specified (location more);
    moreThan (experiences data) 0; atLeast (skills data) 3;
    truthy (profileImage more) ].

(** A complete profile, as the scraper would fill it. *)
Definition completeProfile : LinkedInData :=
  {| name := Some "Ada Lovelace";
     headline := Some "Technology and Finance analyst";
     about := Some "Analyst of engines, writing programs and notes on what machines can and cannot be made to do, since 1843.";
     experiences := Some [VObj []; VObj []; VObj []];
     skills := Some [VStr "a"; VStr "b"; VStr "c"; VStr "d"; VStr "e"] |}.

Definition completeMore : LinkedInMore :=
  {| location := Some "London";
     profileImage := VStr "https://img.example/ada.png";
     connections := Some "500+" |}.

(** ** The file name of the PDF report *)

(** [safeFilenamePart] works on the UTF-16 code units of its string. *)
Definition unitsOf (s : string) : list N :=
  map N_of_ascii (list_ascii_of_string s).

Definition underscore : N := 95.

(** [\s]: the white space and line terminator code units. *)
Definition isSpaceUnit (c : N) : bool :=
  ((9 <=? c) && (c <=? 13) || (c =? 32) || (c =? 160) || (c =? 5760)
   || (8192 <=? c) && (c <=? 8202) || (c =? 8232) || (c =? 8233)
   || (c =? 8239) || (c =? 8287) || (c =? 12288) || (c =? 65279))%N.

(** The class of the first pattern: colon, slash, backslash, question mark,
    angle brackets, bar, star, double quote and [\s]. *)
Definition isForbidden (c : N) : bool :=
  ((c =? 58) || (c =? 47) || (c =? 92) || (c =? 63) || (c =? 60)
   || (c =? 62) || (c =? 124) || (c =? 42) || (c =? 34))%N
  || isSpaceUnit c.

(** The class the second pattern keeps: [a-zA-Z0-9_\-\.] *)
Definition isSafeUnit (c : N) : bool :=
  ((97 <=? c) && (c <=? 122) || (65 <=? c) && (c <=? 90)
   || (48 <=? c) && (c <=? 57) || (c =? 95) || (c =? 45) || (c =? 46))%N.

(** The first [replace]: every maximal run of forbidden units becomes one
    underscore; [inRun] tells that the unit before was forbidden. *)
Fixpoint replaceRuns (inRun : bool) (s : list N) : list N :=
  match s with
  | [] => []
  | c :: rest =>
      if isForbidden c
      then if inRun then replaceRuns true rest
           else underscore :: replaceRuns true rest
      else c :: replaceRuns false rest
  end.

(** The second [replace]: every unit outside the safe class becomes an
    underscore. *)
Definition replaceUnsafe (s : list N) : list N :=
  map (fun c => if isSafeUnit c then c else underscore) s.

Definition safeFilenamePart (s : list N) : list N :=
  match s with
  | [] => []
  | _ => replaceUnsafe (replaceRuns false s)
  end.

(** [generatePDF]: the file name
    [`${handlePart}_report_${stampPart}.pdf`], where [handle] falls back to
    ['report'] when empty and [stamp] is the timestamp as a string. *)
Definition reportFilename (handle stamp : list N) : list N :=
  let stampPart := safeFilenamePart stamp in
  let handlePart :=
    safeFilenamePart (match handle with [] => unitsOf "report" | _ => handle end) in
  (handlePart ++ unitsOf "_report_" ++ stampPart ++ unitsOf ".pdf")%list.

(** ** Sample inputs *)

(** A profile of 500 followers following 10 accounts, not verified. *)
Definition smallPopularAccount : TwitterData :=
  {| followers := VNum 500;
     following := VNum 10;
     verified := false;
     joinDate := VStr "Not specified";
     tweets := [] |}.

(** A host whose parser knows one join date, and the clock 60 days later. *)
Definition isoParser (s : string) : option Z :=
  if String.eqb s "2024-01-01T00:00:00.000Z" then Some 1704067200000 else None.

Definition march1st2024 : Z := 1709251200000.

(** An account of 20000 followers that joined on 1 January 2024. *)
Definition establishedAccount : TwitterData :=
  {| followers := VNum 20000;
     following := VNum 100;
     verified := false;
     joinDate := VStr "2024-01-01T00:00:00.000Z";
     tweets := [] |}.

Definition linkTweet : Tweet :=
  {| text := "Limited offer http://deals.example";
     time := VUndef;
     likes := VNum 0;
     retweets := VNum 0;
     replies := VNum 0;
     views := VNum 0;
     hasImage := false;
     hasVideo := false;
     hasLink := true;
     isReply := false;
     isRetweet := false;
     hashtags := None;
     mentions := None |}.

Definition linkSpamAccount : TwitterData :=
  {| followers := VNum 200;
     following := VNum 20000;
     verified := false;
     joinDate := VUndef;
     tweets := repeat linkTweet 10 |}.

(** The profile with no tweet. *)
Definition withoutTweets (nFollowers nFollowing joined : JsVal)
  (isVerified : bool) : TwitterData :=
  {| followers := nFollowers;
     following := nFollowing;
     verified := isVerified;
     joinDate := joined;
     tweets := [] |}.

(** A host for the examples: the strings it converts and a locale that prints
    small integers in plain digits. *)
Definition sampleStringToNumber (s : string) : JsNum :=
  if String.eqb s "1500" then NumFin 1500
  else if String.eqb s "" then NumFin 0
  else if String.eqb s "Infinity" then NumInf false
  else NumNaN.

Definition plainLocale (x : JsNum) : string :=
  match x with
  | NumFin q => toFixed 0 q
  | NumNegZero => "-0"
  | NumNaN => "NaN"
  | NumInf negative => if negative then "-∞" else "∞"
  end.

(** [String(num)] of the sample host, which knows 10^21. *)
Definition sampleNumberToString (x : JsNum) : string :=
  match x with
  | NumFin q => if Qeq_bool q (inject_Z (10 ^ 21)) then "1e+21" else toFixed 0 q
  | other => plainLocale other
  end.

(** ** More of the report generator *)

(** The flag names, in the order [detectSuspiciousActivity] evaluates the
    rules. *)
Definition ruleNames : list string :=
  [ "Unusual following pattern"; "Suspicious follower ratio";
    "Repetitive content"; "Link spam pattern"; "Hashtag spam";
    "Rapid follower growth" ].

(** The conditions of the first five rules, as the code writes them. *)
Definition followingRule (data : TwitterData) : bool :=
  (5000 <? followingCount data) &&
  Qltb (followRatio (followerCount data) (followingCount data)) (1 # 10).

Definition ratioRule (data : TwitterData) : bool :=
  (10000 <? followerCount data) &&
  Qltb 1000 (followRatio (followerCount data) (followingCount data)).

Definition repetitiveRule (tweets : list Tweet) : bool :=
  Qltb (natQ (List.length tweets) * (3 # 10)) (natQ (duplicateCount tweets)).

Definition linkRule (tweets : list Tweet) : bool :=
  Qltb (natQ (List.length tweets) * (8 # 10))
       (natQ (List.length (filter hasLink tweets))).

Definition hashtagRule (tweets : list Tweet) : bool :=
  (List.length tweets * 5 <? hashtagTotal tweets)%nat.

(** The flags fired on a tweet list by the three spam rules. *)
Definition spamFlags (tweets : list Tweet) : list string :=
  if (5 <=? List.length tweets)%nat then
    ((if repetitiveRule tweets then ["Repetitive content"] else []) ++
     (if linkRule tweets then ["Link spam pattern"] else []) ++
     (if hashtagRule tweets then ["Hashtag spam"] else []))%list
  else [].

(** The sum of the deltas [calculateAccountHealth] applies besides the
    penalty of the flags: verified, activity, original content, follower
    ratio. *)
Definition healthBonus (data : TwitterData) (tweetAnalysis : JsVal) : Z :=
  let nFollowers := followerCount data in
  let nFollowing := followingCount data in
  let ratio := followRatio nFollowers nFollowing in
  (if verified data then 10 else 0) +
  (if (5 <=? List.length (tweets data))%nat then 10
   else if (List.length (tweets data) <? 2)%nat then -10 else 0) +
  (if gtNum (parseInt (jsOr (getProp (getProp tweetAnalysis "interactionRate")
                                     "original") (VNum 0))) 70
   then 15 else 0) +
  (if Qltb 2 ratio && (100 <? nFollowers) then 10
   else if Qltb ratio (1 # 2) && (1000 <? nFollowing) then -10 else 0).

(** No two entries of a list of strings are equal. *)
Fixpoint distinctb (l : list string) : bool :=
  match l with
  | [] => true
  | x :: rest => negb (existsb (String.eqb x) rest) && distinctb rest
  end.

(** The number of tweets of [l] whose text is the text of a tweet of [pre] or
    of an earlier tweet of [l]. *)
Fixpoint repeatsAfter (pre l : list Tweet) : nat :=
  match l with
  | [] => O
  | t :: rest =>
      ((if existsb (fun x => String.eqb (text x) (text t)) pre then 1 else 0)
       + repeatsAfter (pre ++ [t]) rest)%nat
  end.

(** The unit [calculateAccountAge] writes after the figure. *)
Definition ageUnit (days : Z) : string :=
  if days <? 30 then "days" else if days <? 365 then "months" else "years".

(** Two posts whose weighted scores are numbers, the first not below the
    second. *)
Definition outranks (a b : Tweet) : Prop :=
  exists sa sb : Z,
    weightedScore a = Some sa /\ weightedScore b = Some sb /\ sb <= sa.

(** The sum of the counts of a counter. *)
Definition totalCount (freq : list (string * Z)) : Z :=
  fold_right (fun e acc => snd e + acc) 0 freq.

(** [`${key} (${count})`] *)
Definition renderEntry (e : string * Z) : JsVal :=
  VStr (fst e ++ " (" ++ Z_to_string (snd e) ++ ")").

(** The property names every plain object inherits: on these keys
    [freq[k] || 0] reads the inherited member, not a count. *)
Definition inheritedKeys : list string :=
  [ "constructor"; "__proto__"; "hasOwnProperty"; "isPrototypeOf";
    "propertyIsEnumerable"; "toLocaleString"; "toString"; "valueOf";
    "__defineGetter__"; "__defineSetter__"; "__lookupGetter__";
    "__lookupSetter__" ].

(** The time values of the tweets whose [time] parses, in list order
    ([calculateConsistency]: [timestamps] before the sort). *)
Definition datedTimes (Date_parse : string -> option Z) (tweets : list Tweet)
  : list Z :=
  flat_map (fun t => match newDate Date_parse (time t) with
                     | Some d => [d]
                     | None => []
                     end) tweets.

(** [n] time values, the newest first, each [gap] milliseconds before the
    one before it. *)
Definition evenlySpaced (newest gap : Z) (n : nat) : list Z :=
  map (fun i => newest - gap * Z.of_nat i) (seq 0 n).

(** [generateTwitterReport]: the tweet analysis is computed once and handed to
    the suspicious-activity detection and to the health score; [warnings] is
    [suspiciousActivity.flags.length > 0 ? suspiciousActivity.details : []]. *)
Definition reportSuspicious (Date_parse : string -> option Z) (now : Z)
  (depthOfTweets : list Tweet -> JsVal) (data : TwitterData)
  : SuspiciousActivity :=
  detectSuspiciousActivity Date_parse now data
    (analyzeTweetsInDepth depthOfTweets (tweets data)).

Definition reportHealth (Date_parse : string -> option Z) (now : Z)
  (depthOfTweets : list Tweet -> JsVal) (data : TwitterData) : Health :=
  calculateAccountHealth data
    (analyzeTweetsInDepth depthOfTweets (tweets data))
    (reportSuspicious Date_parse now depthOfTweets data).

Definition reportWarnings (Date_parse : string -> option Z) (now : Z)
  (depthOfTweets : list Tweet -> JsVal) (data : TwitterData) : list string :=
  let suspiciousActivity :=
    reportSuspicious Date_parse now depthOfTweets data in
  if (0 <? List.length (flags suspiciousActivity))%nat
  then details suspiciousActivity
  else [].

(** [calculateRatio]: [parseInt(followers) || 0] over
    [parseInt(following) || 1], to two decimals. *)
Definition calculateRatio (nFollowers nFollowing : JsVal) : string :=
  let f1 := orElse (parseInt nFollowers) 0 in
  let f2 := orElse (parseInt nFollowing) 1 in
  toFixed 2 (ZtoQ f1 / ZtoQ f2)%Q.

(** A profile that trips five rules: 10001 followers, 200000 followed
    accounts, joined on 1 January 2024, five copies of one link-bearing tweet
    with six hashtags. *)
Definition taggedLinkTweet : Tweet :=
  {| text := "Limited offer http://deals.example";
     time := VUndef;
     likes := VNum 0;
     retweets := VNum 0;
     replies := VNum 0;
     views := VNum 0;
     hasImage := false;
     hasVideo := false;
     hasLink := true;
     isReply := false;
     isRetweet := false;
     hashtags := Some ["#a"; "#b"; "#c"; "#d"; "#e"; "#f"];
     mentions := None |}.

Definition fiveFlagAccount : TwitterData :=
  {| followers := VNum 10001;
     following := VNum 200000;
     verified := false;
     joinDate := VStr "2024-01-01T00:00:00.000Z";
     tweets := repeat taggedLinkTweet 5 |}.

(** A tweet with the given text and counts, and four of them. *)
Definition tweetWith (content : string) (nLikes nRetweets nReplies : Z)
  : Tweet :=
  {| text := content;
     time := VUndef;
     likes := VNum nLikes;
     retweets := VNum nRetweets;
     replies := VNum nReplies;
     views := VStr "12";
     hasImage := false;
     hasVideo := false;
     hasLink := false;
     isReply := false;
     isRetweet := false;
     hashtags := None;
     mentions := None |}.

Definition fourTweets : list Tweet :=
  [ tweetWith "first" 1 2 3; tweetWith "second" 10 0 0;
    tweetWith "third" 0 0 4; tweetWith "fourth" 5 5 5 ].

(** A tweet posted at the given time. *)
Definition stampedTweet (stamp : string) : Tweet :=
  {| text := "hello";
     time := VStr stamp;
     likes := VNum 0;
     retweets := VNum 0;
     replies := VNum 0;
     views := VNum 0;
     hasImage := false;
     hasVideo := false;
     hasLink := false;
     isReply := false;
     isRetweet := false;
     hashtags := None;
     mentions := None |}.

(** A [details] entry that reports a finding, as opposed to the all-clear
    entry of an account without findings. *)
Definition isWarning (d : string) : Prop :=
  d <> "✅ No suspicious activity detected".

(** The comparator [(a, b) => b - a] of [calculateConsistency]. *)
Definition newestFirst (a b : Z) : option Z := Some (b - a).

(** A host whose parser knows four instants of March 2024, and four tweets
    posted at them, one day, two days and a day and a half apart. *)
Definition marchParser (s : string) : option Z :=
  if String.eqb s "2024-03-01T09:00:00Z" then Some 1709283600000
  else if String.eqb s "2024-03-02T09:00:00Z" then Some 1709370000000
  else if String.eqb s "2024-03-04T09:00:00Z" then Some 1709542800000
  else if String.eqb s "2024-03-05T21:00:00Z" then Some 1709672400000
  else None.

Definition marchTweets : list Tweet :=
  [ stampedTweet "2024-03-02T09:00:00Z"; stampedTweet "2024-03-05T21:00:00Z";
    stampedTweet "2024-03-01T09:00:00Z"; stampedTweet "2024-03-04T09:00:00Z" ].

(** The detail that [detectSuspiciousActivity] pushes with each flag. *)
Definition ruleDetails : list (string * string) :=
  [ ("Unusual following pattern",
     "⚠️ Following significantly more accounts than followers - potential bot behavior or spam account");
    ("Suspicious follower ratio",
     "⚠️ Extremely high follower-to-following ratio - possible bought followers or inactive account");
    ("Repetitive content",
     "⚠️ High percentage of duplicate tweets detected - possible spam or automation");
    ("Link spam pattern",
     "⚠️ Over 80% of tweets contain links - typical of spam or promotional accounts");
    ("Hashtag spam",
     "⚠️ Excessive hashtag usage - averaging 5+ hashtags per tweet indicates spam behavior");
    ("Rapid follower growth",
     "⚠️ Very new account with large follower base - potential bought followers") ].

Definition detailOf (flag : string) : string :=
  match find (fun rule => String.eqb (fst rule) flag) ruleDetails with
  | Some rule => snd rule
  | None => ""
  end.

(** *** generateDetailedInsights *)






(** ** Elementary facts *)

Lemma Qltb_lt (x y : Q) : Qltb x y = true <-> (x < y)%Q.
Proof.
  unfold Qltb. rewrite Qlt_alt.
  destruct (Qcompare x y); split; congruence.
Qed.

Lemma Qlt_inject_mul (k g f : Z) :
  (inject_Z k * inject_Z g < inject_Z f)%Q <-> k * g < f.
Proof.
  rewrite <- inject_Z_mult, <- Zlt_Qlt. reflexivity.
Qed.

Lemma ratio_tenfold (f g : Z) :
  Qltb 10 (followRatio f g) = outnumbersTenfold f g.
Proof.
  apply eq_true_iff_eq. rewrite Qltb_lt.
  unfold followRatio, outnumbersTenfold, ZtoQ.
  destruct (0 <? g) eqn:Hg; rewrite Z.ltb_lt.
  - apply Z.ltb_lt in Hg.
    assert (Hq : (0 < inject_Z g)%Q)
      by (change 0%Q with (inject_Z 0); rewrite <- Zlt_Qlt; exact Hg).
    assert (Hne : ~ (inject_Z g == 0)%Q)
      by (intro E; rewrite E in Hq; discriminate).
    rewrite <- (Qlt_inject_mul 10 g f).
    rewrite <- (Qmult_lt_r _ _ _ Hq).
    rewrite (Qmult_comm (inject_Z f / inject_Z g)), Qmult_div_r by exact Hne.
    reflexivity.
  - change 10%Q with (inject_Z 10). rewrite <- Zlt_Qlt. reflexivity.
Qed.

Lemma fire_aligned (c : bool) (f d : string) (st : Findings) :
  List.length (fst st) = List.length (snd st) ->
  List.length (fst (fire c f d st)) = List.length (snd (fire c f d st)).
Proof.
  intro H. unfold fire. destruct c; simpl; [| exact H].
  rewrite !length_app, H. reflexivity.
Qed.

Lemma fire_keeps (c : bool) (f d x : string) (st : Findings) :
  In x (fst st) -> In x (fst (fire c f d st)).
Proof.
  intro H. unfold fire. destruct c; simpl; [| exact H].
  apply in_or_app. left. exact H.
Qed.

Lemma fire_adds (f d : string) (st : Findings) :
  In f (fst (fire true f d st)).
Proof.
  simpl. apply in_or_app. right. left. reflexivity.
Qed.

Lemma spamRules_aligned (tweets : list Tweet) (st : Findings) :
  List.length (fst st) = List.length (snd st) ->
  List.length (fst (spamRules tweets st)) = List.length (snd (spamRules tweets st)).
Proof.
  intro H. unfold spamRules.
  destruct (5 <=? List.length tweets)%nat; [| exact H].
  repeat apply fire_aligned. exact H.
Qed.

Lemma spamRules_keeps (tweets : list Tweet) (x : string) (st : Findings) :
  In x (fst st) -> In x (fst (spamRules tweets st)).
Proof.
  intro H. unfold spamRules.
  destruct (5 <=? List.length tweets)%nat; [| exact H].
  repeat apply fire_keeps. exact H.
Qed.

(** Every rule pushes one flag and one detail, so the two arrays stay of one
    length. *)
Lemma findings_aligned (Date_parse : string -> option Z) (now : Z)
  (data : TwitterData) :
  List.length (fst (suspiciousFindings Date_parse now data)) =
  List.length (snd (suspiciousFindings Date_parse now data)).
Proof.
  unfold suspiciousFindings.
  apply fire_aligned, spamRules_aligned.
  repeat apply fire_aligned. reflexivity.
Qed.

(** ** Behaviour analysis: the account type *)

(** C3, as stated, fails: the follower tiers with the verified override do not
    decide the account type.  The profile [smallPopularAccount] has at most
    1,000 followers and is not verified, yet it is a "Growing Influencer",
    not a "Personal Account". *)
Lemma accountType_not_by_tiers_alone :
  ~ (forall (Date_parse : string -> option Z) (data : TwitterData)
            (tweetAnalysis : JsVal),
        accountType (analyzeBehavior Date_parse data tweetAnalysis) =
        tierWithOverride (verified data) (followerCount data)).
Proof.
  intro H.
  specialize (H (fun _ => None) smallPopularAccount VUndef).
  vm_compute in H. discriminate H.
Qed.

(** C3, amended: the account type is "Verified Account" whenever the profile
    is verified; otherwise it is the follower tier above 1,000 followers
    (more than 1,000,000 mega, more than 100,000 major, more than 10,000
    micro, more than 1,000 active community member), and at 1,000 followers
    or fewer it is "Growing Influencer" when the followers outnumber the
    followed accounts more than tenfold (more than 10 followers when nobody
    is followed) and "Personal Account" otherwise. *)
Theorem accountType_tiers (Date_parse : string -> option Z)
  (data : TwitterData) (tweetAnalysis : JsVal) :
  accountType (analyzeBehavior Date_parse data tweetAnalysis) =
  accountTypeOf (verified data) (followerCount data) (followingCount data).
Proof.
  unfold analyzeBehavior, accountTypeOf, followerTier. simpl.
  rewrite ratio_tenfold.
  destruct (verified data); [reflexivity |].
  destruct (1000000 <? followerCount data) eqn:H1;
  destruct (100000 <? followerCount data) eqn:H2;
  destruct (10000 <? followerCount data) eqn:H3;
  destruct (1000 <? followerCount data) eqn:H4;
  try reflexivity;
  rewrite ?Z.ltb_lt, ?Z.ltb_ge in *; lia.
Qed.

(** The ladder of [analyzeBehavior] in integer terms, for the lemmas below. *)
Lemma accountType_spelled_out (Date_parse : string -> option Z)
  (data : TwitterData) (tweetAnalysis : JsVal) :
  accountType (analyzeBehavior Date_parse data tweetAnalysis) =
  accountTypeOf (verified data) (followerCount data) (followingCount data).
Proof.
  unfold analyzeBehavior, accountTypeOf, followerTier. simpl.
  rewrite ratio_tenfold.
  destruct (verified data); [reflexivity |].
  repeat match goal with
         | |- context [?a <? ?b] => destruct (Z.ltb_spec a b)
         end; try reflexivity; lia.
Qed.

(** The tiers of the specification are what the code gives whenever the
    profile is verified or has more than 1,000 followers. *)
Lemma accountType_tiers_above_1000 (Date_parse : string -> option Z)
  (data : TwitterData) (tweetAnalysis : JsVal) :
  verified data = true \/ 1000 < followerCount data ->
  accountType (analyzeBehavior Date_parse data tweetAnalysis) =
  tierWithOverride (verified data) (followerCount data).
Proof.
  intro H. rewrite accountType_spelled_out.
  unfold accountTypeOf, tierWithOverride.
  destruct (verified data); [reflexivity |].
  destruct H as [H | H]; [discriminate H |].
  apply Z.ltb_lt in H. rewrite H. reflexivity.
Qed.

(** ** Suspicious activity: risk level and details *)

(** C5: the risk level is a function of the number of flags alone: "High"
    exactly with three flags or more, "Medium" exactly with one or two, "Low"
    exactly with none. *)
Theorem riskLevel_by_flag_count (Date_parse : string -> option Z) (now : Z)
  (data : TwitterData) (tweetAnalysis : JsVal) :
  let r := detectSuspiciousActivity Date_parse now data tweetAnalysis in
  riskLevel r = riskOfCount (List.length (flags r)) /\
  (riskLevel r = "High" <-> (3 <= List.length (flags r))%nat) /\
  (riskLevel r = "Medium" <->
   (1 <= List.length (flags r) /\ List.length (flags r) <= 2)%nat) /\
  (riskLevel r = "Low" <-> List.length (flags r) = O).
Proof.
  unfold detectSuspiciousActivity.
  destruct (suspiciousFindings Date_parse now data) as [fl dt]. simpl.
  destruct fl as [| f1 [| f2 [| f3 rest]]]; simpl;
    repeat split; intros; try reflexivity; try discriminate; try lia.
Qed.

(** C8: the details list is never empty; with no flag it is the single
    placeholder entry; and [hasSuspicious] holds exactly when at least one
    flag fired. *)
Theorem details_never_empty (Date_parse : string -> option Z) (now : Z)
  (data : TwitterData) (tweetAnalysis : JsVal) :
  let r := detectSuspiciousActivity Date_parse now data tweetAnalysis in
  details r <> [] /\
  (flags r = [] -> details r = ["✅ No suspicious activity detected"]) /\
  (flags r <> [] -> List.length (details r) = List.length (flags r)) /\
  (hasSuspicious r = true <-> (1 <= List.length (flags r))%nat).
Proof.
  unfold detectSuspiciousActivity.
  pose proof (findings_aligned Date_parse now data) as Hlen.
  destruct (suspiciousFindings Date_parse now data) as [fl dt].
  simpl in *.
  destruct fl as [| f fl]; destruct dt as [| d dt]; simpl in *;
    try discriminate Hlen.
  - repeat split; intros; try reflexivity; try discriminate; try lia;
      try congruence.
  - repeat split; intros; try reflexivity; try discriminate; try lia;
      try congruence.
Qed.

(** ** Health scores *)

(** C4: whatever rules trigger (any number of flags, the verified bonus,
    active or low posting, a high original-content ratio, a healthy or poor
    follower ratio), the health score lies between 0 and 100. *)
Theorem health_score_bounded (data : TwitterData) (tweetAnalysis : JsVal)
  (suspiciousActivity : SuspiciousActivity) :
  0 <= score (calculateAccountHealth data tweetAnalysis suspiciousActivity) <= 100.
Proof.
  unfold calculateAccountHealth. cbv zeta. simpl score. lia.
Qed.

(** C9: the LinkedIn health score lies between 50 and 100: the base is 50,
    every completeness rule adds a non-negative amount, and the total is
    capped at 100. *)
Theorem linkedin_health_bounded (data : LinkedInData) :
  50 <= calculateLinkedInHealth data <= 100.
Proof.
  unfold calculateLinkedInHealth.
  destruct (hasName (name data));
  destruct (longerThan (headline data) 10);
  destruct (longerThan (about data) 100);
  destruct (moreThan (experiences data) 0);
  destruct (atLeast (experiences data) 3);
  destruct (atLeast (skills data) 5);
  cbv zeta; lia.
Qed.

(** ** Engagement analysis: averages and ranking *)







(** The nearest quotient is within one half of the exact quotient. *)
Lemma nearestQuotient_close (s k : Z) :
  0 < k ->
  2 * s - k < 2 * k * nearestQuotient s k <= 2 * s + k.
Proof.
  intro Hk. unfold nearestQuotient.
  pose proof (Z.mul_div_le (2 * s + k) (2 * k) ltac:(lia)).
  pose proof (Z.mul_succ_div_gt (2 * s + k) (2 * k) ltac:(lia)).
  lia.
Qed.


(** The weighted score of a post whose three counts are numbers. *)
Lemma weightedScore_formula (t : Tweet) (l r p : Z) :
  countOf (likes t) = Some l ->
  countOf (retweets t) = Some r ->
  countOf (replies t) = Some p ->
  weightedScore t = Some (l + 2 * r + 3 * p).
Proof.
  intros Hl Hr Hp. unfold weightedScore. rewrite Hl, Hr, Hp.
  cbn [addNum option_map]. f_equal. lia.
Qed.

Lemma before_ranks (a b : Tweet) :
  before byScoreDesc a b = true -> ranksBefore a b.
Proof.
  unfold before, byScoreDesc, ranksBefore.
  destruct (weightedScore a), (weightedScore b); try (intros; exact I).
  intro H. apply Z.leb_le in H. lia.
Qed.

Lemma not_before_ranks (a b : Tweet) :
  before byScoreDesc a b = false -> ranksBefore b a.
Proof.
  unfold before, byScoreDesc, ranksBefore.
  destruct (weightedScore a), (weightedScore b); try discriminate.
  intro H. apply Z.leb_gt in H. lia.
Qed.

Section SortFacts.
Context {A : Type} (cmp : A -> A -> option Z) (R : A -> A -> Prop).
Hypothesis before_R : forall x y, before cmp x y = true -> R x y.
Hypothesis not_before_R : forall x y, before cmp x y = false -> R y x.

Lemma insertSorted_perm (x : A) (l : list A) :
  Permutation (insertSorted cmp x l) (x :: l).
Proof.
  induction l as [| y l IH]; simpl; [reflexivity |].
  destruct (before cmp x y); [reflexivity |].
  rewrite IH. apply perm_swap.
Qed.

Lemma sortBy_perm (l : list A) : Permutation (sortBy cmp l) l.
Proof.
  induction l as [| x l IH]; simpl; [reflexivity |].
  rewrite insertSorted_perm. apply perm_skip, IH.
Qed.

Lemma insertSorted_hd (y x : A) (l : list A) :
  R y x -> HdRel R y l -> HdRel R y (insertSorted cmp x l).
Proof.
  intros Hyx Hl. destruct l as [| z l]; simpl.
  - constructor. exact Hyx.
  - destruct (before cmp x z); constructor;
      [exact Hyx | inversion Hl; assumption].
Qed.

Lemma insertSorted_sorted (x : A) (l : list A) :
  Sorted R l -> Sorted R (insertSorted cmp x l).
Proof.
  induction l as [| y l IH]; intro Hs; simpl.
  - repeat constructor.
  - destruct (before cmp x y) eqn:Hb.
    + constructor; [exact Hs |]. constructor. apply before_R, Hb.
    + inversion Hs as [| ? ? Hs' Hhd]; subst.
      constructor; [apply IH, Hs' |].
      apply insertSorted_hd; [apply not_before_R, Hb | exact Hhd].
Qed.

Lemma sortBy_sorted (l : list A) : Sorted R (sortBy cmp l).
Proof.
  induction l as [| x l IH]; simpl; [constructor |].
  apply insertSorted_sorted, IH.
Qed.
End SortFacts.


(** ** Suspicious activity: the end-to-end scenario *)

Lemma flags_are_findings (Date_parse : string -> option Z) (now : Z)
  (data : TwitterData) (tweetAnalysis : JsVal) :
  flags (detectSuspiciousActivity Date_parse now data tweetAnalysis) =
  fst (suspiciousFindings Date_parse now data).
Proof.
  unfold detectSuspiciousActivity.
  destruct (suspiciousFindings Date_parse now data); reflexivity.
Qed.

Lemma riskLevel_of_count (Date_parse : string -> option Z) (now : Z)
  (data : TwitterData) (tweetAnalysis : JsVal) :
  riskLevel (detectSuspiciousActivity Date_parse now data tweetAnalysis) =
  riskOfCount
    (List.length (flags (detectSuspiciousActivity Date_parse now data tweetAnalysis))).
Proof.
  unfold detectSuspiciousActivity.
  destruct (suspiciousFindings Date_parse now data) as [fl dt]. simpl.
  destruct fl as [| f1 [| f2 [| f3 rest]]]; reflexivity.
Qed.

Lemma all_links_counted (l : list Tweet) :
  Forall (fun t => hasLink t = true) l -> filter hasLink l = l.
Proof.
  induction 1 as [| t l Ht _ IH]; simpl; [reflexivity |].
  rewrite Ht, IH. reflexivity.
Qed.

(** C6: a profile with 200 followers that follows 20000 accounts and has 10
    posts, every one with a link, is flagged with "Unusual following pattern"
    and with "Link spam pattern", and its risk level is "Medium" or
    "High". *)
Theorem link_spam_account_flagged (Date_parse : string -> option Z) (now : Z)
  (data : TwitterData) (tweetAnalysis : JsVal) :
  followerCount data = 200 ->
  followingCount data = 20000 ->
  List.length (tweets data) = 10%nat ->
  Forall (fun t => hasLink t = true) (tweets data) ->
  let r := detectSuspiciousActivity Date_parse now data tweetAnalysis in
  In "Unusual following pattern" (flags r) /\
  In "Link spam pattern" (flags r) /\
  (riskLevel r = "Medium" \/ riskLevel r = "High").
Proof.
  intros Hfollowers Hfollowing Hlen Hlinks r.
  assert (Hunusual : In "Unusual following pattern" (flags r)).
  { subst r. rewrite flags_are_findings. unfold suspiciousFindings.
    rewrite Hfollowers, Hfollowing.
    apply fire_keeps, spamRules_keeps, fire_keeps.
    change ((5000 <? 20000) && Qltb (followRatio 200 20000) (1 # 10))
      with true.
    apply fire_adds. }
  assert (Hspam : In "Link spam pattern" (flags r)).
  { subst r. rewrite flags_are_findings. unfold suspiciousFindings.
    apply fire_keeps. unfold spamRules.
    rewrite (all_links_counted _ Hlinks), Hlen.
    change (5 <=? 10)%nat with true. cbv iota.
    apply fire_keeps.
    change (Qltb (natQ 10 * (8 # 10)) (natQ 10)) with true.
    apply fire_adds. }
  split; [exact Hunusual |]. split; [exact Hspam |].
  subst r. rewrite riskLevel_of_count.
  destruct (flags (detectSuspiciousActivity Date_parse now data tweetAnalysis))
    as [| f1 [| f2 [| f3 rest]]]; simpl; auto.
  destruct Hunusual.
Qed.

(** ** The account-age rule *)

(** The rule reads the age back from the text [calculateAccountAge] renders,
    so the first facts are about rendering a count and parsing it again. *)

Lemma leadingDigits_rendered (u : Decimal.uint) (r : string) :
  leadingDigits (DecimalString.NilEmpty.string_of_uint u ++ String " " r) = u.
Proof.
  induction u; simpl; congruence.
Qed.

Lemma rendered_has_no_prefix (u : Decimal.uint) (r : string) :
  u <> Decimal.Nil ->
  let s := DecimalString.NilEmpty.string_of_uint u ++ String " " r in
  trimStart s = s /\ stripSign s = (false, s) /\ hexPrefix s = None.
Proof.
  intros Hu s. subst s.
  destruct u as [| v | v | v | v | v | v | v | v | v | v];
    try (exfalso; apply Hu; reflexivity);
    (repeat split; try reflexivity);
    destruct v; reflexivity.
Qed.

Lemma parseIntString_rendered (n : N) (r : string) :
  parseIntString (N_to_string n ++ String " " r) = Some (Z.of_N n).
Proof.
  unfold N_to_string.
  pose proof (DecimalN.Unsigned.of_to n) as Hval.
  assert (Hnn : N.to_uint n <> Decimal.Nil).
  { destruct n; simpl; [discriminate |].
    apply DecimalPos.Unsigned.to_uint_nonnil. }
  destruct (rendered_has_no_prefix (N.to_uint n) r Hnn) as (Ht & Hs & Hx).
  unfold parseIntString. rewrite Ht, Hs, Hx, leadingDigits_rendered.
  rewrite <- Hval at 2.
  destruct (N.to_uint n); try reflexivity.
  exfalso. apply Hnn. reflexivity.
Qed.

Lemma Z_to_string_nonneg (z : Z) :
  0 <= z -> Z_to_string z = N_to_string (Z.to_N z).
Proof.
  destruct z; simpl; try reflexivity. lia.
Qed.

(** A non-negative count followed by a unit parses back to the count. *)
Lemma parseInt_count_with_unit (z : Z) (unit : string) :
  0 <= z ->
  parseIntString (Z_to_string z ++ String " " unit) = Some z.
Proof.
  intro Hz. rewrite Z_to_string_nonneg by exact Hz.
  rewrite parseIntString_rendered. f_equal. lia.
Qed.

Lemma rendered_is_not_Unknown (z : Z) (unit : string) :
  0 <= z ->
  String.eqb (Z_to_string z ++ String " " unit) "Unknown" = false.
Proof.
  intro Hz. rewrite Z_to_string_nonneg by exact Hz. unfold N_to_string.
  destruct (N.to_uint (Z.to_N z)); reflexivity.
Qed.

Lemma floor_of_quotient (d k : Z) :
  Math_floor (ZtoQ d / ZtoQ k)%Q = d / k.
Proof.
  unfold Math_floor, ZtoQ. symmetry. apply Zdiv_Qdiv.
Qed.

Lemma ceil_nonneg (d k : Z) :
  0 <= d -> 0 < k -> 0 <= Math_ceil (ZtoQ d / ZtoQ k)%Q.
Proof.
  intros Hd Hk. unfold Math_ceil, ZtoQ.
  rewrite Zle_Qle.
  apply Qle_trans with (inject_Z d / inject_Z k)%Q; [| apply Qle_ceiling].
  apply Qle_shift_div_l.
  - change 0%Q with (inject_Z 0). rewrite <- Zlt_Qlt. exact Hk.
  - rewrite Qmult_0_l. change 0%Q with (inject_Z 0).
    rewrite <- Zle_Qle. exact Hd.
Qed.

Lemma ageInDays_nonneg (Date_parse : string -> option Z) (now : Z)
  (v : JsVal) (days : Z) :
  ageInDays Date_parse now v = Some days -> 0 <= days.
Proof.
  unfold ageInDays. destruct (newDate Date_parse v); simpl; [| discriminate].
  intro H. injection H as <-. apply ceil_nonneg; lia.
Qed.

Lemma accountAge_unusable (Date_parse : string -> option Z) (now : Z)
  (v : JsVal) :
  usableJoinDate v = false -> calculateAccountAge Date_parse now v = "Unknown".
Proof.
  unfold usableJoinDate, calculateAccountAge. intro H.
  destruct (truthy v); simpl in *; [| reflexivity].
  destruct (isString v "Not specified"); [reflexivity | discriminate H].
Qed.

(** A rendered age is not the text "Unknown" and parses back to its
    figure. *)
Ltac read_back :=
  split; [apply rendered_is_not_Unknown | apply parseInt_count_with_unit];
  assumption.

(** What the rule reads back from the rendered age of a usable join date. *)
Lemma accountAge_read_back (Date_parse : string -> option Z) (now : Z)
  (v : JsVal) :
  usableJoinDate v = true ->
  String.eqb (calculateAccountAge Date_parse now v) "Unknown" = false /\
  parseIntString (calculateAccountAge Date_parse now v) =
  option_map ageFigure (ageInDays Date_parse now v).
Proof.
  intro Hu.
  pose proof (ageInDays_nonneg Date_parse now v) as Hnn.
  unfold usableJoinDate in Hu. apply andb_true_iff in Hu as [Ht Hs].
  unfold calculateAccountAge, ageInDays in *.
  rewrite Ht. apply negb_true_iff in Hs. rewrite Hs. cbn [negb orb].
  destruct (newDate Date_parse v) as [j |]; cbn [option_map] in *;
    [| split; reflexivity].
  specialize (Hnn _ eq_refl).
  set (d := Math_ceil _) in *. clearbody d.
  change (ZtoQ d / 30)%Q with (ZtoQ d / ZtoQ 30)%Q.
  change (ZtoQ d / 365)%Q with (ZtoQ d / ZtoQ 365)%Q.
  rewrite !floor_of_quotient. unfold ageFigure.
  destruct (d <? 30) eqn:H30; [| destruct (d <? 365) eqn:H365].
  - read_back.
  - assert (0 <= d / 30) by (apply Z.div_pos; lia). read_back.
  - assert (0 <= d / 365) by (apply Z.div_pos; lia). read_back.
Qed.

(** The figure is under 30 exactly when the account is younger than 10950
    days, that is 30 years of 365 days. *)
Lemma ageFigure_under_30 (days : Z) :
  0 <= days -> (ageFigure days <? 30) = (days <? 10950).
Proof.
  intro H. unfold ageFigure. apply eq_true_iff_eq. rewrite !Z.ltb_lt.
  destruct (days <? 30) eqn:H30; [apply Z.ltb_lt in H30; lia |].
  apply Z.ltb_ge in H30.
  destruct (days <? 365) eqn:H365.
  - apply Z.ltb_lt in H365.
    assert (days / 30 < 30) by (apply Z.div_lt_upper_bound; lia). lia.
  - apply Z.ltb_ge in H365. split; intro Hlt.
    + destruct (Z_lt_le_dec days 10950) as [Hd | Hd]; [exact Hd |].
      assert (30 <= days / 365) by (apply Z.div_le_lower_bound; lia). lia.
    + apply Z.div_lt_upper_bound; lia.
Qed.

(** What the code does: the account-age rule fires exactly when the join date
    is usable and parses, the account has more than 10000 followers, and the
    account is younger than 10950 days. *)
Lemma rapidGrowth_fires_iff (Date_parse : string -> option Z) (now : Z)
  (data : TwitterData) :
  rapidGrowth Date_parse now data =
  usableJoinDate (joinDate data) && (10000 <? followerCount data) &&
  match ageInDays Date_parse now (joinDate data) with
  | Some days => days <? 10950
  | None => false
  end.
Proof.
  unfold rapidGrowth.
  destruct (usableJoinDate (joinDate data)) eqn:Hu.
  - destruct (accountAge_read_back Date_parse now _ Hu) as [Hne Hparse].
    rewrite Hne, Hparse. cbn [negb andb].
    destruct (10000 <? followerCount data); [| reflexivity].
    destruct (ageInDays Date_parse now (joinDate data)) as [d |] eqn:Hd;
      cbn [option_map]; [| reflexivity].
    rewrite andb_true_r. apply ageFigure_under_30.
    apply (ageInDays_nonneg Date_parse now _ _ Hd).
  - rewrite (accountAge_unusable _ _ _ Hu). reflexivity.
Qed.

(** C2 at a failing input: on 1 March 2024 the account [establishedAccount]
    is 60 days old, so the rule of the specification (age under 30 days) does
    not apply; its age is rendered "2 months", the code reads the 2 back as a
    number of days, and "Rapid follower growth" is flagged. *)
Theorem rapid_growth_flags_two_month_old_account :
  ageInDays isoParser march1st2024 (joinDate establishedAccount) = Some 60 /\
  newAccountRule isoParser march1st2024 establishedAccount = false /\
  calculateAccountAge isoParser march1st2024 (joinDate establishedAccount) =
    "2 months" /\
  rapidGrowth isoParser march1st2024 establishedAccount = true /\
  flags (detectSuspiciousActivity isoParser march1st2024 establishedAccount VUndef) =
    ["Rapid follower growth"].
Proof.
  vm_compute. repeat split; reflexivity.
Qed.

(** The rule of the code and the rule of the specification agree on every
    account younger than 30 days and on every account of 10950 days or more;
    they differ exactly in between. *)
Lemma rapidGrowth_versus_stated_rule (Date_parse : string -> option Z)
  (now : Z) (data : TwitterData) :
  rapidGrowth Date_parse now data =
  newAccountRule Date_parse now data
  || (usableJoinDate (joinDate data) && (10000 <? followerCount data) &&
      match ageInDays Date_parse now (joinDate data) with
      | Some days => (30 <=? days) && (days <? 10950)
      | None => false
      end).
Proof.
  rewrite rapidGrowth_fires_iff. unfold newAccountRule.
  destruct (usableJoinDate (joinDate data)); [| reflexivity].
  destruct (10000 <? followerCount data);
    destruct (ageInDays Date_parse now (joinDate data)) as [d |];
    cbn [andb orb]; try reflexivity.
  - rewrite andb_true_r.
    destruct (d <? 30) eqn:H30; destruct (d <? 10950) eqn:Hd;
    destruct (30 <=? d) eqn:Hle; try reflexivity;
    rewrite ?Z.ltb_lt, ?Z.ltb_ge, ?Z.leb_le, ?Z.leb_gt in *; lia.
  - rewrite andb_false_r. reflexivity.
Qed.

(** ** The end-to-end scenario at a concrete account *)

(** The scenario of C6 at [linkSpamAccount]: ten copies of one link-bearing
    tweet, 200 followers, 20000 followed accounts. *)
Lemma link_spam_account_flagged_witness :
  In "Unusual following pattern"
     (flags (detectSuspiciousActivity (fun _ => None) 0 linkSpamAccount VUndef)) /\
  In "Link spam pattern"
     (flags (detectSuspiciousActivity (fun _ => None) 0 linkSpamAccount VUndef)) /\
  (riskLevel (detectSuspiciousActivity (fun _ => None) 0 linkSpamAccount VUndef)
     = "Medium" \/
   riskLevel (detectSuspiciousActivity (fun _ => None) 0 linkSpamAccount VUndef)
     = "High").
Proof.
  apply (link_spam_account_flagged (fun _ => None) 0 linkSpamAccount VUndef);
    [reflexivity | reflexivity | reflexivity | repeat constructor].
Defined.

(** ** The empty tweet list *)

(** The engagement analysis of an empty list has every field at its zero. *)
Lemma empty_engagement_defaults (nFollowers : JsVal) :
  analyzeEngagement [] nFollowers =
  {| avgEngagement := Some 0; totalEngagement := Some 0; avgLikes := Some 0;
     avgRetweets := Some 0; avgReplies := Some 0; avgViews := Some 0;
     engagementRate := "0%"; viralityScore := VNum 0; topTweets := [] |}.
Proof.
  reflexivity.
Qed.

(** With no tweet the spam rules are skipped: only the two ratio rules and
    the account-age rule can flag. *)
Lemma empty_suspicious_findings (Date_parse : string -> option Z) (now : Z)
  (data : TwitterData) :
  tweets data = [] ->
  incl (fst (suspiciousFindings Date_parse now data))
       ["Unusual following pattern"; "Suspicious follower ratio";
        "Rapid follower growth"].
Proof.
  intro Hempty. unfold suspiciousFindings, spamRules, fire.
  rewrite Hempty. cbn [List.length Nat.leb].
  destruct (_ && _); destruct (_ && _); destruct (rapidGrowth _ _ _);
    cbn [fst snd app]; intros x Hx; simpl in *; intuition.
Qed.

(** The behaviour analysis of a profile with no tweet: four fields hold their
    defaults. *)
Lemma empty_behavior_defaults (Date_parse : string -> option Z)
  (depthOfTweets : list Tweet -> JsVal)
  (nFollowers nFollowing joined : JsVal) (isVerified : bool) :
  let data := withoutTweets nFollowers nFollowing joined isVerified in
  let b := analyzeBehavior Date_parse data
             (analyzeTweetsInDepth depthOfTweets (tweets data)) in
  activityPattern b = "Inactive" /\
  postingFrequency b = "0 tweets in recent timeline" /\
  consistencyScore b = "Insufficient data" /\
  accountType b =
    accountTypeOf isVerified (followerCount data) (followingCount data).
Proof.
  cbv zeta. repeat split. apply accountType_spelled_out.
Qed.

(** C1 at the failing input, the empty tweet list: the content analysis
    returns [types], [hashtagStats], [mentionStats] and [linkStats] as objects
    with no key, while on every non-empty list they carry the keys listed
    below; and the behaviour analysis returns [peakTimes] as [undefined]
    because the empty analysis of the tweets has no [peakHour]. *)
Theorem empty_tweets_omit_fields :
  keysOf (types (analyzeContent [])) = [] /\
  keysOf (hashtagStats (analyzeContent [])) = [] /\
  keysOf (mentionStats (analyzeContent [])) = [] /\
  keysOf (linkStats (analyzeContent [])) = [] /\
  (forall (t : Tweet) (rest : list Tweet),
      keysOf (types (analyzeContent (t :: rest))) =
        ["original"; "replies"; "retweets"; "withMedia"; "withLinks"] /\
      keysOf (hashtagStats (analyzeContent (t :: rest))) =
        ["total"; "unique"; "topHashtags"] /\
      keysOf (mentionStats (analyzeContent (t :: rest))) =
        ["total"; "unique"; "topMentions"] /\
      keysOf (linkStats (analyzeContent (t :: rest))) =
        ["tweetsWithLinks"; "percentage"]) /\
  (forall (Date_parse : string -> option Z)
          (depthOfTweets : list Tweet -> JsVal)
          (nFollowers nFollowing joined : JsVal) (isVerified : bool),
      hasKey (analyzeTweetsInDepth depthOfTweets []) "peakHour" = false /\
      peakTimes
        (analyzeBehavior Date_parse
           (withoutTweets nFollowers nFollowing joined isVerified)
           (analyzeTweetsInDepth depthOfTweets [])) = VUndef).
Proof.
  repeat split; reflexivity.
Qed.

(** ** formatNumber *)

(** *** Rounding facts *)

Lemma roundHalfEven_close (n d : Z) :
  0 < d -> 2 * Z.abs (roundHalfEven n d * d - n) <= d.
Proof.
  intro Hd. unfold roundHalfEven.
  pose proof (Z.div_mod n d ltac:(lia)) as Hdm.
  pose proof (Z.mod_pos_bound n d Hd) as Hr.
  destruct (Z.compare_spec (2 * (n mod d)) d) as [He | Hl | Hg];
    [destruct (Z.even (n / d)) | |]; nia.
Qed.

Lemma roundHalfEven_tie (n d : Z) :
  0 < d -> 2 * Z.abs (roundHalfEven n d * d - n) = d ->
  Z.even (roundHalfEven n d) = true.
Proof.
  intros Hd. unfold roundHalfEven.
  pose proof (Z.div_mod n d ltac:(lia)) as Hdm.
  pose proof (Z.mod_pos_bound n d Hd) as Hr.
  destruct (Z.compare_spec (2 * (n mod d)) d) as [He | Hl | Hg].
  - destruct (Z.even (n / d)) eqn:E; intros _; [exact E |].
    replace (n / d + 1) with (Z.succ (n / d)) by lia.
    rewrite Z.even_succ, <- Z.negb_even, E. reflexivity.
  - intro H. exfalso. nia.
  - intro H. exfalso. nia.
Qed.

Lemma roundHalfEven_mono_bounds (n d lo hi : Z) :
  0 < d -> lo * d <= n -> n < hi * d ->
  lo <= roundHalfEven n d <= hi.
Proof.
  intros Hd Hlo Hhi. unfold roundHalfEven.
  pose proof (Z.div_mod n d ltac:(lia)) as Hdm.
  pose proof (Z.mod_pos_bound n d Hd) as Hr.
  assert (lo <= n / d) by (apply Z.div_le_lower_bound; lia).
  assert (n / d < hi) by (apply Z.div_lt_upper_bound; lia).
  destruct (Z.compare_spec (2 * (n mod d)) d) as [He | Hl | Hg];
    [destruct (Z.even (n / d)) | |]; lia.
Qed.

Lemma floorLog2_spec (a b : positive) :
  Zpos b <= Zpos a ->
  0 <= floorLog2 a b /\
  Zpos b * 2 ^ floorLog2 a b <= Zpos a < Zpos b * 2 ^ (floorLog2 a b + 1).
Proof.
  intro Hab. unfold floorLog2.
  pose proof (Z.log2_spec (Zpos a) ltac:(lia)) as Ha.
  pose proof (Z.log2_spec (Zpos b) ltac:(lia)) as Hb.
  pose proof (Z.log2_nonneg (Zpos b)) as Hlb.
  assert (Hk : 0 <= Z.log2 (Zpos a) - Z.log2 (Zpos b)).
  { assert (Z.log2 (Zpos b) <= Z.log2 (Zpos a)) by (apply Z.log2_le_mono; lia).
    lia. }
  set (k := Z.log2 (Zpos a) - Z.log2 (Zpos b)) in *.
  assert (Hla : Z.log2 (Zpos a) = Z.log2 (Zpos b) + k) by (unfold k; lia).
  rewrite Hla in Ha. replace (Z.succ (Z.log2 (Zpos b) + k)) with
    (Z.log2 (Zpos b) + k + 1) in Ha by lia.
  replace (Z.succ (Z.log2 (Zpos b))) with (Z.log2 (Zpos b) + 1) in Hb by lia.
  rewrite !Z.pow_add_r in Ha by lia. rewrite Z.pow_add_r in Hb by lia.
  change (2 ^ 1) with 2 in *.
  assert (HA : 0 < 2 ^ Z.log2 (Zpos b)) by (apply Z.pow_pos_nonneg; lia).
  assert (HK : 0 < 2 ^ k) by (apply Z.pow_pos_nonneg; lia).
  rewrite (Z.max_l 0 (- k)) by lia. rewrite (Z.max_r 0 k) by lia.
  change (2 ^ 0) with 1. rewrite Z.mul_1_r.
  set (A := 2 ^ Z.log2 (Zpos b)) in *. 
  destruct (Z.ltb_spec (Zpos a) (Zpos b * 2 ^ k)) as [Hlt | Hge].
  - assert (Hk1 : 1 <= k).
    { destruct (Z.eq_dec k 0) as [E | E]; [| lia].
      rewrite E in Hlt. change (2 ^ 0) with 1 in Hlt. lia. }
    replace (k - 1 + 1) with k by lia.
    assert (HK' : 2 ^ k = 2 * 2 ^ (k - 1)).
    { replace k with (1 + (k - 1)) at 1 by lia.
      rewrite Z.pow_add_r by lia. reflexivity. }
    assert (0 < 2 ^ (k - 1)) by (apply Z.pow_pos_nonneg; lia).
    split; [lia |]. split; [| exact Hlt].
    set (K' := 2 ^ (k - 1)) in *. nia.
  - rewrite Z.pow_add_r by lia. change (2 ^ 1) with 2.
    split; [lia |]. split; [exact Hge |].
    set (K := 2 ^ k) in *. nia.
Qed.

Lemma nearestBinary64_normal (a b : positive) :
  Zpos b <= Zpos a -> Zpos a < Zpos b * 2 ^ 1000 ->
  forall m e, nearestBinary64 a b = (m, e) ->
  -52 <= e <= 947 /\ 2 ^ 52 <= m <= 2 ^ 53 /\
  2 * Z.abs (m * (Zpos b * 2 ^ Z.max 0 e) - Zpos a * 2 ^ Z.max 0 (- e))
    <= Zpos b * 2 ^ Z.max 0 e /\
  (2 * Z.abs (m * (Zpos b * 2 ^ Z.max 0 e) - Zpos a * 2 ^ Z.max 0 (- e))
     = Zpos b * 2 ^ Z.max 0 e -> Z.even m = true) /\
  Zpos b * 2 ^ Z.max 0 e * 2 ^ 52 <= Zpos a * 2 ^ Z.max 0 (- e) /\
  Zpos a * 2 ^ Z.max 0 (- e) < 2 ^ 53 * (Zpos b * 2 ^ Z.max 0 e).
Proof.
  intros Hab Hup m e Hme. unfold nearestBinary64 in Hme.
  destruct (floorLog2_spec a b Hab) as (HL0 & HLlo & HLhi).
  set (L := floorLog2 a b) in *.
  assert (HL : L <= 999).
  { destruct (Z_le_gt_dec L 999) as [H | H]; [exact H | exfalso].
    assert (2 ^ 1000 <= 2 ^ L) by (apply Z.pow_le_mono_r; lia).
    nia. }
  rewrite (Z.max_l (L - 52) (-1074)) in Hme by lia.
  injection Hme as Hm He. subst e.
  assert (HP : 0 < 2 ^ Z.max 0 (L - 52)) by (apply Z.pow_pos_nonneg; lia).
  assert (HR : 0 < 2 ^ Z.max 0 (- (L - 52))) by (apply Z.pow_pos_nonneg; lia).
  assert (Hsplit : 2 ^ L * 2 ^ Z.max 0 (- (L - 52)) =
                   2 ^ 52 * 2 ^ Z.max 0 (L - 52)).
  { rewrite <- !Z.pow_add_r by lia. f_equal. lia. }
  assert (Hlow : Zpos b * 2 ^ Z.max 0 (L - 52) * 2 ^ 52 <=
                 Zpos a * 2 ^ Z.max 0 (- (L - 52))).
  { replace (Zpos b * 2 ^ Z.max 0 (L - 52) * 2 ^ 52)
      with (Zpos b * (2 ^ 52 * 2 ^ Z.max 0 (L - 52))) by ring.
    rewrite <- Hsplit.
    replace (Zpos b * (2 ^ L * 2 ^ Z.max 0 (- (L - 52))))
      with (Zpos b * 2 ^ L * 2 ^ Z.max 0 (- (L - 52))) by ring.
    apply Z.mul_le_mono_nonneg_r; lia. }
  assert (Hhigh : Zpos a * 2 ^ Z.max 0 (- (L - 52)) <
                  2 ^ 53 * (Zpos b * 2 ^ Z.max 0 (L - 52))).
  { replace (2 ^ 53 * (Zpos b * 2 ^ Z.max 0 (L - 52)))
      with (Zpos b * 2 * (2 ^ 52 * 2 ^ Z.max 0 (L - 52))) by
        (change (2 ^ 53) with (2 * 2 ^ 52); ring).
    rewrite <- Hsplit.
    replace (Zpos b * 2 * (2 ^ L * 2 ^ Z.max 0 (- (L - 52))))
      with (Zpos b * 2 ^ (L + 1) * 2 ^ Z.max 0 (- (L - 52)))
      by (rewrite Z.pow_add_r by lia; change (2 ^ 1) with 2; ring).
    apply Z.mul_lt_mono_pos_r; lia. }
  assert (HD : 0 < Zpos b * 2 ^ Z.max 0 (L - 52)) by lia.
  split; [lia |].
  split; [| split; [| split; [| split; [exact Hlow | exact Hhigh]]]].
  - subst m. apply roundHalfEven_mono_bounds; [exact HD | | exact Hhigh].
    rewrite (Z.mul_comm (2 ^ 52)). exact Hlow.
  - subst m. apply roundHalfEven_close. exact HD.
  - subst m. apply roundHalfEven_tie. exact HD.
Qed.

Lemma scaled_value (m e : Z) :
  (scaled m e ==
   Qmake (m * 2 ^ Z.max 0 e) (Z.to_pos (2 ^ Z.max 0 (- e))))%Q.
Proof.
  unfold scaled. apply Qred_correct.
Qed.

(** The rounded value is within a relative 2^-53 of the exact one. *)
Lemma scaled_close (a b : positive) (m e : Z) :
  2 * Z.abs (m * (Zpos b * 2 ^ Z.max 0 e) - Zpos a * 2 ^ Z.max 0 (- e))
    <= Zpos b * 2 ^ Z.max 0 e ->
  Zpos b * 2 ^ Z.max 0 e * 2 ^ 52 <= Zpos a * 2 ^ Z.max 0 (- e) ->
  (Qabs (scaled m e - (Zpos a # b)) <= (Zpos a # b) * (1 # 2 ^ 53))%Q /\
  (Qabs (scaled (- m) e - (Zneg a # b)) <= (Zpos a # b) * (1 # 2 ^ 53))%Q.
Proof.
  intros Hclose Hlow.
  assert (HP : 0 < 2 ^ Z.max 0 e) by (apply Z.pow_pos_nonneg; lia).
  assert (HR : 0 < 2 ^ Z.max 0 (- e)) by (apply Z.pow_pos_nonneg; lia).
  rewrite !scaled_value.
  set (P := 2 ^ Z.max 0 e) in *. set (R := 2 ^ Z.max 0 (- e)) in *.
  unfold Qle, Qabs, Qminus, Qplus, Qopp, Qmult.
  cbn [Qnum Qden]. rewrite !Pos2Z.inj_mul, !Z2Pos.id by exact HR.
  change (Zpos (2 ^ 53)) with (2 * 2 ^ 52).
  split.
  - replace (m * P * Zpos b + - Zpos a * R) with (m * (Zpos b * P) - Zpos a * R)
      by ring.
    nia.
  - replace (- m * P * Zpos b + - Zneg a * R)
      with (- (m * (Zpos b * P) - Zpos a * R))
      by (change (Zneg a) with (- Zpos a); ring).
    rewrite Z.abs_opp. nia.
Qed.

(** The binade and the half unit of the last place, in rationals. *)
Lemma scaled_nearest (a b : positive) (m e : Z) :
  2 * Z.abs (m * (Zpos b * 2 ^ Z.max 0 e) - Zpos a * 2 ^ Z.max 0 (- e))
    <= Zpos b * 2 ^ Z.max 0 e ->
  (2 * Z.abs (m * (Zpos b * 2 ^ Z.max 0 e) - Zpos a * 2 ^ Z.max 0 (- e))
     = Zpos b * 2 ^ Z.max 0 e -> Z.even m = true) ->
  Zpos b * 2 ^ Z.max 0 e * 2 ^ 52 <= Zpos a * 2 ^ Z.max 0 (- e) ->
  Zpos a * 2 ^ Z.max 0 (- e) < 2 ^ 53 * (Zpos b * 2 ^ Z.max 0 e) ->
  (scaled (2 ^ 52) e <= Zpos a # b)%Q /\
  (Zpos a # b < scaled (2 ^ 53) e)%Q /\
  (Qabs (scaled m e - (Zpos a # b)) * 2 <= scaled 1 e)%Q /\
  ((Qabs (scaled m e - (Zpos a # b)) * 2 == scaled 1 e)%Q ->
   Z.even m = true).
Proof.
  intros Hclose Htie Hlow Hhigh.
  assert (HP : 0 < 2 ^ Z.max 0 e) by (apply Z.pow_pos_nonneg; lia).
  assert (HR : 0 < 2 ^ Z.max 0 (- e)) by (apply Z.pow_pos_nonneg; lia).
  rewrite !scaled_value.
  set (P := 2 ^ Z.max 0 e) in *. set (R := 2 ^ Z.max 0 (- e)) in *.
  unfold Qle, Qlt, Qeq, Qabs, Qminus, Qplus, Qopp, Qmult.
  cbn [Qnum Qden]. rewrite ?Pos2Z.inj_mul, ?Z2Pos.id by exact HR.
  replace (m * P * Zpos b + - Zpos a * R) with (m * (Zpos b * P) - Zpos a * R)
    by ring.
  set (X := Z.abs (m * (Zpos b * P) - Zpos a * R)) in *.
  change (Zpos 1) with 1. rewrite ?Z.mul_1_r, ?Z.mul_1_l.
  split; [nia |]. split; [nia |]. split; [nia |].
  intro H. apply Htie.
  assert (E : (2 * X) * R = (Zpos b * P) * R) by lia.
  apply Z.mul_cancel_r in E; lia.
Qed.

Lemma no_overflow (m e : Z) :
  -52 <= e <= 947 -> 2 ^ 52 <= m <= 2 ^ 53 ->
  (2 ^ 1024 <=? m * 2 ^ Z.max 0 e) = false.
Proof.
  intros He Hm. apply Z.leb_gt.
  assert (H1 : 2 ^ Z.max 0 e <= 2 ^ 947) by (apply Z.pow_le_mono_r; lia).
  assert (H0 : 0 < 2 ^ Z.max 0 e) by (apply Z.pow_pos_nonneg; lia).
  assert (H2 : m * 2 ^ Z.max 0 e <= 2 ^ 53 * 2 ^ 947).
  { apply Z.mul_le_mono_nonneg; lia. }
  rewrite <- Z.pow_add_r in H2 by lia.
  eapply Z.le_lt_trans; [exact H2 |].
  apply Z.pow_lt_mono_r; lia.
Qed.

Lemma scaled_sign (m e : Z) :
  0 < m -> Qltb (scaled m e) 0 = false /\ Qltb (scaled (- m) e) 0 = true.
Proof.
  intro Hm.
  assert (HP : 0 < 2 ^ Z.max 0 e) by (apply Z.pow_pos_nonneg; lia).
  unfold Qltb. rewrite !scaled_value.
  unfold Qcompare. cbn [Qnum Qden]. rewrite !Z.mul_1_r.
  change (0 * _) with 0.
  split.
  - destruct (Z.compare_spec (m * 2 ^ Z.max 0 e) 0); try reflexivity. nia.
  - destruct (Z.compare_spec (- m * 2 ^ Z.max 0 e) 0); try reflexivity; nia.
Qed.


Lemma scaled_abs (m e : Z) :
  0 < m ->
  (Qabs (scaled m e) == scaled m e)%Q /\
  (Qabs (scaled (- m) e) == scaled m e)%Q.
Proof.
  intro Hm.
  assert (HP : 0 < 2 ^ Z.max 0 e) by (apply Z.pow_pos_nonneg; lia).
  rewrite !scaled_value. unfold Qeq, Qabs. cbn [Qnum Qden].
  split; f_equal; [apply Z.abs_eq | rewrite Z.mul_opp_l, Z.abs_opp;
                                    apply Z.abs_eq]; nia.
Qed.

(** In the range of the quotients [formatNumber] prints, rounding gives the
    nearest binary64 number. *)
Lemma toDouble_close (y : Q) :
  (1 <= Qabs y)%Q -> (Qabs y < inject_Z (2 ^ 1000))%Q ->
  exists x : Q, toDouble y = NumFin x /\ roundedQuotient y x.
Proof.
  destruct y as [n b]. unfold Qle, Qlt, inject_Z, toDouble, roundedQuotient.
  cbn [Qnum Qden Qabs]. rewrite !Z.mul_1_l, !Z.mul_1_r.
  intros Hlo Hhi.
  destruct n as [| a | a]; cbn [Z.abs] in Hlo, Hhi |- *; [lia | |];
    destruct (nearestBinary64 a b) as [m e] eqn:Hme;
    destruct (nearestBinary64_normal a b Hlo ltac:(lia) m e Hme)
      as (He & Hm & Hclose & Htie & Hlow & Hhigh);
    rewrite (no_overflow m e He Hm);
    assert (Hmpos : 0 < m)
      by (assert (0 < 2 ^ 52) by (apply Z.pow_pos_nonneg; lia); lia);
    destruct (scaled_close a b m e Hclose Hlow) as [Hp Hn];
    destruct (scaled_sign m e Hmpos) as [Sp Sn];
    destruct (scaled_abs m e Hmpos) as [Ap An];
    destruct (scaled_nearest a b m e Hclose Htie Hlow Hhigh)
      as (Hb1 & Hb2 & Hhalf & Heven).
  - exists (scaled m e). split; [reflexivity |].
    split; [rewrite Sp; reflexivity |]. split; [exact Hp |].
    exists m, e. split; [exact Hm |]. split; [lia |].
    split; [exact Ap |]. split; [exact Hb1 |]. split; [exact Hb2 |].
    split; [rewrite Ap; exact Hhalf |].
    rewrite Ap. exact Heven.
  - destruct (Z.eqb_spec m 0) as [E | _]; [lia |].
    exists (scaled (- m) e). split; [reflexivity |].
    split; [rewrite Sn; reflexivity |]. split; [exact Hn |].
    exists m, e. split; [exact Hm |]. split; [lia |].
    split; [exact An |]. split; [exact Hb1 |]. split; [exact Hb2 |].
    split; [rewrite An; exact Hhalf |].
    rewrite An. exact Heven.
Qed.

(** *** Fixed notation *)

Lemma repeatChar_length (c : ascii) (n : nat) :
  String.length (repeatChar c n) = n.
Proof.
  induction n as [| n IH]; simpl; [| rewrite IH]; reflexivity.
Qed.

Lemma append_length (s t : string) :
  String.length (s ++ t) = (String.length s + String.length t)%nat.
Proof.
  induction s as [| c s IH]; simpl; [| rewrite IH]; reflexivity.
Qed.

Lemma substring_split (k : nat) (s : string) :
  (k <= String.length s)%nat ->
  String.substring 0 k s ++ String.substring k (String.length s - k) s = s.
Proof.
  revert s. induction k as [| k IH]; intros s Hk.
  - rewrite Nat.sub_0_r.
    assert (H0 : String.substring 0 0 s = "") by (destruct s; reflexivity).
    rewrite H0. cbn [append]. clear.
    induction s as [| c s IH]; [reflexivity |]. simpl. rewrite IH. reflexivity.
  - destruct s as [| c s]; [simpl in Hk; lia |].
    simpl in Hk. cbn [String.substring String.length Nat.sub append].
    rewrite IH by lia. reflexivity.
Qed.

Lemma substring_tail_length (k f : nat) (s : string) :
  String.length s = (k + f)%nat -> String.length (String.substring k f s) = f.
Proof.
  revert s. induction k as [| k IH]; intros s Hs.
  - simpl in Hs. subst f.
    induction s as [| c s IH]; [reflexivity |]. simpl. rewrite IH. reflexivity.
  - destruct s as [| c s]; [discriminate Hs |].
    simpl in Hs. cbn [String.substring]. apply IH. lia.
Qed.

Lemma zeroPad_length (width : nat) (s : string) :
  (width <= String.length (zeroPad width s))%nat.
Proof.
  unfold zeroPad. rewrite append_length, repeatChar_length. lia.
Qed.

(** [toFixed] writes the nearest number of 10^-f units, the larger one on a
    tie, as a sign, the whole part, the point and [f] digits. *)
Lemma toFixed_fixedNotation (f : nat) (x : Q) :
  (0 < f)%nat -> fixedNotation f x (toFixed f x).
Proof.
  intro Hf. unfold toFixed, fixedNotation.
  set (w := (Qabs x * inject_Z (10 ^ Z.of_nat f))%Q).
  set (v := (w + (1 # 2))%Q).
  set (n := Qfloor v).
  fold (zeroPad (S f) (N_to_string (Z.to_N n))).
  set (m := zeroPad (S f) (N_to_string (Z.to_N n))).
  pose proof (zeroPad_length (S f) (N_to_string (Z.to_N n))) as Hlen.
  fold m in Hlen.
  exists n, (String.substring 0 (String.length m - f) m),
    (String.substring (String.length m - f) f m).
  pose proof (Qfloor_le v) as Hle. pose proof (Qlt_floor v) as Hlt.
  fold n in Hle, Hlt. rewrite inject_Z_plus in Hlt.
  change (inject_Z 1) with 1%Q in Hlt.
  split.
  { unfold v in Hlt. revert Hlt. generalize (inject_Z n). clearbody w.
    intros i Hlt. lra. }
  split; [exact Hle |].
  destruct (Nat.eqb_spec f 0) as [E | _]; [lia |].
  split; [reflexivity |]. split; [| split].
  - assert (Hk : exists k, (String.length m - f)%nat = S k)
      by (exists (String.length m - f - 1)%nat; lia).
    destruct Hk as [k ->].
    destruct m as [| c m']; [simpl in Hlen; lia | discriminate].
  - apply substring_tail_length. lia.
  - pose proof (substring_split (String.length m - f) m ltac:(lia)) as Hs.
    replace (String.length m - (String.length m - f))%nat with f in Hs by lia.
    exact Hs.
Qed.

(** *** Values that cannot be converted *)

Lemma hasKey_existsb (k : string) (fields : list (string * JsVal)) :
  hasKey (VObj fields) k =
  existsb (fun entry => String.eqb k (fst entry)) fields.
Proof.
  unfold hasKey. induction fields as [| [k' v] rest IH]; [reflexivity |].
  cbn [assoc existsb fst]. destruct (String.eqb k k'); [reflexivity | exact IH].
Qed.

Lemma ToPrimitive_throws (v : JsVal) :
  ToPrimitive v = None <-> unprintable v = true.
Proof.
  revert v. fix IH 1. intros [| | b | z | | s | l | fields];
    try (cbn; split; discriminate).
  - cbn [ToPrimitive unprintable].
    assert (Hl : fold_right
                   (fun e acc =>
                      match (match e with
                             | VUndef | VNull => Some ""
                             | _ => ToPrimitive e
                             end), acc with
                      | Some s, Some rest => Some (s :: rest)
                      | _, _ => None
                      end) (Some []) l = None <->
                 existsb unprintable l = true).
    { induction l as [| e l IHl]; [cbn; split; discriminate |].
      cbn [fold_right existsb]. rewrite orb_true_iff, <- IHl, <- (IH e).
      destruct e; cbn [ToPrimitive];
        repeat match goal with
               | |- context [match ?o with Some _ => _ | None => _ end] =>
                   destruct o
               | |- context [if ?c then _ else _] => destruct c
               end;
        split; intro H; try discriminate H; try reflexivity; auto;
        destruct H as [H | H]; discriminate H. }
    destruct (fold_right _ _ l); cbn [option_map].
    + split; [discriminate |]. intro H. apply Hl in H. discriminate H.
    + split; [intros _; apply Hl; reflexivity | reflexivity].
  - cbn [ToPrimitive unprintable]. rewrite hasKey_existsb.
    destruct (existsb _ fields); split; congruence.
Qed.

(** *** The formatter *)

Lemma absAtLeast_true (q bound : Q) :
  (bound <= Qabs q)%Q -> absAtLeast (NumFin q) bound = true.
Proof.
  intro H. apply Qle_bool_iff. exact H.
Qed.

Lemma absAtLeast_false (q bound : Q) :
  (Qabs q < bound)%Q -> absAtLeast (NumFin q) bound = false.
Proof.
  intro H. cbn [absAtLeast]. destruct (Qle_bool bound (Qabs q)) eqn:E;
    [| reflexivity].
  apply Qle_bool_iff in E. exfalso. exact (Qlt_not_le _ _ H E).
Qed.

Lemma Qabs_quotient (q d : Q) :
  (0 < d)%Q -> (Qabs (q / d) == Qabs q / d)%Q.
Proof.
  intro Hd. unfold Qdiv. rewrite Qabs_Qmult, Qabs_Qinv.
  rewrite (Qabs_pos d) by (apply Qlt_le_weak; exact Hd). reflexivity.
Qed.

Lemma divideBy_rounded (q d : Q) :
  (0 < d)%Q -> (d <= Qabs q)%Q -> (Qabs q < d * inject_Z (2 ^ 1000))%Q ->
  exists x : Q,
    divideBy (NumFin q) d = NumFin x /\ roundedQuotient (q / d) x.
Proof.
  intros Hd Hlo Hhi. cbn [divideBy]. apply toDouble_close.
  - rewrite (Qabs_quotient q d Hd). apply Qle_shift_div_l; [exact Hd |].
    rewrite Qmult_1_l. exact Hlo.
  - rewrite (Qabs_quotient q d Hd). apply Qlt_shift_div_r; [exact Hd |].
    rewrite Qmult_comm. exact Hhi.
Qed.

Lemma rounded_below (y x bound : Q) :
  roundedQuotient y x -> (Qabs y < bound)%Q -> (Qabs x < 2 * bound)%Q.
Proof.
  intros (_ & Hclose & _) Hy.
  assert (Ht : (Qabs x <= Qabs (x - y) + Qabs y)%Q).
  { assert (E : (x == (x - y) + y)%Q) by ring.
    rewrite E at 1. apply Qabs_triangle. }
  pose proof (Qabs_nonneg y) as Hv.
  revert Ht Hclose Hy Hv.
  generalize (Qabs x), (Qabs (x - y)), (Qabs y). intros t u v Ht Hclose Hy Hv.
  assert (Hc : ((1 # 2 ^ 53) <= 1)%Q) by discriminate.
  assert (Hu : (v * (1 # 2 ^ 53) <= v * 1)%Q).
  { rewrite !(Qmult_comm v). apply Qmult_le_compat_r; assumption. }
  lra.
Qed.

Lemma toFixedJs_small (NumberToString : JsNum -> string) (f : nat) (x : Q) :
  (Qabs x < inject_Z (10 ^ 21))%Q ->
  toFixedJs NumberToString f (NumFin x) = toFixed f x.
Proof.
  intro H. cbn [toFixedJs].
  destruct (Qle_bool (inject_Z (10 ^ 21)) (Qabs x)) eqn:E; [| reflexivity].
  apply Qle_bool_iff in E. exfalso. exact (Qlt_not_le _ _ H E).
Qed.

Lemma Number_throws (StringToNumber : string -> JsNum) (n : Input) :
  Number StringToNumber n = None <-> unconvertible n = true.
Proof.
  destruct n as [v | x |]; cbn [Number unconvertible];
    [| split; discriminate | split; reflexivity].
  destruct v; try (cbn; split; discriminate);
    rewrite <- ToPrimitive_throws;
    destruct (ToPrimitive _); cbn [option_map]; split; congruence.
Qed.

Lemma append_associative (s t u : string) : (s ++ t) ++ u = s ++ t ++ u.
Proof.
  induction s as [| c s IH]; simpl; [| rewrite IH]; reflexivity.
Qed.

Ltac below :=
  apply absAtLeast_false;
  match goal with
  | H : (Qabs ?q < _)%Q |- _ =>
      revert H; generalize (Qabs q); intros; lra
  end.

Ltac at_least :=
  apply absAtLeast_true;
  match goal with
  | H : (_ <= Qabs ?q)%Q |- _ =>
      revert H; generalize (Qabs q); intros; lra
  end.

(** C10, as amended: [formatNumber] throws exactly on the values that
    [Number] cannot convert (a Symbol, an object with an own [toString]
    entry, an array that holds one) and returns a string on every other
    value.  The string is "0" on [null], on [undefined] and on every value
    that converts to [NaN].  Any other value is formatted as the number it
    converts to: an infinity as "InfinityB" or "-InfinityB"; a number below
    1000 in magnitude by [toLocaleString], without suffix; from 10^3, 10^6
    and 10^9 on, the binary64 quotient by that power of ten in fixed notation
    with one ("K") or two ("M", "B") digits after the point, followed by the
    suffix; a quotient of 10^21 or more, which only the "B" range reaches,
    has the digits of [String] in place of the fixed notation. *)
Theorem formatNumber_total (StringToNumber : string -> JsNum)
  (toLocaleString NumberToString : JsNum -> string) (n : Input) :
  let format := formatNumber StringToNumber toLocaleString NumberToString in
  let sign (x : Q) := if Qltb x 0 then "-" else "" in
  (format n = None <-> unconvertible n = true) /\
  (isNullOrUndefined n = true -> format n = Some "0") /\
  (unconvertible n = false ->
   exists num, Number StringToNumber n = Some num) /\
  (forall num : JsNum,
     isNullOrUndefined n = false -> Number StringToNumber n = Some num ->
     match num with
     | NumNaN => format n = Some "0"
     | NumInf negative =>
         format n = Some (if negative then "-InfinityB" else "InfinityB")
     | NumNegZero => format n = Some (toLocaleString NumNegZero)
     | NumFin q =>
         ((Qabs q < 1000)%Q -> format n = Some (toLocaleString num)) /\
         ((1000 <= Qabs q)%Q /\ (Qabs q < 1000000)%Q ->
          exists x digits,
            roundedQuotient (q / 1000) x /\ fixedNotation 1 x digits /\
            format n = Some (digits ++ "K")) /\
         ((1000000 <= Qabs q)%Q /\ (Qabs q < 1000000000)%Q ->
          exists x digits,
            roundedQuotient (q / 1000000) x /\ fixedNotation 2 x digits /\
            format n = Some (digits ++ "M")) /\
         ((1000000000 <= Qabs q)%Q /\ (Qabs q < inject_Z (2 ^ 1024))%Q ->
          exists x,
            roundedQuotient (q / 1000000000) x /\
            (((Qabs x < inject_Z (10 ^ 21))%Q /\
              exists digits,
                fixedNotation 2 x digits /\
                format n = Some (digits ++ "B")) \/
             ((inject_Z (10 ^ 21) <= Qabs x)%Q /\
              format n =
              Some (sign x ++ NumberToString (NumFin (Qabs x)) ++ "B"))))
     end).
Proof.
  cbv zeta. pose proof (Number_throws StringToNumber n) as Hthrow.
  unfold formatNumber. split; [| split; [| split]].
  - destruct (isNullOrUndefined n) eqn:Hnull.
    + destruct n as [[] | |]; try discriminate Hnull;
        split; discriminate.
    + destruct (Number StringToNumber n) as [num |].
      * split; [| intro H; apply Hthrow in H; discriminate H].
        destruct (isNaN num); [discriminate |].
        repeat match goal with
               | |- context [if ?c then _ else _] => destruct c
               end; discriminate.
      * split; [intros _; apply Hthrow |]; reflexivity.
  - intros ->. reflexivity.
  - intro H. destruct (Number StringToNumber n) as [num |];
      [exists num; reflexivity |].
    assert (E : unconvertible n = true) by (apply Hthrow; reflexivity).
    congruence.
  - intros num Hnull HN. rewrite Hnull, HN.
    destruct num as [| negative | | q]; cbn [isNaN].
    + reflexivity.
    + destruct negative; reflexivity.
    + reflexivity.
    + split; [| split; [| split]].
      * intro H.
        rewrite (ltac:(below) : absAtLeast (NumFin q) 1000000000 = false).
        rewrite (ltac:(below) : absAtLeast (NumFin q) 1000000 = false).
        rewrite (ltac:(below) : absAtLeast (NumFin q) 1000 = false).
        reflexivity.
      * intros [Hlo Hhi].
        rewrite (ltac:(below) : absAtLeast (NumFin q) 1000000000 = false).
        rewrite (ltac:(below) : absAtLeast (NumFin q) 1000000 = false).
        rewrite (ltac:(at_least) : absAtLeast (NumFin q) 1000 = true).
        destruct (divideBy_rounded q 1000) as (x & -> & Hx);
          [reflexivity | exact Hlo | |].
        { eapply Qlt_trans; [exact Hhi | reflexivity]. }
        assert (Hsmall : (Qabs x < inject_Z (10 ^ 21))%Q).
        { eapply Qlt_trans; [apply (rounded_below _ x 1000 Hx) |
                             reflexivity].
          rewrite Qabs_quotient by reflexivity.
          apply Qlt_shift_div_r; [reflexivity |].
          eapply Qlt_le_trans; [exact Hhi | discriminate]. }
        exists x, (toFixed 1 x). split; [exact Hx |].
        split; [apply toFixed_fixedNotation; lia |].
        rewrite toFixedJs_small by exact Hsmall. reflexivity.
      * intros [Hlo Hhi].
        rewrite (ltac:(below) : absAtLeast (NumFin q) 1000000000 = false).
        rewrite (ltac:(at_least) : absAtLeast (NumFin q) 1000000 = true).
        destruct (divideBy_rounded q 1000000) as (x & -> & Hx);
          [reflexivity | exact Hlo | |].
        { eapply Qlt_trans; [exact Hhi | reflexivity]. }
        assert (Hsmall : (Qabs x < inject_Z (10 ^ 21))%Q).
        { eapply Qlt_trans; [apply (rounded_below _ x 1000 Hx) |
                             reflexivity].
          rewrite Qabs_quotient by reflexivity.
          apply Qlt_shift_div_r; [reflexivity |].
          eapply Qlt_le_trans; [exact Hhi | discriminate]. }
        exists x, (toFixed 2 x). split; [exact Hx |].
        split; [apply toFixed_fixedNotation; lia |].
        rewrite toFixedJs_small by exact Hsmall. reflexivity.
      * intros [Hlo Hhi].
        rewrite (ltac:(at_least) : absAtLeast (NumFin q) 1000000000 = true).
        destruct (divideBy_rounded q 1000000000) as (x & -> & Hx);
          [reflexivity | exact Hlo | |].
        { eapply Qlt_trans; [exact Hhi | reflexivity]. }
        exists x. split; [exact Hx |].
        cbn [toFixedJs].
        destruct (Qle_bool (inject_Z (10 ^ 21)) (Qabs x)) eqn:E.
        -- right. apply Qle_bool_iff in E. split; [exact E |].
           rewrite append_associative. reflexivity.
        -- left. split.
           ++ apply Qnot_le_lt. intro H. apply Qle_bool_iff in H. congruence.
           ++ exists (toFixed 2 x).
              split; [apply toFixed_fixedNotation; lia | reflexivity].
Qed.

(** C10 as stated does not hold: whatever the host functions are,
    [formatNumber] does not return on every input value, because converting
    a Symbol throws; and a value that is not a number need not give "0",
    because the boolean [true] is converted to 1. *)
Theorem formatNumber_not_total :
  ~ (exists (StringToNumber : string -> JsNum)
            (toLocaleString NumberToString : JsNum -> string),
       forall n : Input,
       exists out : string,
         formatNumber StringToNumber toLocaleString NumberToString n =
         Some out) /\
  formatNumber sampleStringToNumber plainLocale sampleNumberToString
    (Plain (VBool true)) = Some "1".
Proof.
  split; [| reflexivity].
  intros (StringToNumber & toLocaleString & NumberToString & H).
  destruct (H ASymbol) as [out Hout]. discriminate Hout.
Qed.

Example formatNumber_samples :
  let format :=
    formatNumber sampleStringToNumber plainLocale sampleNumberToString in
  map format
    [ Plain VNull; Plain VUndef; Plain VNaN; Plain (VStr "n/a");
      Plain (VObj []); Plain (VArr []); Plain (VBool false) ] =
  repeat (Some "0") 7 /\
  map format
    [ ASymbol; Plain (VObj [("toString", VNum 1)]);
      Plain (VArr [VNum 3; VArr [VObj [("toString", VNull)]]]) ] =
  repeat None 3 /\
  map format
    [ Plain (VNum 999); Plain (VNum 1000); Plain (VNum 1150);
      Plain (VNum 1250); Plain (VStr "1500"); Plain (VNum 999999);
      Numeric (NumFin (2469135 # 2)); Plain (VNum (-2500000));
      Plain (VNum 3210000000); Plain (VNum (10 ^ 30));
      Plain (VStr "Infinity"); Numeric (NumInf true) ] =
  map Some
    [ "999"; "1.0K"; "1.1K"; "1.3K"; "1.5K"; "1000.0K"; "1.23M"; "-2.50M";
      "3.21B"; "1e+21B"; "InfinityB"; "-InfinityB" ].
Proof.
  vm_compute. repeat split; reflexivity.
Qed.

(** ** The rules of the suspicious-activity detection, one by one *)

Lemma fire_fst (c : bool) (f d : string) (st : Findings) :
  fst (fire c f d st) = (fst st ++ (if c then [f] else []))%list.
Proof.
  destruct c; simpl; [reflexivity | rewrite app_nil_r; reflexivity].
Qed.

Lemma fire_snd (c : bool) (f d : string) (st : Findings) :
  snd (fire c f d st) = (snd st ++ (if c then [d] else []))%list.
Proof.
  destruct c; simpl; [reflexivity | rewrite app_nil_r; reflexivity].
Qed.

Lemma spamRules_fst (tweets : list Tweet) (st : Findings) :
  fst (spamRules tweets st) = (fst st ++ spamFlags tweets)%list.
Proof.
  unfold spamRules, spamFlags.
  destruct (5 <=? List.length tweets)%nat;
    [| rewrite app_nil_r; reflexivity].
  rewrite !fire_fst, <- !app_assoc. reflexivity.
Qed.

(** The flags of a profile: one singleton per rule that fires, in rule
    order. *)
Lemma findings_flags (Date_parse : string -> option Z) (now : Z)
  (data : TwitterData) :
  fst (suspiciousFindings Date_parse now data) =
  ((if followingRule data then ["Unusual following pattern"] else []) ++
   (if ratioRule data then ["Suspicious follower ratio"] else []) ++
   spamFlags (tweets data) ++
   (if rapidGrowth Date_parse now data then ["Rapid follower growth"] else []))%list.
Proof.
  unfold suspiciousFindings.
  rewrite fire_fst, spamRules_fst, !fire_fst. cbn [fst app].
  rewrite <- !app_assoc. reflexivity.
Qed.

Lemma Qltb_nat_scaled (n k : nat) (a b : positive) :
  Qltb (natQ n * (Zpos a # b)) (natQ k) =
  (Zpos a * Z.of_nat n <? Zpos b * Z.of_nat k).
Proof.
  apply eq_true_iff_eq. rewrite Qltb_lt, Z.ltb_lt.
  unfold natQ, Qlt. cbn [Qnum Qden Qmult inject_Z].
  rewrite Pos.mul_1_l. lia.
Qed.

(** The ratio tests of the first two rules, in integers. *)
Lemma followingRule_integers (data : TwitterData) :
  followingRule data =
  (5000 <? followingCount data) &&
  (10 * followerCount data <? followingCount data).
Proof.
  unfold followingRule, followRatio.
  destruct (Z.ltb_spec 5000 (followingCount data)) as [Hg | Hg];
    [| reflexivity].
  cbn [andb].
  destruct (Z.ltb_spec 0 (followingCount data)) as [Hpos | Hpos]; [| lia].
  apply eq_true_iff_eq. rewrite Qltb_lt, Z.ltb_lt. unfold ZtoQ.
  assert (Hq : (0 < inject_Z (followingCount data))%Q)
    by (change 0%Q with (inject_Z 0); rewrite <- Zlt_Qlt; exact Hpos).
  assert (Hne : ~ (inject_Z (followingCount data) == 0)%Q)
    by (intro E; rewrite E in Hq; discriminate).
  rewrite <- (Qmult_lt_r _ _ _ Hq).
  rewrite (Qmult_comm (_ / _)), Qmult_div_r by exact Hne.
  unfold Qlt. cbn [Qnum Qden Qmult inject_Z]. lia.
Qed.

Lemma ratioRule_integers (data : TwitterData) :
  ratioRule data =
  (10000 <? followerCount data) &&
  (1000 * Z.max 0 (followingCount data) <? followerCount data).
Proof.
  unfold ratioRule, followRatio.
  destruct (Z.ltb_spec 10000 (followerCount data)) as [Hf | Hf];
    [| reflexivity].
  cbn [andb]. apply eq_true_iff_eq. rewrite Qltb_lt, Z.ltb_lt.
  destruct (Z.ltb_spec 0 (followingCount data)) as [Hpos | Hpos].
  - rewrite Z.max_r by lia. unfold ZtoQ.
    assert (Hq : (0 < inject_Z (followingCount data))%Q)
      by (change 0%Q with (inject_Z 0); rewrite <- Zlt_Qlt; exact Hpos).
    assert (Hne : ~ (inject_Z (followingCount data) == 0)%Q)
      by (intro E; rewrite E in Hq; discriminate).
    rewrite <- (Qmult_lt_r _ _ _ Hq).
    rewrite (Qmult_comm (_ / _)), Qmult_div_r by exact Hne.
    unfold Qlt. cbn [Qnum Qden Qmult inject_Z]. lia.
  - rewrite Z.max_l by lia. unfold ZtoQ, Qlt. cbn [Qnum Qden inject_Z]. lia.
Qed.

(** The two ratio rules never fire together. *)
Lemma ratio_rules_exclusive (data : TwitterData) :
  followingRule data && ratioRule data = false.
Proof.
  rewrite followingRule_integers, ratioRule_integers.
  repeat match goal with
         | |- context [?a <? ?b] => destruct (Z.ltb_spec a b)
         end; try reflexivity; lia.
Qed.

Lemma distinctb_NoDup (l : list string) : distinctb l = true -> NoDup l.
Proof.
  induction l as [| x l IH]; simpl; intro H; [constructor |].
  apply andb_true_iff in H as [Hx Hl]. constructor; [| apply IH, Hl].
  intro Hin. apply negb_true_iff in Hx.
  assert (existsb (String.eqb x) l = true); [| congruence].
  apply existsb_exists. exists x. split; [exact Hin | apply String.eqb_refl].
Qed.

Ltac by_rule_cases :=
  repeat match goal with
         | |- context [if ?c then _ else _] => destruct c
         end.

(** The flags are taken from the six rule names, in rule order. *)
Lemma flags_in_rule_names (Date_parse : string -> option Z) (now : Z)
  (data : TwitterData) (tweetAnalysis : JsVal) :
  let r := detectSuspiciousActivity Date_parse now data tweetAnalysis in
  incl (flags r) ruleNames /\
  flags r = filter (fun name => existsb (String.eqb name) (flags r)) ruleNames.
Proof.
  cbv zeta. rewrite flags_are_findings, findings_flags. unfold spamFlags.
  by_rule_cases; (split; [| reflexivity]);
    intros x Hx; simpl in Hx; unfold ruleNames; simpl; intuition.
Qed.

(** X1: every rule contributes its flag at most once, the flags come in rule
    order from the six names (the list of flags is the list of the six rule
    names with the names that are not flagged left out), and because the two
    ratio rules exclude each other no profile gets more than five flags. *)
Theorem flags_at_most_five (Date_parse : string -> option Z) (now : Z)
  (data : TwitterData) (tweetAnalysis : JsVal) :
  let r := detectSuspiciousActivity Date_parse now data tweetAnalysis in
  NoDup (flags r) /\ incl (flags r) ruleNames /\
  (List.length (flags r) <= 5)%nat /\
  flags r = filter (fun name => existsb (String.eqb name) (flags r)) ruleNames.
Proof.
  cbv zeta. rewrite flags_are_findings, findings_flags. unfold spamFlags.
  pose proof (ratio_rules_exclusive data) as Hex.
  destruct (followingRule data); destruct (ratioRule data);
    try discriminate Hex; by_rule_cases;
    (split; [apply distinctb_NoDup; reflexivity |]);
    (split; [| split; [simpl; lia | reflexivity]]);
    intros x Hx; simpl in Hx; unfold ruleNames; simpl; intuition.
Qed.

Lemma few_tweets_no_spam_flags (tweets : list Tweet) :
  (List.length tweets < 5)%nat -> spamFlags tweets = [].
Proof.
  intro H. unfold spamFlags.
  destruct (Nat.leb_spec 5 (List.length tweets)); [lia | reflexivity].
Qed.

Lemma few_tweets_few_flags (Date_parse : string -> option Z) (now : Z)
  (data : TwitterData) :
  (List.length (tweets data) < 5)%nat ->
  (List.length (fst (suspiciousFindings Date_parse now data)) <= 2)%nat.
Proof.
  intro H. rewrite findings_flags, (few_tweets_no_spam_flags _ H).
  pose proof (ratio_rules_exclusive data) as Hex.
  destruct (followingRule data); destruct (ratioRule data);
    try discriminate Hex; by_rule_cases; simpl; lia.
Qed.

(** X2: a profile with fewer than five tweets can only be flagged by one
    ratio rule and by the account-age rule, so it has at most two flags and
    its risk level is never "High". *)
Theorem few_tweets_never_high (Date_parse : string -> option Z) (now : Z)
  (data : TwitterData) (tweetAnalysis : JsVal) :
  (List.length (tweets data) < 5)%nat ->
  let r := detectSuspiciousActivity Date_parse now data tweetAnalysis in
  (List.length (flags r) <= 2)%nat /\ riskLevel r <> "High".
Proof.
  intros H r. subst r.
  pose proof (few_tweets_few_flags Date_parse now data H) as Hlen.
  rewrite riskLevel_of_count, flags_are_findings.
  split; [exact Hlen |].
  destruct (fst (suspiciousFindings Date_parse now data))
    as [| f1 [| f2 [| f3 rest]]]; simpl in *; try discriminate; lia.
Qed.

Lemma few_tweets_never_high_witness :
  (List.length
     (flags (detectSuspiciousActivity isoParser march1st2024
               establishedAccount VUndef)) <= 2)%nat /\
  riskLevel (detectSuspiciousActivity isoParser march1st2024
               establishedAccount VUndef) <> "High".
Proof.
  apply (few_tweets_never_high isoParser march1st2024 establishedAccount VUndef).
  simpl. lia.
Defined.

(** A flag is in the list exactly when its rule fired. *)
Lemma fired_flags (Date_parse : string -> option Z) (now : Z)
  (data : TwitterData) :
  let fl := fst (suspiciousFindings Date_parse now data) in
  let enough := (5 <=? List.length (tweets data))%nat in
  (In "Unusual following pattern" fl <-> followingRule data = true) /\
  (In "Suspicious follower ratio" fl <-> ratioRule data = true) /\
  (In "Repetitive content" fl <->
   enough && repetitiveRule (tweets data) = true) /\
  (In "Link spam pattern" fl <-> enough && linkRule (tweets data) = true) /\
  (In "Hashtag spam" fl <-> enough && hashtagRule (tweets data) = true) /\
  (In "Rapid follower growth" fl <-> rapidGrowth Date_parse now data = true).
Proof.
  cbv zeta. rewrite findings_flags. unfold spamFlags.
  destruct (followingRule data); destruct (ratioRule data);
  destruct (5 <=? List.length (tweets data))%nat;
  destruct (repetitiveRule (tweets data));
  destruct (linkRule (tweets data));
  destruct (hashtagRule (tweets data));
  destruct (rapidGrowth Date_parse now data);
  cbn [app In andb];
  repeat split; intros; try reflexivity; try discriminate;
  repeat match goal with
         | H : _ \/ _ |- _ => destruct H
         | H : False |- _ => destruct H
         end; try discriminate; auto 8.
Qed.

(** X3: the two ratio rules in whole numbers.  "Unusual following pattern" is
    flagged exactly when more than 5000 accounts are followed and they
    outnumber the followers more than tenfold; "Suspicious follower ratio"
    exactly when there are more than 10000 followers and more than 1000 times
    as many followers as followed accounts, which every such profile
    following nobody satisfies. *)
Theorem ratio_rules_in_integers (Date_parse : string -> option Z) (now : Z)
  (data : TwitterData) (tweetAnalysis : JsVal) :
  let r := detectSuspiciousActivity Date_parse now data tweetAnalysis in
  let f := followerCount data in
  let g := followingCount data in
  (In "Unusual following pattern" (flags r) <-> 5000 < g /\ 10 * f < g) /\
  (In "Suspicious follower ratio" (flags r) <->
   10000 < f /\ 1000 * Z.max 0 g < f).
Proof.
  cbv zeta. rewrite flags_are_findings.
  destruct (fired_flags Date_parse now data) as (H1 & H2 & _).
  rewrite H1, H2, followingRule_integers, ratioRule_integers.
  rewrite !andb_true_iff, !Z.ltb_lt. split; reflexivity.
Qed.

(** X4: the three spam rules in whole numbers.  With five tweets or more,
    "Link spam pattern" is flagged exactly when more than four tweets in five
    carry a link, "Repetitive content" exactly when more than three tweets in
    ten repeat the text of an earlier tweet, "Hashtag spam" exactly when the
    hashtags number more than five times the tweets; with fewer than five
    tweets none of them is flagged. *)
Theorem spam_rules_in_integers (Date_parse : string -> option Z) (now : Z)
  (data : TwitterData) (tweetAnalysis : JsVal) :
  let r := detectSuspiciousActivity Date_parse now data tweetAnalysis in
  let n := List.length (tweets data) in
  (In "Link spam pattern" (flags r) <->
   (5 <= n /\ 4 * n < 5 * List.length (filter hasLink (tweets data)))%nat) /\
  (In "Repetitive content" (flags r) <->
   (5 <= n /\ 3 * n < 10 * duplicateCount (tweets data))%nat) /\
  (In "Hashtag spam" (flags r) <->
   (5 <= n /\ 5 * n < hashtagTotal (tweets data))%nat).
Proof.
  cbv zeta. rewrite flags_are_findings.
  destruct (fired_flags Date_parse now data) as (_ & _ & H3 & H4 & H5 & _).
  rewrite H3, H4, H5. unfold linkRule, repetitiveRule, hashtagRule.
  rewrite !Qltb_nat_scaled, !andb_true_iff, !Nat.leb_le, !Z.ltb_lt,
    Nat.ltb_lt.
  repeat split; lia.
Qed.

(** X5: what the account-age rule does.  "Rapid follower growth" is flagged
    exactly when the join date passes the guard and parses, the profile has
    more than 10000 followers, and the account is younger than 10950 days:
    the months and years of an older age are read back as days. *)
Theorem rapid_growth_in_days (Date_parse : string -> option Z) (now : Z)
  (data : TwitterData) (tweetAnalysis : JsVal) :
  let r := detectSuspiciousActivity Date_parse now data tweetAnalysis in
  In "Rapid follower growth" (flags r) <->
  usableJoinDate (joinDate data) = true /\
  10000 < followerCount data /\
  exists days : Z,
    ageInDays Date_parse now (joinDate data) = Some days /\ days < 10950.
Proof.
  cbv zeta. rewrite flags_are_findings.
  destruct (fired_flags Date_parse now data) as (_ & _ & _ & _ & _ & H6).
  rewrite H6, rapidGrowth_fires_iff, !andb_true_iff, Z.ltb_lt.
  destruct (ageInDays Date_parse now (joinDate data)) as [d |].
  - rewrite Z.ltb_lt. split.
    + intros [[Hu Hf] Hd]. repeat split; trivial. exists d. auto.
    + intros (Hu & Hf & d' & Hd' & Hlt). injection Hd' as <-. auto.
  - split; [intros [_ H]; discriminate H |].
    intros (_ & _ & d & Hd & _). discriminate Hd.
Qed.

(** ** Counting repeated texts *)

Lemma findIndex_bound {A : Type} (p : A -> bool) (l : list A) (j : nat) :
  findIndex p l = Some j -> (j < List.length l)%nat.
Proof.
  revert j. induction l as [| x l IH]; simpl; intros j H; [discriminate |].
  destruct (p x); [injection H as <-; lia |].
  destruct (findIndex p l) as [k |]; [| discriminate].
  injection H as <-. specialize (IH k eq_refl). lia.
Qed.

Lemma findIndex_none {A : Type} (p : A -> bool) (l : list A) :
  findIndex p l = None <-> existsb p l = false.
Proof.
  induction l as [| x l IH]; simpl; [tauto |].
  destruct (p x); simpl; [split; discriminate |].
  destruct (findIndex p l); simpl in *; [| tauto].
  split; [discriminate |]. intro H. destruct IH as [_ IH].
  specialize (IH H). discriminate IH.
Qed.

Lemma findIndex_app {A : Type} (p : A -> bool) (pre l : list A) :
  findIndex p (pre ++ l) =
  match findIndex p pre with
  | Some j => Some j
  | None => option_map (Nat.add (List.length pre)) (findIndex p l)
  end.
Proof.
  induction pre as [| x pre IH]; simpl.
  - destruct (findIndex p l); reflexivity.
  - destruct (p x); [reflexivity |]. rewrite IH.
    destruct (findIndex p pre); [reflexivity |].
    destruct (findIndex p l); reflexivity.
Qed.

(** The index test of [duplicateCount] at the tweet that follows [pre]: the
    first tweet with its text is not itself exactly when [pre] has one. *)
Lemma first_index_is_earlier (pre rest : list Tweet) (t : Tweet) :
  match findIndex (fun x => String.eqb (text x) (text t)) (pre ++ t :: rest) with
  | Some j => negb (j =? List.length pre)%nat
  | None => true
  end = existsb (fun x => String.eqb (text x) (text t)) pre.
Proof.
  rewrite findIndex_app.
  destruct (findIndex _ pre) as [j |] eqn:Hpre.
  - pose proof (findIndex_bound _ _ _ Hpre) as Hlt.
    destruct (Nat.eqb_spec j (List.length pre)); [lia |].
    destruct (existsb _ pre) eqn:He; [reflexivity |].
    apply findIndex_none in He. congruence.
  - apply findIndex_none in Hpre. rewrite Hpre. simpl.
    rewrite String.eqb_refl. simpl.
    rewrite Nat.add_0_r, Nat.eqb_refl. reflexivity.
Qed.

Lemma duplicates_from (whole pre l : list Tweet) :
  whole = (pre ++ l)%list ->
  List.length
    (filter
       (fun it : nat * Tweet =>
          match findIndex (fun x => String.eqb (text x) (text (snd it))) whole with
          | Some j => negb (j =? fst it)%nat
          | None => true
          end)
       (combine (seq (List.length pre) (List.length l)) l)) =
  repeatsAfter pre l.
Proof.
  revert pre. induction l as [| t l IH]; intros pre Hw; [reflexivity |].
  cbn [List.length seq combine filter repeatsAfter fst snd].
  rewrite Hw at 1. rewrite first_index_is_earlier.
  specialize (IH (pre ++ [t])%list).
  rewrite length_app, Nat.add_1_r in IH. cbn [List.length] in IH.
  rewrite <- app_assoc in IH. specialize (IH Hw).
  destruct (existsb _ pre); cbn [List.length]; rewrite IH; reflexivity.
Qed.

Lemma repeatsAfter_none (pre l : list Tweet) :
  repeatsAfter pre l = O <->
  NoDup (map text l) /\
  (forall t, In t l -> ~ In (text t) (map text pre)).
Proof.
  revert pre. induction l as [| t l IH]; intro pre; simpl.
  - split; [intros _; split; [constructor | intros ? []] | reflexivity].
  - assert (Hex : forall (q : list Tweet) (s : string),
               existsb (fun x => String.eqb (text x) s) q = true <->
               In s (map text q)).
    { intros q s. rewrite existsb_exists, in_map_iff.
      split; intros (x & H1 & H2).
      - exists x. apply String.eqb_eq in H2. auto.
      - exists x. subst s. split; [exact H2 | apply String.eqb_refl]. }
    split.
    + intro H. apply Nat.eq_add_0 in H as [Ht Hrest].
      apply IH in Hrest as [Hnd Hpre].
      assert (Hnot : ~ In (text t) (map text pre)).
      { intro Hin. apply Hex in Hin. rewrite Hin in Ht. discriminate Ht. }
      split.
      * constructor; [| exact Hnd]. intro Hin.
        apply in_map_iff in Hin as (u & Hu & Hin).
        apply (Hpre u Hin). rewrite map_app, Hu. apply in_or_app.
        right. left. reflexivity.
      * intros u [<- | Hu]; [exact Hnot |].
        intro Hin. apply (Hpre u Hu). rewrite map_app.
        apply in_or_app. left. exact Hin.
    + intros [Hnd Hpre]. inversion Hnd as [| ? ? Hnotin Hnd']; subst.
      assert (Ht : existsb (fun x => String.eqb (text x) (text t)) pre = false).
      { destruct (existsb _ pre) eqn:He; [| reflexivity].
        apply Hex in He. exfalso. apply (Hpre t); auto. }
      rewrite Ht. simpl. apply IH. split; [exact Hnd' |].
      intros u Hu Hin. rewrite map_app in Hin.
      apply in_app_or in Hin as [Hin | [Heq | []]].
      * apply (Hpre u); auto.
      * apply Hnotin. rewrite Heq. apply in_map. exact Hu.
Qed.

(** X6: the duplicates that the "Repetitive content" rule counts are the
    tweets whose text is the text of an earlier tweet of the list (the first
    tweet with a given text is not counted); there is none exactly when all
    texts differ, and there are never as many as tweets. *)
Theorem duplicateCount_counts_repeats (tweets : list Tweet) :
  duplicateCount tweets = repeatsAfter [] tweets /\
  (duplicateCount tweets = O <-> NoDup (map text tweets)) /\
  (duplicateCount tweets <= List.length tweets - 1)%nat.
Proof.
  assert (Hdup : duplicateCount tweets = repeatsAfter [] tweets)
    by (unfold duplicateCount; apply (duplicates_from tweets []); reflexivity).
  split; [exact Hdup |]. rewrite Hdup. split.
  - rewrite repeatsAfter_none. split; [tauto |].
    intro H. split; [exact H | intros ? ? []].
  - destruct tweets as [| t l]; simpl; [lia |].
    rewrite Nat.sub_0_r.
    assert (Hle : forall l pre, (repeatsAfter pre l <= List.length l)%nat).
    { induction l0 as [| u l0 IHl]; intro pre; simpl; [lia |].
      specialize (IHl (pre ++ [u])%list).
      destruct (existsb _ pre); lia. }
    apply Hle.
Qed.

(** ** The report: warnings and health of one profile *)

Lemma fire_details (c : bool) (f d : string) (st : Findings) :
  isWarning d -> Forall isWarning (snd st) ->
  Forall isWarning (snd (fire c f d st)).
Proof.
  intros Hd Hst. rewrite fire_snd. apply Forall_app. split; [exact Hst |].
  destruct c; repeat constructor. exact Hd.
Qed.

Lemma findings_details (Date_parse : string -> option Z) (now : Z)
  (data : TwitterData) :
  Forall isWarning (snd (suspiciousFindings Date_parse now data)).
Proof.
  unfold suspiciousFindings, spamRules.
  apply fire_details; [discriminate |].
  destruct (5 <=? List.length (tweets data))%nat;
    repeat (apply fire_details; [discriminate |]); constructor.
Qed.

Lemma fire_paired (c : bool) (f d : string) (st : Findings) :
  detailOf f = d -> snd st = map detailOf (fst st) ->
  snd (fire c f d st) = map detailOf (fst (fire c f d st)).
Proof.
  intros Hd Hst. rewrite fire_fst, fire_snd, map_app, Hst.
  destruct c; [cbn [map]; rewrite Hd |]; reflexivity.
Qed.

(** Every detail is the one that belongs to the flag at the same position. *)
Lemma findings_paired (Date_parse : string -> option Z) (now : Z)
  (data : TwitterData) :
  snd (suspiciousFindings Date_parse now data) =
  map detailOf (fst (suspiciousFindings Date_parse now data)).
Proof.
  unfold suspiciousFindings, spamRules.
  apply fire_paired; [reflexivity |].
  destruct (5 <=? List.length (tweets data))%nat;
    repeat (apply fire_paired; [reflexivity |]); reflexivity.
Qed.

Lemma paired_details_in_table (fl : list string) :
  incl fl ruleNames -> incl (combine fl (map detailOf fl)) ruleDetails.
Proof.
  induction fl as [| f fl IH]; intro Hincl; [intros ? [] |].
  intros pair [<- | Hin].
  - assert (Hf : In f ruleNames) by (apply Hincl; left; reflexivity).
    unfold ruleNames in Hf. simpl in Hf.
    repeat (destruct Hf as [<- | Hf]; [vm_compute; tauto |]).
    contradiction.
  - apply IH; [| exact Hin]. intros x Hx. apply Hincl. right. exact Hx.
Qed.

(** X7: the [warnings] of the Twitter report are the details of the rules
    that fired, one per flag and in the order of the flags: each warning is
    the detail that [detectSuspiciousActivity] pushes together with the flag
    at the same position.  The placeholder "No suspicious activity detected"
    is never among them, and there is no warning exactly when the risk level
    is "Low". *)
Theorem warnings_are_fired_details (Date_parse : string -> option Z)
  (now : Z) (depthOfTweets : list Tweet -> JsVal) (data : TwitterData) :
  let r := reportSuspicious Date_parse now depthOfTweets data in
  let w := reportWarnings Date_parse now depthOfTweets data in
  w = map detailOf (flags r) /\
  incl (combine (flags r) w) ruleDetails /\
  ~ In "✅ No suspicious activity detected" w /\
  List.length w = List.length (flags r) /\
  (w = [] <-> riskLevel r = "Low").
Proof.
  cbv zeta.
  assert (Hw : reportWarnings Date_parse now depthOfTweets data =
               map detailOf
                 (flags (reportSuspicious Date_parse now depthOfTweets data))).
  { unfold reportWarnings, reportSuspicious, detectSuspiciousActivity.
    pose proof (findings_aligned Date_parse now data) as Hlen.
    pose proof (findings_paired Date_parse now data) as Hp.
    destruct (suspiciousFindings Date_parse now data) as [fl dt].
    cbn [fst snd flags details] in *.
    destruct fl as [| f fl]; destruct dt as [| d dt];
      try discriminate Hlen; cbn [List.length Nat.ltb Nat.leb];
      [reflexivity | exact Hp]. }
  split; [exact Hw |]. split.
  { rewrite Hw. apply paired_details_in_table.
    apply (flags_in_rule_names Date_parse now data
             (analyzeTweetsInDepth depthOfTweets (tweets data))). }
  unfold reportWarnings, reportSuspicious, detectSuspiciousActivity.
  pose proof (findings_aligned Date_parse now data) as Hlen.
  pose proof (findings_details Date_parse now data) as Hd.
  destruct (suspiciousFindings Date_parse now data) as [fl dt].
  cbn [fst snd flags details riskLevel] in *.
  destruct fl as [| f fl]; destruct dt as [| d dt];
    try discriminate Hlen; cbn [List.length Nat.ltb Nat.leb Nat.eqb].
  - repeat split; auto.
  - split; [| split].
    + intro Hin. rewrite Forall_forall in Hd. apply (Hd _ Hin). reflexivity.
    + symmetry. exact Hlen.
    + split; [discriminate |].
      destruct (List.length fl <=? 1)%nat; discriminate.
Qed.

(** The health score is the clamped sum of 100, the penalty of the flags and
    the bonus of the profile. *)
Lemma health_score_formula (data : TwitterData) (tweetAnalysis : JsVal)
  (suspiciousActivity : SuspiciousActivity) :
  score (calculateAccountHealth data tweetAnalysis suspiciousActivity) =
  Z.max 0
    (Z.min 100
       (100 - 15 * Z.of_nat (List.length (flags suspiciousActivity))
        + healthBonus data tweetAnalysis)).
Proof.
  unfold calculateAccountHealth, healthBonus. cbv zeta. cbn [score].
  f_equal. f_equal.
  by_rule_cases; cbn [fst adjust]; lia.
Qed.

(** X8: with the profile and the tweet analysis fixed, more flags never give
    a higher health score, and a flag costs at most 15 points. *)
Theorem health_score_antitone (data : TwitterData) (tweetAnalysis : JsVal)
  (fewer more : SuspiciousActivity) :
  (List.length (flags fewer) <= List.length (flags more))%nat ->
  let extra := Z.of_nat (List.length (flags more) - List.length (flags fewer)) in
  score (calculateAccountHealth data tweetAnalysis more) <=
  score (calculateAccountHealth data tweetAnalysis fewer) /\
  score (calculateAccountHealth data tweetAnalysis fewer) - 15 * extra <=
  score (calculateAccountHealth data tweetAnalysis more).
Proof.
  intros H extra. subst extra. rewrite !health_score_formula. lia.
Qed.

Lemma health_score_antitone_witness :
  score (calculateAccountHealth linkSpamAccount VUndef
           (detectSuspiciousActivity (fun _ => None) 0 linkSpamAccount VUndef)) <=
  score (calculateAccountHealth linkSpamAccount VUndef
           (detectSuspiciousActivity isoParser march1st2024
              establishedAccount VUndef)) /\
  score (calculateAccountHealth linkSpamAccount VUndef
           (detectSuspiciousActivity isoParser march1st2024
              establishedAccount VUndef))
  - 15 * Z.of_nat
           (List.length
              (flags (detectSuspiciousActivity (fun _ => None) 0
                        linkSpamAccount VUndef))
            - List.length
                (flags (detectSuspiciousActivity isoParser march1st2024
                          establishedAccount VUndef))) <=
  score (calculateAccountHealth linkSpamAccount VUndef
           (detectSuspiciousActivity (fun _ => None) 0 linkSpamAccount VUndef)).
Proof.
  apply (health_score_antitone linkSpamAccount VUndef
           (detectSuspiciousActivity isoParser march1st2024
              establishedAccount VUndef)
           (detectSuspiciousActivity (fun _ => None) 0 linkSpamAccount VUndef)).
  vm_compute. lia.
Defined.

Lemma healthBonus_lower (data : TwitterData) (tweetAnalysis : JsVal) :
  (if (5 <=? List.length (tweets data))%nat then 0
   else if (List.length (tweets data) <? 2)%nat then -20 else -10)
  <= healthBonus data tweetAnalysis.
Proof.
  unfold healthBonus. cbv zeta. by_rule_cases; lia.
Qed.

(** X9: in a generated report, where the health score is computed from the
    flags of the same profile, the score is never below 25: five flags need
    five tweets, which earn the activity bonus, and fewer than five tweets
    allow two flags at most. *)
Theorem report_health_at_least_25 (Date_parse : string -> option Z)
  (now : Z) (depthOfTweets : list Tweet -> JsVal) (data : TwitterData) :
  25 <= score (reportHealth Date_parse now depthOfTweets data) <= 100.
Proof.
  unfold reportHealth, reportSuspicious. rewrite health_score_formula.
  rewrite flags_are_findings.
  pose proof (healthBonus_lower data
                (analyzeTweetsInDepth depthOfTweets (tweets data))) as Hb.
  assert (Hfive :
    (List.length (fst (suspiciousFindings Date_parse now data)) <= 5)%nat).
  { rewrite findings_flags. unfold spamFlags.
    pose proof (ratio_rules_exclusive data) as Hex.
    destruct (followingRule data); destruct (ratioRule data);
      try discriminate Hex; by_rule_cases; simpl; lia. }
  destruct (Nat.leb_spec 5 (List.length (tweets data))) as [Hn | Hn].
  - lia.
  - pose proof (few_tweets_few_flags Date_parse now data Hn) as Htwo.
    destruct (List.length (tweets data) <? 2)%nat; lia.
Qed.

(** The bound of 25 is reached, with five flags and a poor follower ratio. *)
Example report_health_25_reached :
  List.length
    (flags (reportSuspicious isoParser march1st2024 (fun _ => VUndef)
              fiveFlagAccount)) = 5%nat /\
  score (reportHealth isoParser march1st2024 (fun _ => VUndef)
           fiveFlagAccount) = 25.
Proof.
  vm_compute. split; reflexivity.
Qed.

(** ** The rendered account age *)



(** The text of a usable join date: the figure, a space and the unit, or
    "NaN years" when the date does not parse. *)
Lemma accountAge_rendered (Date_parse : string -> option Z) (now : Z)
  (v : JsVal) :
  usableJoinDate v = true ->
  calculateAccountAge Date_parse now v =
  match ageInDays Date_parse now v with
  | Some days => Z_to_string (ageFigure days) ++ String " " (ageUnit days)
  | None => "NaN years"
  end.
Proof.
  intro Hu. unfold usableJoinDate in Hu. apply andb_true_iff in Hu as [Ht Hs].
  unfold calculateAccountAge, ageInDays.
  rewrite Ht. apply negb_true_iff in Hs. rewrite Hs. cbn [negb orb].
  destruct (newDate Date_parse v) as [j |]; cbn [option_map];
    [| reflexivity].
  set (d := Math_ceil _). clearbody d.
  change (ZtoQ d / 30)%Q with (ZtoQ d / ZtoQ 30)%Q.
  change (ZtoQ d / 365)%Q with (ZtoQ d / ZtoQ 365)%Q.
  rewrite !floor_of_quotient. unfold ageFigure, ageUnit.
  destruct (d <? 30); [reflexivity |].
  destruct (d <? 365); reflexivity.
Qed.


(** X11: for a join date that parses, the account age is the figure followed
    by its unit: the days themselves below 30 days, 1 to 12 months below 365
    days, and at least 1 year from there on (a month is 30 days, a year 365,
    both rounded down). *)
Theorem accountAge_figure_and_unit (Date_parse : string -> option Z)
  (now : Z) (v : JsVal) (days : Z) :
  usableJoinDate v = true ->
  ageInDays Date_parse now v = Some days ->
  calculateAccountAge Date_parse now v =
    Z_to_string (ageFigure days) ++ " " ++ ageUnit days /\
  0 <= days /\
  (days < 30 -> ageFigure days = days /\ ageUnit days = "days") /\
  (30 <= days < 365 ->
   1 <= ageFigure days <= 12 /\ ageUnit days = "months") /\
  (365 <= days ->
   1 <= ageFigure days /\ 365 * ageFigure days <= days /\
   ageUnit days = "years").
Proof.
  intros Hu Hd. rewrite (accountAge_rendered _ _ _ Hu), Hd.
  pose proof (ageInDays_nonneg _ _ _ _ Hd) as Hnn.
  split; [reflexivity |]. split; [exact Hnn |].
  unfold ageFigure, ageUnit.
  destruct (Z.ltb_spec days 30); destruct (Z.ltb_spec days 365);
    repeat split; intros; try lia; try reflexivity.
  - apply Z.div_le_lower_bound; lia.
  - assert (days / 30 < 13) by (apply Z.div_lt_upper_bound; lia). lia.
  - apply Z.div_le_lower_bound; lia.
  - apply Z.mul_div_le. lia.
Qed.

Lemma accountAge_figure_and_unit_witness :
  calculateAccountAge isoParser march1st2024 (joinDate establishedAccount) =
    Z_to_string (ageFigure 60) ++ " " ++ ageUnit 60 /\
  0 <= 60 /\
  (60 < 30 -> ageFigure 60 = 60 /\ ageUnit 60 = "days") /\
  (30 <= 60 < 365 -> 1 <= ageFigure 60 <= 12 /\ ageUnit 60 = "months") /\
  (365 <= 60 ->
   1 <= ageFigure 60 /\ 365 * ageFigure 60 <= 60 /\ ageUnit 60 = "years").
Proof.
  apply (accountAge_figure_and_unit isoParser march1st2024
           (joinDate establishedAccount) 60); reflexivity.
Defined.

(** ** The top tweets *)

Lemma outranks_trans (a b c : Tweet) :
  outranks a b -> outranks b c -> outranks a c.
Proof.
  intros (sa & sb & Ha & Hb & Hab) (sb' & sc & Hb' & Hc & Hbc).
  rewrite Hb in Hb'. injection Hb' as <-.
  exists sa, sc. repeat split; trivial. lia.
Qed.

Lemma ranks_outranks (a b : Tweet) :
  weightedScore a <> None -> weightedScore b <> None ->
  ranksBefore a b -> outranks a b.
Proof.
  unfold ranksBefore, outranks. intros Ha Hb H.
  destruct (weightedScore a) as [sa |]; [| contradiction].
  destruct (weightedScore b) as [sb |]; [| contradiction].
  exists sa, sb. auto.
Qed.

Lemma sorted_outranks (l : list Tweet) :
  Forall (fun p => weightedScore p <> None) l ->
  Sorted ranksBefore l -> StronglySorted outranks l.
Proof.
  intros Hnum Hs. apply Sorted_StronglySorted.
  - intros a b c. apply outranks_trans.
  - induction Hs as [| a l Hs IH Hhd]; [constructor |].
    inversion Hnum as [| ? ? Ha Hl]; subst.
    constructor; [apply IH, Hl |].
    destruct Hhd as [| b l Hab]; constructor.
    inversion Hl; subst. apply ranks_outranks; assumption.
Qed.

Lemma head_part_dominates {A : Type} (R : A -> A -> Prop) (l : list A)
  (k : nat) (a b : A) :
  StronglySorted R l -> In a (firstn k l) -> In b (skipn k l) -> R a b.
Proof.
  intro Hs. revert k. induction Hs as [| x l Hs IH Hx]; intros k Ha Hb.
  - rewrite firstn_nil in Ha. destruct Ha.
  - destruct k as [| k]; [destruct Ha |].
    simpl in Ha, Hb. destruct Ha as [<- | Ha].
    + rewrite Forall_forall in Hx. apply Hx.
      rewrite <- (firstn_skipn k l). apply in_or_app. right. exact Hb.
    + apply (IH k); assumption.
Qed.

(** X12: when every count of every tweet is a number, the top tweets are the
    first three (or all, if fewer) of a rearrangement of the tweets in which
    each of them has a weighted score at least that of every tweet left
    out. *)
Theorem top_tweets_dominate (t : Tweet) (rest : list Tweet)
  (followers : JsVal) :
  Forall (fun p => weightedScore p <> None) (t :: rest) ->
  let r := analyzeEngagement (t :: rest) followers in
  exists ranked : list Tweet,
    Permutation ranked (t :: rest) /\
    topTweets r = map topTweetOf (firstn 3 ranked) /\
    List.length (topTweets r) = Nat.min 3 (List.length (t :: rest)) /\
    forall a b : Tweet,
      In a (firstn 3 ranked) -> In b (skipn 3 ranked) -> outranks a b.
Proof.
  intros Hnum r. subst r.
  exists (sortBy byScoreDesc (t :: rest)).
  pose proof (sortBy_perm byScoreDesc (t :: rest)) as Hperm.
  split; [exact Hperm |]. split; [reflexivity |]. split.
  - unfold analyzeEngagement. cbn [topTweets]. unfold slice0.
    rewrite length_map, length_firstn, (Permutation_length Hperm).
    reflexivity.
  - intros a b Ha Hb.
    apply (head_part_dominates outranks (sortBy byScoreDesc (t :: rest)) 3);
      trivial.
    apply sorted_outranks.
    + apply (Permutation_Forall (Permutation_sym Hperm)). exact Hnum.
    + apply sortBy_sorted; [exact before_ranks | exact not_before_ranks].
Qed.

Lemma top_tweets_dominate_witness :
  exists ranked : list Tweet,
    Permutation ranked fourTweets /\
    topTweets (analyzeEngagement fourTweets (VNum 7)) =
      map topTweetOf (firstn 3 ranked) /\
    List.length (topTweets (analyzeEngagement fourTweets (VNum 7))) =
      Nat.min 3 (List.length fourTweets) /\
    forall a b : Tweet,
      In a (firstn 3 ranked) -> In b (skipn 3 ranked) -> outranks a b.
Proof.
  apply (top_tweets_dominate (tweetWith "first" 1 2 3)
           [ tweetWith "second" 10 0 0; tweetWith "third" 0 0 4;
             tweetWith "fourth" 5 5 5 ] (VNum 7)).
  repeat constructor; vm_compute; discriminate.
Defined.

(** ** Counts that arrive as numbers *)

Lemma leadingDigits_whole (u : Decimal.uint) :
  leadingDigits (DecimalString.NilEmpty.string_of_uint u) = u.
Proof.
  induction u; simpl; congruence.
Qed.

Lemma digits_have_no_prefix (u : Decimal.uint) :
  u <> Decimal.Nil ->
  let s := DecimalString.NilEmpty.string_of_uint u in
  trimStart s = s /\ stripSign s = (false, s) /\ hexPrefix s = None /\
  trimStart (String "-" s) = String "-" s.
Proof.
  intros Hu s. subst s.
  destruct u as [| v | v | v | v | v | v | v | v | v | v];
    try (exfalso; apply Hu; reflexivity);
    (repeat split; try reflexivity);
    destruct v; reflexivity.
Qed.

Lemma parseIntString_digits (n : N) :
  parseIntString (N_to_string n) = Some (Z.of_N n) /\
  parseIntString ("-" ++ N_to_string n) = Some (- Z.of_N n).
Proof.
  unfold N_to_string.
  pose proof (DecimalN.Unsigned.of_to n) as Hval.
  assert (Hnn : N.to_uint n <> Decimal.Nil).
  { destruct n; simpl; [discriminate |].
    apply DecimalPos.Unsigned.to_uint_nonnil. }
  destruct (digits_have_no_prefix (N.to_uint n) Hnn) as (Ht & Hs & Hx & Hm).
  unfold parseIntString. cbn [append]. rewrite Ht, Hs, Hm. cbn [stripSign].
  change (Ascii.eqb "-" "-") with true. cbv iota.
  rewrite Hx, leadingDigits_whole.
  destruct (N.to_uint n); try (exfalso; apply Hnn; reflexivity);
    rewrite <- Hval; split; reflexivity.
Qed.

Lemma parseInt_number (z : Z) : parseInt (VNum z) = Some z.
Proof.
  unfold parseInt. cbn [ToString]. destruct z as [| p | p]; cbn [Z_to_string].
  - reflexivity.
  - apply (parseIntString_digits (Npos p)).
  - apply (parseIntString_digits (Npos p)).
Qed.

(** X13: a count that arrives as an integer number (of magnitude below 10^21,
    where JavaScript writes numbers in plain digits) is read back unchanged by
    [parseInt(c || 0)], a missing count ([undefined], [null], the empty
    string, [NaN]) is read as 0, and the follower count of a profile whose
    [followers] is that number is the number itself. *)
Theorem numeric_counts_read_back (z : Z) (data : TwitterData) :
  Z.abs z < 10 ^ 21 ->
  followers data = VNum z ->
  countOf (VNum z) = Some z /\
  followerCount data = z /\
  countOf VUndef = Some 0 /\ countOf VNull = Some 0 /\
  countOf (VStr "") = Some 0 /\ countOf VNaN = Some 0.
Proof.
  intros _ Hf. unfold followerCount, countOf, jsOr. rewrite Hf.
  cbn [truthy]. split; [| split; [| repeat split; reflexivity]].
  - destruct (Z.eqb_spec z 0) as [-> | Hz]; cbn [negb];
      [reflexivity | apply parseInt_number].
  - rewrite parseInt_number. destruct z; reflexivity.
Qed.

Lemma numeric_counts_read_back_witness :
  countOf (VNum 200) = Some 200 /\
  followerCount linkSpamAccount = 200 /\
  countOf VUndef = Some 0 /\ countOf VNull = Some 0 /\
  countOf (VStr "") = Some 0 /\ countOf VNaN = Some 0.
Proof.
  apply (numeric_counts_read_back 200 linkSpamAccount);
    [reflexivity | reflexivity].
Defined.

(** ** The hashtag and mention counters *)

Lemma bump_keys (k : string) (freq : list (string * Z)) :
  map fst (bump k freq) =
  if existsb (String.eqb k) (map fst freq) then map fst freq
  else (map fst freq ++ [k])%list.
Proof.
  induction freq as [| [k' c] freq IH]; simpl; [reflexivity |].
  destruct (String.eqb k k'); simpl; [reflexivity |].
  rewrite IH. destruct (existsb _ _); reflexivity.
Qed.

Lemma orElse_positive (c : Z) : 1 <= c -> orElse (Some c) 0 = c.
Proof.
  destruct c; simpl; [lia | reflexivity | lia].
Qed.

Lemma bump_total (k : string) (freq : list (string * Z)) :
  Forall (fun e => 1 <= snd e) freq ->
  totalCount (bump k freq) = totalCount freq + 1 /\
  Forall (fun e => 1 <= snd e) (bump k freq).
Proof.
  induction 1 as [| [k' c] freq Hc Hall IH].
  - split; [reflexivity | repeat constructor; simpl; lia].
  - destruct IH as [IHt IHf]. cbn [snd] in Hc. cbn [bump].
    destruct (String.eqb k k').
    + rewrite (orElse_positive c Hc). unfold totalCount in *.
      cbn [fold_right snd]. split; [lia |].
      constructor; [cbn [snd]; lia | exact Hall].
    + unfold totalCount in *. cbn [fold_right snd]. split; [lia |].
      constructor; [exact Hc | exact IHf].
Qed.

Lemma existsb_eqb_In (k : string) (l : list string) :
  existsb (String.eqb k) l = true <-> In k l.
Proof.
  rewrite existsb_exists. split.
  - intros (x & Hx & He). apply String.eqb_eq in He. subst. exact Hx.
  - intro H. exists k. split; [exact H | apply String.eqb_refl].
Qed.

Lemma bump_invariant (k : string) (freq : list (string * Z)) :
  NoDup (map fst freq) ->
  NoDup (map fst (bump k freq)) /\
  (forall x, In x (map fst (bump k freq)) <-> x = k \/ In x (map fst freq)) /\
  (List.length (bump k freq) <= S (List.length freq))%nat.
Proof.
  intro Hnd.
  assert (Hlen : List.length (bump k freq) = List.length (map fst (bump k freq)))
    by (rewrite length_map; reflexivity).
  rewrite Hlen, bump_keys.
  destruct (existsb (String.eqb k) (map fst freq)) eqn:He.
  - apply existsb_eqb_In in He. rewrite length_map.
    split; [exact Hnd |]. split; [| lia].
    intro x. split; [auto |]. intros [-> | Hx]; assumption.
  - assert (Hnot : ~ In k (map fst freq)).
    { intro Hin. apply existsb_eqb_In in Hin. congruence. }
    rewrite length_app, length_map. cbn [List.length].
    split; [| split; [| lia]].
    + apply NoDup_app; [exact Hnd | repeat constructor; intros [] |].
      intros y Hy [<- | []]. contradiction.
    + intro x. rewrite in_app_iff. cbn [In]. intuition.
Qed.

Lemma countAll_from (keys : list string) (freq : list (string * Z)) :
  NoDup (map fst freq) -> Forall (fun e => 1 <= snd e) freq ->
  let out := fold_left (fun f k => bump k f) keys freq in
  NoDup (map fst out) /\
  Forall (fun e => 1 <= snd e) out /\
  totalCount out = totalCount freq + Z.of_nat (List.length keys) /\
  (forall x, In x (map fst out) <-> In x keys \/ In x (map fst freq)) /\
  (List.length out <= List.length freq + List.length keys)%nat.
Proof.
  revert freq. induction keys as [| k keys IH]; intros freq Hnd Hpos; simpl.
  - repeat split; auto; [lia | intros [[] |]; auto | lia].
  - destruct (bump_invariant k freq Hnd) as (Hnd' & Hin' & Hlen').
    destruct (bump_total k freq Hpos) as (Htot' & Hpos').
    destruct (IH (bump k freq) Hnd' Hpos') as (H1 & H2 & H3 & H4 & H5).
    repeat split; trivial; try lia.
    + intro Hx. apply H4 in Hx as [Hx | Hx]; auto.
      apply Hin' in Hx as [-> | Hx]; auto.
    + intros [[<- | Hx] | Hx]; apply H4; auto;
        right; apply Hin'; auto.
Qed.

(** X14: the counter behind the hashtag and mention statistics, fed with
    items none of which is a property name that plain objects inherit, has
    each distinct item once as a key, every count is at least 1, the counts
    add up to the number of items, and so [unique] never exceeds [total]. *)
Theorem counter_invariants (keys : list string) :
  Forall (fun k => ~ In k inheritedKeys) keys ->
  let freq := countAll keys in
  NoDup (map fst freq) /\
  (forall x, In x (map fst freq) <-> In x keys) /\
  Forall (fun e => 1 <= snd e) freq /\
  totalCount freq = Z.of_nat (List.length keys) /\
  (List.length freq <= List.length keys)%nat.
Proof.
  intros _. cbv zeta. unfold countAll.
  destruct (countAll_from keys [] (NoDup_nil _) (Forall_nil _))
    as (H1 & H2 & H3 & H4 & H5).
  repeat split; trivial.
  - intro Hx. apply H4 in Hx as [Hx | []]. exact Hx.
  - intro Hx. apply H4. left. exact Hx.
Qed.

Lemma counter_invariants_witness :
  let freq := countAll ["#a"; "#b"; "#a"] in
  NoDup (map fst freq) /\
  (forall x, In x (map fst freq) <-> In x ["#a"; "#b"; "#a"]) /\
  Forall (fun e => 1 <= snd e) freq /\
  totalCount freq = Z.of_nat (List.length ["#a"; "#b"; "#a"]) /\
  (List.length freq <= List.length ["#a"; "#b"; "#a"])%nat.
Proof.
  apply (counter_invariants ["#a"; "#b"; "#a"]).
  repeat constructor; simpl; intuition discriminate.
Defined.

Lemma filter_partition_perm {A : Type} (p : A -> bool) (l : list A) :
  Permutation (filter p l ++ filter (fun x => negb (p x)) l) l.
Proof.
  induction l as [| x l IH]; simpl; [reflexivity |].
  destruct (p x); simpl.
  - apply perm_skip, IH.
  - symmetry. apply Permutation_cons_app. symmetry. exact IH.
Qed.

Lemma Object_entries_perm (freq : list (string * Z)) :
  Permutation (Object_entries freq) freq.
Proof.
  unfold Object_entries.
  rewrite sortBy_perm. apply filter_partition_perm.
Qed.

(** X15: the top hashtags (and mentions) are the first five, or all if there
    are fewer, of the counter's entries rearranged so that every listed entry
    has a count at least that of every entry left out; each is written
    [key (count)]. *)
Theorem top_five_most_frequent (freq : list (string * Z)) :
  exists ranked : list (string * Z),
    Permutation ranked freq /\
    topFive freq = map renderEntry (firstn 5 ranked) /\
    List.length (topFive freq) = Nat.min 5 (List.length freq) /\
    forall a b : string * Z,
      In a (firstn 5 ranked) -> In b (skipn 5 ranked) -> snd b <= snd a.
Proof.
  set (byCount := fun a b : string * Z => Some (snd b - snd a)).
  exists (sortBy byCount (Object_entries freq)).
  assert (Hperm : Permutation (sortBy byCount (Object_entries freq)) freq)
    by (rewrite sortBy_perm; apply Object_entries_perm).
  split; [exact Hperm |]. split; [reflexivity |]. split.
  - unfold topFive, slice0. fold byCount.
    rewrite length_map, length_firstn, (Permutation_length Hperm).
    reflexivity.
  - intros a b Ha Hb.
    apply (head_part_dominates (fun x y : string * Z => snd y <= snd x)
             (sortBy byCount (Object_entries freq)) 5); trivial.
    apply Sorted_StronglySorted; [intros x y z; lia |].
    apply sortBy_sorted; unfold before, byCount; intros x y H.
    + apply Z.leb_le in H. lia.
    + apply Z.leb_gt in H. lia.
Qed.

(** ** Sentiment *)

(** X16: every tweet falls in exactly one sentiment class, a tweet with a
    positive and a negative word being neutral, so the three counts behind
    the percentages add up to the number of tweets. *)
Theorem sentiment_classes_partition (tweets : list Tweet) :
  (List.length (filter (isMood Positive) tweets)
   + List.length (filter (isMood Negative) tweets)
   + List.length (filter (isMood Neutral) tweets) = List.length tweets)%nat /\
  forall t : Tweet,
    let lowered := toLowerCase (text t) in
    let hasPositive := existsb (fun w => includes lowered w) positiveWords in
    let hasNegative := existsb (fun w => includes lowered w) negativeWords in
    (isMood Positive t = hasPositive && negb hasNegative) /\
    (isMood Negative t = hasNegative && negb hasPositive) /\
    (isMood Neutral t = Bool.eqb hasPositive hasNegative).
Proof.
  split.
  - induction tweets as [| t l IH]; [reflexivity |]. cbn [filter].
    destruct (isMood Positive t) eqn:E1; destruct (isMood Negative t) eqn:E2;
    destruct (isMood Neutral t) eqn:E3;
    unfold isMood in E1, E2, E3; destruct (moodOf t); try discriminate;
    cbn [List.length]; lia.
  - intro t. cbv zeta. unfold isMood, moodOf.
    destruct (existsb _ positiveWords); destruct (existsb _ negativeWords);
      repeat split; reflexivity.
Qed.

(** ** Posting consistency *)

Lemma newestFirst_sorted (l : list Z) :
  StronglySorted (fun x y => y <= x) (sortBy newestFirst l).
Proof.
  apply Sorted_StronglySorted; [intros x y z; lia |].
  apply sortBy_sorted; unfold before, newestFirst; intros x y H.
  - apply Z.leb_le in H. lia.
  - apply Z.leb_gt in H. lia.
Qed.

(** Two descending lists with the same elements are the same list. *)
Lemma descending_unique (l l' : list Z) :
  StronglySorted (fun x y => y <= x) l ->
  StronglySorted (fun x y => y <= x) l' ->
  Permutation l l' -> l = l'.
Proof.
  intro Hs. revert l'. induction Hs as [| x l Hs IH Hx]; intros l' Hs' Hp.
  - apply Permutation_nil in Hp. subst. reflexivity.
  - destruct Hs' as [| y l' Hs' Hy].
    + apply Permutation_sym, Permutation_nil in Hp. discriminate Hp.
    + rewrite Forall_forall in Hx, Hy.
      assert (Hxy : x = y).
      { assert (In x (y :: l')) as [Hin | Hin]
          by (apply (Permutation_in _ Hp); left; reflexivity);
        assert (In y (x :: l)) as [Hin' | Hin']
          by (apply (Permutation_in _ (Permutation_sym Hp)); left; reflexivity);
        try congruence.
        specialize (Hx _ Hin'). specialize (Hy _ Hin). lia. }
      subst y. f_equal. apply IH; [exact Hs' |].
      apply (Permutation_cons_inv Hp).
Qed.

Lemma sortBy_newestFirst_perm (l l' : list Z) :
  Permutation l l' -> sortBy newestFirst l = sortBy newestFirst l'.
Proof.
  intro Hp. apply descending_unique; try apply newestFirst_sorted.
  rewrite !sortBy_perm. exact Hp.
Qed.

Lemma calculateConsistency_spelled (Date_parse : string -> option Z)
  (tweets : list Tweet) :
  calculateConsistency Date_parse tweets =
  if (List.length tweets <? 2)%nat then "Insufficient data"
  else
    let timestamps := sortBy newestFirst (datedTimes Date_parse tweets) in
    if (List.length timestamps <? 2)%nat then "Insufficient data"
    else
      let gaps := map ZtoQ (gapsOf timestamps) in
      let n := natQ (List.length gaps) in
      let avgGap := (sumQ gaps / n)%Q in
      let variance :=
        (sumQ (map (fun g => (g - avgGap) * (g - avgGap)) gaps) / n)%Q in
      if ratioBelow variance avgGap (1 # 2) then "Very Consistent"
      else if ratioBelow variance avgGap 1 then "Consistent"
      else if ratioBelow variance avgGap 2 then "Moderate"
      else "Irregular".
Proof.
  reflexivity.
Qed.

(** X17: the consistency label does not depend on the order in which the
    tweets are listed. *)
Theorem consistency_ignores_order (Date_parse : string -> option Z)
  (tweets tweets' : list Tweet) :
  Permutation tweets tweets' ->
  calculateConsistency Date_parse tweets =
  calculateConsistency Date_parse tweets'.
Proof.
  intro Hp. rewrite !calculateConsistency_spelled.
  rewrite (Permutation_length Hp).
  assert (Hs : sortBy newestFirst (datedTimes Date_parse tweets) =
               sortBy newestFirst (datedTimes Date_parse tweets')).
  { apply sortBy_newestFirst_perm. unfold datedTimes.
    apply Permutation_flat_map. exact Hp. }
  rewrite Hs. reflexivity.
Qed.

Lemma consistency_ignores_order_witness :
  calculateConsistency marchParser marchTweets = "Very Consistent" /\
  calculateConsistency marchParser marchTweets =
  calculateConsistency marchParser
    (skipn 2 marchTweets ++ firstn 2 marchTweets).
Proof.
  split; [vm_compute; reflexivity |].
  apply (consistency_ignores_order marchParser marchTweets
           (skipn 2 marchTweets ++ firstn 2 marchTweets)).
  rewrite <- (firstn_skipn 2 marchTweets) at 1. apply Permutation_app_comm.
Defined.

Lemma datedTimes_length (Date_parse : string -> option Z)
  (tweets : list Tweet) :
  (List.length (datedTimes Date_parse tweets) <= List.length tweets)%nat.
Proof.
  unfold datedTimes. induction tweets as [| t l IH]; simpl; [lia |].
  rewrite length_app. destruct (newDate Date_parse (time t)); simpl; lia.
Qed.

(** X18: the consistency is "Insufficient data" exactly when fewer than two
    tweets carry a time that parses; the check on the number of tweets adds
    nothing to it. *)
Theorem consistency_insufficient_iff (Date_parse : string -> option Z)
  (tweets : list Tweet) :
  calculateConsistency Date_parse tweets = "Insufficient data" <->
  (List.length (datedTimes Date_parse tweets) < 2)%nat.
Proof.
  rewrite calculateConsistency_spelled. cbv zeta.
  pose proof (datedTimes_length Date_parse tweets) as Hle.
  pose proof (Permutation_length
                (sortBy_perm newestFirst (datedTimes Date_parse tweets)))
    as Hlen.
  rewrite Hlen.
  destruct (Nat.ltb_spec (List.length tweets) 2) as [Hn | Hn].
  - split; [lia | reflexivity].
  - destruct (Nat.ltb_spec (List.length (datedTimes Date_parse tweets)) 2)
      as [Hd | Hd].
    + split; [intros _; exact Hd | reflexivity].
    + split; [| lia].
      by_rule_cases; discriminate.
Qed.

Lemma sortBy_repeat (d : Z) (k : nat) :
  sortBy newestFirst (repeat d k) = repeat d k.
Proof.
  induction k as [| k IH]; [reflexivity |].
  cbn [repeat sortBy fold_right]. fold (sortBy newestFirst (repeat d k)).
  rewrite IH. destruct k as [| k]; [reflexivity |].
  cbn [repeat insertSorted]. unfold before, newestFirst.
  rewrite Z.sub_diag. reflexivity.
Qed.

Lemma gapsOf_step (a b : Z) (l : list Z) :
  gapsOf (a :: b :: l) = (a - b) :: gapsOf (b :: l).
Proof.
  reflexivity.
Qed.

Lemma gapsOf_repeat (d : Z) (k : nat) :
  gapsOf (repeat d (S k)) = repeat 0 k.
Proof.
  induction k as [| k IH]; [reflexivity |].
  change (repeat d (S (S k))) with (d :: d :: repeat d k).
  rewrite gapsOf_step. change (d :: repeat d k) with (repeat d (S k)).
  rewrite IH, Z.sub_diag. reflexivity.
Qed.

Lemma sumQ_zeros (k : nat) : sumQ (map ZtoQ (repeat 0 k)) = 0%Q.
Proof.
  unfold sumQ. induction k as [| k IH]; [reflexivity |]. exact IH.
Qed.

Lemma datedTimes_same_instant (Date_parse : string -> option Z)
  (tweets : list Tweet) (d : Z) :
  Forall (fun t => newDate Date_parse (time t) = Some d) tweets ->
  datedTimes Date_parse tweets = repeat d (List.length tweets).
Proof.
  unfold datedTimes. induction 1 as [| t l Ht _ IH]; [reflexivity |].
  cbn [flat_map List.length repeat]. rewrite Ht, IH. reflexivity.
Qed.

(** X19: two or more tweets that all carry the same instant are labelled
    "Irregular": every gap is zero, so the standard deviation over the mean
    gap is 0/0 and no threshold is met. *)
Theorem same_instant_is_irregular (Date_parse : string -> option Z)
  (tweets : list Tweet) (d : Z) :
  (2 <= List.length tweets)%nat ->
  Forall (fun t => newDate Date_parse (time t) = Some d) tweets ->
  calculateConsistency Date_parse tweets = "Irregular".
Proof.
  intros Hn Hsame. rewrite calculateConsistency_spelled. cbv zeta.
  rewrite (datedTimes_same_instant _ _ _ Hsame), sortBy_repeat, repeat_length.
  destruct (Nat.ltb_spec (List.length tweets) 2); [lia |].
  destruct (List.length tweets) as [| [| k]]; try lia.
  rewrite gapsOf_repeat, sumQ_zeros, length_map, repeat_length.
  unfold ratioBelow.
  assert (Hz : Qcompare (0 / natQ (S k)) 0 = Eq) by reflexivity.
  rewrite Hz. reflexivity.
Qed.

Lemma same_instant_is_irregular_witness :
  calculateConsistency isoParser
    [ stampedTweet "2024-01-01T00:00:00.000Z";
      stampedTweet "2024-01-01T00:00:00.000Z" ] = "Irregular".
Proof.
  apply (same_instant_is_irregular isoParser
           [ stampedTweet "2024-01-01T00:00:00.000Z";
             stampedTweet "2024-01-01T00:00:00.000Z" ] 1704067200000).
  - simpl. lia.
  - repeat constructor.
Defined.

Lemma progression_descending (newest gap : Z) (s n : nat) :
  0 <= gap ->
  StronglySorted (fun x y => y <= x)
    (map (fun i => newest - gap * Z.of_nat i) (seq s n)).
Proof.
  intro Hg. revert s. induction n as [| n IH]; intro s; [constructor |].
  cbn [seq map]. constructor; [apply IH |].
  apply Forall_forall. intros y Hy.
  apply in_map_iff in Hy as (i & <- & Hi). apply in_seq in Hi. nia.
Qed.

Lemma progression_gaps (newest gap : Z) (s m : nat) :
  gapsOf (map (fun i => newest - gap * Z.of_nat i) (seq s (S m))) =
  repeat gap m.
Proof.
  revert s. induction m as [| m IH]; intro s; [reflexivity |].
  change (seq s (S (S m))) with (s :: S s :: seq (S (S s)) m).
  cbn [map]. rewrite gapsOf_step.
  change (newest - gap * Z.of_nat (S s)
          :: map (fun i => newest - gap * Z.of_nat i) (seq (S (S s)) m))
    with (map (fun i => newest - gap * Z.of_nat i) (seq (S s) (S m))).
  rewrite IH. cbn [repeat]. f_equal. lia.
Qed.

Lemma fold_Qplus_repeat (q a : Q) (m : nat) :
  (fold_left Qplus (repeat q m) a == a + natQ m * q)%Q.
Proof.
  revert a. induction m as [| m IH]; intro a.
  - unfold natQ. simpl. ring.
  - cbn [repeat fold_left]. rewrite IH. unfold natQ.
    rewrite Nat2Z.inj_succ. unfold Z.succ. rewrite inject_Z_plus. ring.
Qed.

Lemma ratioBelow_met (variance avgGap c : Q) :
  (0 < avgGap)%Q -> (variance < c * c * avgGap * avgGap)%Q ->
  ratioBelow variance avgGap c = true.
Proof.
  intros Ha Hv. unfold ratioBelow.
  apply Qgt_alt in Ha. rewrite Ha. apply Qltb_lt. exact Hv.
Qed.

(** X20: tweets whose times are evenly spaced, by any positive gap and listed
    in any order, are labelled "Very Consistent". *)
Theorem evenly_spaced_is_very_consistent (Date_parse : string -> option Z)
  (tweets : list Tweet) (newest gap : Z) (n : nat) :
  0 < gap -> (2 <= n)%nat ->
  Permutation (datedTimes Date_parse tweets) (evenlySpaced newest gap n) ->
  calculateConsistency Date_parse tweets = "Very Consistent".
Proof.
  intros Hgap Hn Hp. rewrite calculateConsistency_spelled. cbv zeta.
  assert (Hlen : List.length (datedTimes Date_parse tweets) = n).
  { rewrite (Permutation_length Hp). unfold evenlySpaced.
    rewrite length_map, length_seq. reflexivity. }
  pose proof (datedTimes_length Date_parse tweets) as Hle.
  assert (Hsorted : sortBy newestFirst (datedTimes Date_parse tweets) =
                    evenlySpaced newest gap n).
  { apply descending_unique.
    - apply newestFirst_sorted.
    - apply progression_descending. lia.
    - rewrite sortBy_perm. exact Hp. }
  rewrite Hsorted.
  destruct (Nat.ltb_spec (List.length tweets) 2); [lia |].
  unfold evenlySpaced at 1. rewrite length_map, length_seq.
  destruct (Nat.ltb_spec n 2); [lia |].
  destruct n as [| m]; [lia |]. unfold evenlySpaced.
  rewrite progression_gaps, map_repeat, repeat_length.
  set (q := ZtoQ gap).
  assert (Hq : (0 < q)%Q)
    by (unfold q, ZtoQ; change 0%Q with (inject_Z 0);
        rewrite <- Zlt_Qlt; exact Hgap).
  assert (Hm : ~ (natQ m == 0)%Q).
  { unfold natQ. change 0%Q with (inject_Z 0).
    rewrite inject_Z_injective. lia. }
  assert (Havg : (sumQ (repeat q m) / natQ m == q)%Q).
  { unfold sumQ. rewrite fold_Qplus_repeat. field. exact Hm. }
  set (avgGap := (sumQ (repeat q m) / natQ m)%Q) in *.
  rewrite map_repeat.
  assert (Hvar :
    (sumQ (repeat ((q - avgGap) * (q - avgGap)) m) / natQ m == 0)%Q).
  { unfold sumQ. rewrite fold_Qplus_repeat, Havg. field. exact Hm. }
  rewrite (ratioBelow_met _ avgGap (1 # 2)); [reflexivity | |].
  - rewrite Havg. exact Hq.
  - rewrite Hvar, Havg.
    assert (H4 : ((1 # 2) * (1 # 2) * q * q == (1 # 4) * (q * q))%Q) by ring.
    rewrite H4. apply Qmult_lt_0_compat; [reflexivity |].
    apply Qmult_lt_0_compat; exact Hq.
Qed.

Lemma evenly_spaced_is_very_consistent_witness :
  calculateConsistency
    (fun s => if String.eqb s "a" then Some 3000 else
              if String.eqb s "b" then Some 2000 else Some 1000)
    [stampedTweet "b"; stampedTweet "c"; stampedTweet "a"]
  = "Very Consistent".
Proof.
  apply (evenly_spaced_is_very_consistent _ _ 3000 1000 3);
    [lia | lia |].
  change (Permutation [2000; 1000; 3000] [3000; 2000; 1000]).
  apply Permutation_sym, (Permutation_cons_app [2000; 1000] []).
  reflexivity.
Defined.

(** ** The LinkedIn report *)

(** X21: the profile completeness is a whole percentage between 0 and 100,
    one of eight values (sevenths rounded to the nearest integer); it is 100
    exactly when all seven criteria hold and 0 exactly when none does. *)
Theorem completeness_is_a_percentage (data : LinkedInData)
  (more : LinkedInMore) :
  let c := calculateProfileCompleteness data more in
  let met := List.length (filter (fun b => b) (completenessCriteria data more)) in
  0 <= c <= 100 /\
  c = nth met [0; 14; 29; 43; 57; 71; 86; 100] 0 /\
  (c = 100 <-> forallb (fun b => b) (completenessCriteria data more) = true) /\
  (c = 0 <-> existsb (fun b => b) (completenessCriteria data more) = false).
Proof.
  cbv zeta. unfold calculateProfileCompleteness, completenessCriteria.
  destruct (hasName (name data));
  destruct (longerThan (headline data) 10);
  destruct (longerThan (about data) 50);
  destruct (specified (location more));
  destruct (moreThan (experiences data) 0);
  destruct (atLeast (skills data) 3);
  destruct (truthy (profileImage more));
  vm_compute; repeat split; intros; try discriminate; try reflexivity.
Qed.

(** In a list without repetition, [find] returns an element exactly when the
    test holds of it and of none of the elements before it. *)
Lemma find_is_first {A : Type} (p : A -> bool) (pre post : list A) (x : A) :
  NoDup (pre ++ x :: post) ->
  find p (pre ++ x :: post) = Some x <->
  p x = true /\ forall y, In y pre -> p y = false.
Proof.
  induction pre as [| a pre IH]; intro Hnd; cbn [app find].
  - destruct (p x) eqn:Hx; split.
    + intros _. split; [reflexivity | intros ? []].
    + reflexivity.
    + intro Hf. apply find_some in Hf as [_ Hf]. congruence.
    + intros [Hf _]. discriminate Hf.
  - inversion Hnd as [| ? ? Hnotin Hnd']; subst.
    destruct (p a) eqn:Ha.
    + split.
      * intro E. injection E as ->. exfalso. apply Hnotin.
        apply in_or_app. right. left. reflexivity.
      * intros [_ Hpre]. rewrite (Hpre a) in Ha by (left; reflexivity).
        discriminate Ha.
    + rewrite (IH Hnd'). split.
      * intros [Hx Hpre]. split; [exact Hx |].
        intros y [<- | Hy]; [exact Ha | apply Hpre, Hy].
      * intros [Hx Hpre]. split; [exact Hx |].
        intros y Hy. apply Hpre. right. exact Hy.
Qed.

(** X22: for a headline that is a string, the industry focus is the first of
    the six industries, in the order Technology, Finance, Marketing,
    Healthcare, Education, Engineering, whose name occurs in the headline
    without regard to (ASCII) case: it is a given industry exactly when that
    name occurs and none of the names before it in the list does.  It is
    "Various Industries" exactly when no name occurs; a missing headline
    makes [extractIndustry] throw. *)
Theorem industry_is_first_match (h : string) :
  let named (industry : string) :=
    includes (toLowerCase h) (toLowerCase industry) in
  extractIndustry None = None /\
  exists r : string,
    extractIndustry (Some h) = Some r /\
    In r ("Various Industries" :: industries) /\
    (r = "Various Industries" <->
     forall industry, In industry industries -> named industry = false) /\
    (forall industry, In industry industries -> r = industry ->
     named industry = true) /\
    (named "Technology" = true -> r = "Technology") /\
    (named "Technology" = false -> named "Finance" = true -> r = "Finance") /\
    (forall (earlier : list string) (industry : string) (later : list string),
       industries = (earlier ++ industry :: later)%list ->
       (r = industry <->
        named industry = true /\
        forall other, In other earlier -> named other = false)).
Proof.
  cbv zeta. split; [reflexivity |].
  unfold extractIndustry.
  set (named := fun industry => includes (toLowerCase h) (toLowerCase industry)).
  assert (Hnot : ~ In "Various Industries" industries)
    by (unfold industries; simpl; intuition discriminate).
  assert (Hnd : NoDup industries)
    by (apply distinctb_NoDup; reflexivity).
  destruct (find named industries) as [i |] eqn:Hf.
  - destruct (find_some _ _ Hf) as [Hin Hi].
    unfold named in Hi. cbv beta in Hi.
    exists i. split; [reflexivity |]. split; [right; exact Hin |].
    split; [| split; [| split; [| split]]].
    + split.
      * intros ->. contradiction.
      * intro Hnone. rewrite (Hnone i Hin) in Hi. discriminate Hi.
    + intros industry _ <-. exact Hi.
    + intro H1. unfold industries in Hf. unfold named in Hf. cbn [find] in Hf.
      rewrite H1 in Hf. injection Hf as <-. reflexivity.
    + intros H1 H2. unfold industries in Hf. unfold named in Hf.
      cbn [find] in Hf.
      rewrite H1, H2 in Hf. injection Hf as <-. reflexivity.
    + intros earlier industry later Hsplit.
      rewrite Hsplit in Hf, Hnd.
      pose proof (find_is_first named earlier later industry Hnd) as Hfirst.
      rewrite Hf in Hfirst. split.
      * intros <-. apply Hfirst. reflexivity.
      * intro H. apply Hfirst in H. injection H as ->. reflexivity.
  - pose proof (find_none _ _ Hf) as Hnone.
    unfold named in Hnone. cbv beta in Hnone.
    exists "Various Industries". split; [reflexivity |].
    split; [left; reflexivity |]. split; [| split; [| split; [| split]]].
    + split; [intros _; exact Hnone | reflexivity].
    + intros industry Hin <-. contradiction.
    + intro H1. rewrite (Hnone "Technology") in H1 by (simpl; tauto).
      discriminate H1.
    + intros _ H2. rewrite (Hnone "Finance") in H2 by (simpl; tauto).
      discriminate H2.
    + intros earlier industry later Hsplit.
      assert (Hin : In industry industries)
        by (rewrite Hsplit; apply in_or_app; right; left; reflexivity).
      split.
      * intros <-. contradiction.
      * intros [Hyes _]. rewrite (Hnone industry Hin) in Hyes.
        discriminate Hyes.
Qed.

Lemma report_needs_experiences (data : LinkedInData) (more : LinkedInMore)
  (r : LinkedInReport) :
  generateLinkedInReport data more = Some r ->
  exists exps : list JsVal,
    experiences data = Some exps /\
    experienceCount r = List.length exps /\
    overallScore r = calculateLinkedInHealth data /\
    linkedInRatingOf r = linkedInRating data /\
    recommendationsOf r = linkedInRecommendations data /\
    careerStage r =
      (if (5 <=? List.length exps)%nat then "Experienced (5+ positions)"
       else if (3 <=? List.length exps)%nat then "Mid-Career (3-4 positions)"
       else if (1 <=? List.length exps)%nat then "Early Career (1-2 positions)"
       else "Starting Career") /\
    professionalLevel r =
      (if (5 <=? List.length exps)%nat then "Senior Professional"
       else if (3 <=? List.length exps)%nat then "Mid-Level Professional"
       else if (1 <=? List.length exps)%nat then "Early Career Professional"
       else "Entry Level / Student").
Proof.
  unfold generateLinkedInReport, determineProfessionalLevel,
    determineCareerStage.
  destruct (experiences data) as [exps |]; [| discriminate].
  destruct (extractIndustry (headline data)); [| discriminate].
  destruct (connections more); [| discriminate].
  destruct (forallb _ exps); [| discriminate].
  intro H. injection H as <-. exists exps. repeat split.
Qed.

(** X23: whenever [generateLinkedInReport] returns, [experiences] was an
    array, and the rating, the career stage, the professional level, the
    health score and the recommendations agree on it: with no position the
    rating is "Limited", the score at most 85 and the two "limited data"
    recommendations are given; with one or two positions the rating is "Fair"
    and the score between 60 and 95; with three or more the rating is "Good"
    and the score at least 65. *)
Theorem linkedin_report_consistent (data : LinkedInData)
  (more : LinkedInMore) (r : LinkedInReport) :
  generateLinkedInReport data more = Some r ->
  exists exps : list JsVal,
    experiences data = Some exps /\
    experienceCount r = List.length exps /\
    (linkedInRatingOf r = "Limited" <-> exps = []) /\
    (exps = [] ->
     careerStage r = "Starting Career" /\
     professionalLevel r = "Entry Level / Student" /\
     50 <= overallScore r <= 85 /\
     List.length (recommendationsOf r) = 2%nat) /\
    ((1 <= List.length exps < 3)%nat ->
     linkedInRatingOf r = "Fair" /\
     careerStage r = "Early Career (1-2 positions)" /\
     professionalLevel r = "Early Career Professional" /\
     60 <= overallScore r <= 95 /\
     (4 <= List.length (recommendationsOf r) <= 6)%nat) /\
    ((3 <= List.length exps)%nat ->
     linkedInRatingOf r = "Good" /\
     65 <= overallScore r <= 100 /\
     (3 <= List.length (recommendationsOf r) <= 5)%nat).
Proof.
  intro H.
  destruct (report_needs_experiences data more r H)
    as (exps & He & Hc & Hs & Hr & Hrec & Hstage & Hlevel).
  exists exps. split; [exact He |]. split; [exact Hc |].
  rewrite Hs, Hr, Hrec, Hstage, Hlevel.
  unfold linkedInRating, linkedInRecommendations, calculateLinkedInHealth.
  rewrite He. cbn [atLeast moreThan fewerThan].
  destruct exps as [| e1 [| e2 [| e3 rest]]]; cbn [List.length Nat.leb Nat.ltb].
  - split; [split; reflexivity |].
    split; [| split; intro; lia].
    intros _. repeat split; try reflexivity; by_rule_cases; cbv zeta; lia.
  - split; [split; discriminate |].
    split; [discriminate |]. split; [| intro; lia].
    intros _. repeat split; try reflexivity; by_rule_cases; cbv zeta;
      cbn [List.length app]; lia.
  - split; [split; discriminate |].
    split; [discriminate |]. split; [| intro; lia].
    intros _. repeat split; try reflexivity; by_rule_cases; cbv zeta;
      cbn [List.length app]; lia.
  - split; [split; discriminate |].
    split; [discriminate |]. split; [intro; lia |].
    intros _. repeat split; try reflexivity; by_rule_cases; cbv zeta;
      cbn [List.length app]; lia.
Qed.

Lemma linkedin_report_consistent_witness :
  exists exps : list JsVal,
    experiences completeProfile = Some exps /\
    experienceCount completeReport = List.length exps /\
    (linkedInRatingOf completeReport = "Limited" <-> exps = []) /\
    (exps = [] ->
     careerStage completeReport = "Starting Career" /\
     professionalLevel completeReport = "Entry Level / Student" /\
     50 <= overallScore completeReport <= 85 /\
     List.length (recommendationsOf completeReport) = 2%nat) /\
    ((1 <= List.length exps < 3)%nat ->
     linkedInRatingOf completeReport = "Fair" /\
     careerStage completeReport = "Early Career (1-2 positions)" /\
     professionalLevel completeReport = "Early Career Professional" /\
     60 <= overallScore completeReport <= 95 /\
     (4 <= List.length (recommendationsOf completeReport) <= 6)%nat) /\
    ((3 <= List.length exps)%nat ->
     linkedInRatingOf completeReport = "Good" /\
     65 <= overallScore completeReport <= 100 /\
     (3 <= List.length (recommendationsOf completeReport) <= 5)%nat).
Proof.
  apply (linkedin_report_consistent completeProfile completeMore completeReport).
  reflexivity.
Defined.

(** ** The file name of the PDF report *)

Lemma safe_is_not_forbidden (c : N) :
  isSafeUnit c = true -> isForbidden c = false.
Proof.
  unfold isSafeUnit, isForbidden, isSpaceUnit. intro H.
  apply not_true_iff_false. intro F.
  repeat rewrite ?orb_true_iff, ?andb_true_iff, ?N.leb_le, ?N.eqb_eq in H.
  repeat rewrite ?orb_true_iff, ?andb_true_iff, ?N.leb_le, ?N.eqb_eq in F.
  repeat match goal with
         | D : _ \/ _ |- _ => destruct D
         end; lia.
Qed.

Lemma replaceRuns_units (inRun : bool) (s : list N) :
  Forall (fun c => c = underscore \/ (In c s /\ isForbidden c = false))
         (replaceRuns inRun s) /\
  (List.length (replaceRuns inRun s) <= List.length s)%nat.
Proof.
  revert inRun. induction s as [| c s IH]; intro inRun; simpl.
  - split; [constructor | lia].
  - assert (Hw : forall b,
        Forall (fun x => x = underscore \/
                         ((c = x \/ In x s) /\ isForbidden x = false))
               (replaceRuns b s)).
    { intro b. destruct (IH b) as [H _].
      eapply Forall_impl; [| exact H]. simpl. intuition. }
    destruct (isForbidden c) eqn:Hc; [destruct inRun |].
    + split; [apply Hw | destruct (IH true); lia].
    + split; [constructor; [left; reflexivity | apply Hw]
             | simpl; destruct (IH true); lia].
    + split; [constructor; [right; auto | apply Hw]
             | simpl; destruct (IH false); lia].
Qed.

Lemma replaceRuns_safe (s : list N) (inRun : bool) :
  Forall (fun c => isSafeUnit c = true) s -> replaceRuns inRun s = s.
Proof.
  intro H. revert inRun. induction H as [| c s Hc _ IH]; intro inRun;
    [reflexivity |].
  simpl. rewrite (safe_is_not_forbidden c Hc), IH. reflexivity.
Qed.

Lemma replaceUnsafe_safe (s : list N) :
  Forall (fun c => isSafeUnit c = true) (replaceUnsafe s) /\
  List.length (replaceUnsafe s) = List.length s /\
  (Forall (fun c => isSafeUnit c = true) s -> replaceUnsafe s = s).
Proof.
  unfold replaceUnsafe. split; [| split].
  - apply Forall_forall. intros x Hx.
    apply in_map_iff in Hx as (c & <- & _).
    destruct (isSafeUnit c) eqn:Hc; [exact Hc | reflexivity].
  - apply length_map.
  - induction 1 as [| c s Hc _ IH]; [reflexivity |].
    simpl. rewrite Hc, IH. reflexivity.
Qed.

Lemma safeFilenamePart_units_safe (s : list N) :
  Forall (fun c => isSafeUnit c = true) (safeFilenamePart s).
Proof.
  destruct s as [| c s]; [constructor |]. apply replaceUnsafe_safe.
Qed.

(** X24: every code unit of a name part is a letter, a digit, an underscore,
    a hyphen or a dot, whatever the input; the part is never longer than the
    input; and a string made of such units only is returned unchanged, so
    cleaning twice is cleaning once. *)
Theorem safeFilenamePart_is_safe (s : list N) :
  Forall (fun c => isSafeUnit c = true) (safeFilenamePart s) /\
  (List.length (safeFilenamePart s) <= List.length s)%nat /\
  (Forall (fun c => isSafeUnit c = true) s -> safeFilenamePart s = s) /\
  safeFilenamePart (safeFilenamePart s) = safeFilenamePart s.
Proof.
  pose proof safeFilenamePart_units_safe as Hsafe.
  assert (Hfix : forall t, Forall (fun c => isSafeUnit c = true) t ->
                           safeFilenamePart t = t).
  { intros t Ht. destruct t as [| c t]; [reflexivity |].
    unfold safeFilenamePart. rewrite (replaceRuns_safe _ false Ht).
    apply replaceUnsafe_safe. exact Ht. }
  split; [apply Hsafe |]. split; [| split; [apply Hfix |]].
  - destruct s as [| c s]; [simpl; lia |]. unfold safeFilenamePart.
    destruct (replaceUnsafe_safe (replaceRuns false (c :: s))) as (_ & -> & _).
    apply replaceRuns_units.
  - apply Hfix, Hsafe.
Qed.

Lemma units_not_separator (l : list N) :
  Forall (fun c => isSafeUnit c = true) l -> ~ In 47%N l /\ ~ In 92%N l.
Proof.
  intro H. rewrite Forall_forall in H.
  split; intro Hin; apply H in Hin; discriminate Hin.
Qed.

(** X25: the file name of the report, built from any handle and any
    timestamp text, consists of safe code units only: it holds no slash, no
    backslash and no other character that a Windows file name forbids, and
    it ends in ".pdf". *)
Theorem reportFilename_is_a_file_name (handle stamp : list N) :
  let name := reportFilename handle stamp in
  Forall (fun c => isSafeUnit c = true) name /\
  ~ In 47%N name /\ ~ In 92%N name /\
  Forall (fun c => isForbidden c = false) name /\
  exists stem : list N, name = (stem ++ unitsOf ".pdf")%list.
Proof.
  cbv zeta.
  assert (Hsafe : Forall (fun c => isSafeUnit c = true)
                         (reportFilename handle stamp)).
  { unfold reportFilename. cbv zeta.
    repeat (apply Forall_app; split);
      try apply safeFilenamePart_units_safe;
      vm_compute; repeat constructor. }
  split; [exact Hsafe |].
  destruct (units_not_separator _ Hsafe) as [H1 H2].
  split; [exact H1 |]. split; [exact H2 |]. split.
  - eapply Forall_impl; [| exact Hsafe]. apply safe_is_not_forbidden.
  - unfold reportFilename. cbv zeta. eexists.
    rewrite !app_assoc. reflexivity.
Qed.

(** ** The displayed follower ratio *)

Lemma toFixed_Qeq (f : nat) (x y : Q) :
  (x == y)%Q -> toFixed f x = toFixed f y.
Proof.
  intro H. unfold toFixed.
  assert (Hn : Qfloor (Qabs x * inject_Z (10 ^ Z.of_nat f) + (1 # 2))%Q =
               Qfloor (Qabs y * inject_Z (10 ^ Z.of_nat f) + (1 # 2))%Q)
    by (apply Qfloor_comp; rewrite H; reflexivity).
  assert (Hs : Qltb x 0 = Qltb y 0)
    by (unfold Qltb; rewrite H; reflexivity).
  rewrite Hn, Hs. reflexivity.
Qed.

(** X26: when the number of followed accounts is not negative, the ratio
    shown in the statistics ([calculateRatio], two decimals) is the ratio the
    suspicious-activity and health rules compare against their thresholds:
    nobody followed counts as a divisor of 1 in the one and as the follower
    count itself in the other. *)
Theorem displayed_ratio_is_rule_ratio (data : TwitterData) :
  0 <= followingCount data ->
  calculateRatio (followers data) (following data) =
  toFixed 2 (followRatio (followerCount data) (followingCount data)).
Proof.
  unfold calculateRatio, followRatio, followingCount, followerCount.
  cbv zeta. intro H.
  destruct (parseInt (following data)) as [[| p | p] |]; cbn [orElse] in *;
    try lia; try reflexivity;
    apply toFixed_Qeq; unfold ZtoQ, Qdiv; change (/ inject_Z 1)%Q with 1%Q;
    apply Qmult_1_r.
Qed.

Lemma displayed_ratio_is_rule_ratio_witness :
  calculateRatio (followers linkSpamAccount) (following linkSpamAccount) =
  toFixed 2 (followRatio (followerCount linkSpamAccount)
                         (followingCount linkSpamAccount)).
Proof.
  apply (displayed_ratio_is_rule_ratio linkSpamAccount). vm_compute.
  discriminate.
Defined.

(** ** The insights of a profile without tweets *)


